(** * CommonsShare resource publication pipeline

    A shallow embedding of [hs_core/hydroshare/resource.py]: the manifest
    builder ([get_resource_files_manifest]), the publication state machine
    ([publish_resource]), the versioning lineage operations
    ([create_new_version_resource], [delete_resource]), and the file
    helpers ([check_resource_files], [get_resource_file],
    [add_resource_files], [delete_format_metadata_after_delete_file]).

    Python objects backed by the ORM are rows of a store indexed by the
    resource short id; every call that leaves the process (storage
    backend, local file system, identifier registries, FairShake) is
    recorded in a trace, and its answer is read from an environment
    record.  Exceptions are values of [Exn]; a raised exception keeps the
    effects performed before it, as the Python code has no rollback. *)

From stdpp Require Import gmap strings list fin_maps.
From Stdlib Require Import ZArith Ascii String.

Local Open Scope string_scope.
Local Open Scope Z_scope.

(** ** Python string primitives used by the module *)

Module Py.

(** [c.lower()] on one byte: only A..Z are mapped (byte strings). *)
Definition lower_ascii (c : ascii) : ascii :=
  let n := nat_of_ascii c in
  if ((65 <=? n)%nat && (n <=? 90)%nat)%bool then ascii_of_nat (n + 32) else c.

Fixpoint lower (s : string) : string :=
  match s with
  | EmptyString => EmptyString
  | String c s' => String (lower_ascii c) (lower s')
  end.

(** [s.startswith(p)] *)
Definition startswith (s p : string) : bool := String.prefix p s.

(** [s.rfind(c)]: index of the last occurrence, [-1] when there is none.
    [rfind_from] carries the index of the head of [s]. *)
Fixpoint rfind_from (c : ascii) (s : string) (i : Z) : Z :=
  match s with
  | EmptyString => -1
  | String a s' =>
      let r := rfind_from c s' (i + 1) in
      if r =? -1 then (if Ascii.eqb a c then i else -1) else r
  end.

Definition rfind (s : string) (c : ascii) : Z := rfind_from c s 0.

Fixpoint drop_chars (n : nat) (s : string) : string :=
  match n, s with
  | O, _ => s
  | S n', EmptyString => EmptyString
  | S n', String _ s' => drop_chars n' s'
  end.

(** [s[k:]]; a negative [k] counts from the end. *)
Definition slice_from (s : string) (k : Z) : string :=
  if k <? 0
  then drop_chars (Z.to_nat (Z.max 0 (Z.of_nat (String.length s) + k))) s
  else drop_chars (Z.to_nat k) s.

(** [os.path.join(a, b)] (posixpath). *)
Definition endswith_slash (s : string) : bool :=
  match String.length s with
  | O => false
  | S n => match String.get n s with
           | Some c => Ascii.eqb c "/"%char
           | None => false
           end
  end.

Definition os_path_join (a b : string) : string :=
  if startswith b "/" then b
  else if (String.eqb a "" || endswith_slash a)%bool then a ++ b
  else a ++ "/" ++ b.

(** Truth value of an optional string ([None] and [''] are false). *)
Definition truthy (o : option string) : bool :=
  match o with
  | None => false
  | Some s => negb (String.eqb s "")
  end.

End Py.

(** ** Data model *)

(** [resource.raccess]: the access-control row of a resource. *)
Record ResourceAccess := mkAccess {
  public : bool;
  discoverable : bool;
  immutable : bool;
  shareable : bool;
  published : bool
}.

(** A relation element of the science metadata (one row, with its key). *)
Record Relation := mkRelation {
  rel_id : nat;
  rel_type : string;
  rel_value : string
}.

Record Identifier := mkIdentifier { ident_name : string; ident_url : string }.
Record Publisher := mkPublisher { pub_name : string; pub_url : string }.
Record DateElement := mkDate { date_type : string; start_date : Z }.

(** [resource.metadata]: the elements the pipeline reads or writes. *)
Record Metadata := mkMetadata {
  relations : list Relation;
  identifiers : list Identifier;
  publishers : list Publisher;
  dates : list DateElement
}.

(** One [ResourceFile] row. *)
Record ResourceFile := mkFile {
  reference_file_path : option string;
  storage_path : string;
  file_name : string;
  file_size : Z
}.

(** The columns of the resource row itself, written by [resource.save()]. *)
Record Columns := mkColumns {
  title : string;
  resource_type : string;
  root_path : string;
  doi : string;
  minid : string;
  assessment_id : option string;
  updated : Z;
  last_changed_by : option string
}.

Record Resource := mkResource {
  cols : Columns;
  raccess : ResourceAccess;
  metadata : Metadata;
  files : list ResourceFile;
  contained : list string
}.

(** One entry of the manifest: the dict built per file.  The keys [url],
    [length] and [filename] are always set; [sha256] and [md5] are keys
    that may be absent. *)
Record ManifestEntry := mkEntry {
  e_url : string;
  e_length : Z;
  e_filename : string;
  e_sha256 : option string;
  e_md5 : option string
}.

(** The JSON body sent to the naming authority (the fields of
    [request_data] that vary). *)
Record DoiRequest := mkDoiRequest {
  dr_datePublished : Z;
  dr_url : string;
  dr_name : string;
  dr_fileFormat : string;
  dr_contentSize : Z;
  dr_contentUrl : list string
}.

(** The arguments of [mca.register_entity]. *)
Record MinidRequest := mkMinidRequest {
  mr_server : string;
  mr_checksum : string;
  mr_email : string;
  mr_code : string;
  mr_locations : list string;
  mr_title : string;
  mr_test : bool
}.

(** The body of the FairShake registration call. *)
Record FairshakeRequest := mkFairshakeRequest {
  fr_title : string;
  fr_tags : string;
  fr_url : string;
  fr_projects : list Z;
  fr_rubrics : list Z
}.

(** An HTTP response: status, raw text, and the object [json.loads] gives
    for its content ([None] when the content is not a JSON object). *)
Record Response := mkResponse {
  status_code : Z;
  text : string;
  json : option (gmap string string)
}.

Definition HTTP_200_OK : Z := 200.
Definition HTTP_201_CREATED : Z := 201.

(** ** Exceptions *)

Inductive Exn :=
| Http404 (shortkey : string)
| ValidationError (msg : string)
| PublishException (msg : string)
| SessionException (stderr : string)
| IndexError
| KeyError (key : string)
| ValueError (msg : string)
| TypeError (msg : string)
| UnboundLocalError (name : string)
| MinidServiceError.

(** ** Calls that leave the process *)

Inductive Event :=
| EvStorageChecksum (path : string)
| EvStorageSize (path : string)
| EvStorageExists (path : string)
| EvStorageGetAVU (path name : string)
| EvStorageSetAVU (path name value : string)
| EvStorageGetFile (src dst : string)
| EvCopyFilesAndAVUs (src dst : string)
| EvCreateBag (short_id : string)
| EvComputeChecksum (path : string)
| EvMakedirs (path : string)
| EvWriteFile (path : string)
| EvRmtree (path : string)
| EvMinidRegister (req : MinidRequest)
| EvDoiPut (url : string) (req : DoiRequest)
| EvFairshakeLogin (url : string)
| EvFairshakeRegister (url : string) (req : FairshakeRequest)
| EvNotifyFts (pk : string).

(** ** Environment

    Settings, and the answers of everything outside the module.  The
    storage backend follows its contract: [exists(path) -> bool],
    [getAVU(path, name) -> string | None], [size(path) -> int]; a
    [checksum(path)] lookup either gives the prefixed checksum or raises a
    session error, which is the failure the manifest builder handles. *)

Record Env := mkEnv {
  (* django settings *)
  TEMP_FILE_DIR : string;
  IRODS_HOME_COLLECTION : string;
  DOI_PUT_URL : string;
  DOI_OAUTH_TOKEN : string;
  FAIRSHAKE_URL : string;
  FAIRSHAKE_USERID : string;
  FAIRSHAKE_PASSWORD : string;
  FTS_URL : string;
  (* utils.current_site_url(), uuid4().hex, date.today().year, now() *)
  current_site_url : string;
  uuid4_hex : string;
  today_year : Z;
  now : Z;
  (* mca.parse_config('hydroshare/minid-config.cfg') *)
  minid_server : string;
  minid_email : string;
  minid_code : string;
  (* resource.can_be_published, defined by the resource model *)
  can_be_published : Resource -> bool;
  (* storage backend *)
  istorage_exists : string -> bool;
  istorage_getAVU : string -> string -> option string;
  istorage_size : string -> Z;
  istorage_checksum : string -> Exn + string;
  (* mca.compute_checksum on a local file *)
  compute_checksum : string -> string;
  (* base64.b64decode(s).encode('hex'); None when the decoder raises *)
  b64decode_hex : string -> option string;
  (* external services *)
  mca_register_entity : MinidRequest -> option string;
  requests_put_doi : string -> DoiRequest -> Response;
  requests_post_login : string -> Response;
  requests_post_digital_object : string -> string -> FairshakeRequest -> Response
}.

(** ** State *)

Record World := mkWorld {
  resources : gmap string Resource;       (* persisted rows, by short id *)
  local_dirs : gmap string (list string); (* local directories and the files in them *)
  next_id : nat;                          (* key given to the next metadata element *)
  trace : list Event                      (* calls made so far, oldest first *)
}.

Definition set_resources (f : gmap string Resource -> gmap string Resource) (w : World) : World :=
  mkWorld (f (resources w)) (local_dirs w) (next_id w) (trace w).

Definition set_local_dirs (f : gmap string (list string) -> gmap string (list string))
    (w : World) : World :=
  mkWorld (resources w) (f (local_dirs w)) (next_id w) (trace w).

Definition set_next_id (n : nat) (w : World) : World :=
  mkWorld (resources w) (local_dirs w) n (trace w).

Definition add_event (e : Event) (w : World) : World :=
  mkWorld (resources w) (local_dirs w) (next_id w) (trace w ++ [e])%list.

(** ** The monad: state, with exceptions that keep the state *)

Definition M (A : Type) : Type := World -> (Exn + A) * World.

#[export] Instance M_ret : MRet M := fun A (a : A) w => (inr a, w).

#[export] Instance M_bind : MBind M := fun A B (k : A -> M B) (m : M A) w =>
  match m w with
  | (inr a, w') => k a w'
  | (inl e, w') => (inl e, w')
  end.

Definition raise {A} (e : Exn) : M A := fun w => (inl e, w).
Definition get_world : M World := fun w => (inr w, w).
Definition modify (f : World -> World) : M unit := fun w => (inr tt, f w).
Definition call (e : Event) : M unit := modify (add_event e).

(** Lift of a lookup that raises when it finds nothing. *)
Definition or_raise {A} (o : option A) (e : Exn) : M A :=
  match o with
  | Some a => mret a
  | None => raise e
  end.

(** [for x in l: body(x)], collecting the results. *)
Fixpoint for_each {A B} (body : A -> M B) (l : list A) : M (list B) :=
  match l with
  | [] => mret []
  | x :: l' => y ← body x; ys ← for_each body l'; mret (y :: ys)
  end.

(** ** Record updates *)

Definition set_cols (c : Columns) (r : Resource) : Resource :=
  mkResource c (raccess r) (metadata r) (files r) (contained r).

Definition set_raccess (a : ResourceAccess) (r : Resource) : Resource :=
  mkResource (cols r) a (metadata r) (files r) (contained r).

Definition set_metadata (f : Metadata -> Metadata) (r : Resource) : Resource :=
  mkResource (cols r) (raccess r) (f (metadata r)) (files r) (contained r).

Definition set_files (fs : list ResourceFile) (r : Resource) : Resource :=
  mkResource (cols r) (raccess r) (metadata r) fs (contained r).

Definition set_contained (cs : list string) (r : Resource) : Resource :=
  mkResource (cols r) (raccess r) (metadata r) (files r) cs.

Definition set_relations (f : list Relation -> list Relation) (m : Metadata) : Metadata :=
  mkMetadata (f (relations m)) (identifiers m) (publishers m) (dates m).

Definition set_identifiers (f : list Identifier -> list Identifier) (m : Metadata) : Metadata :=
  mkMetadata (relations m) (f (identifiers m)) (publishers m) (dates m).

Definition set_publishers (f : list Publisher -> list Publisher) (m : Metadata) : Metadata :=
  mkMetadata (relations m) (identifiers m) (f (publishers m)) (dates m).

Definition set_dates (f : list DateElement -> list DateElement) (m : Metadata) : Metadata :=
  mkMetadata (relations m) (identifiers m) (publishers m) (f (dates m)).

Definition set_doi_minid (d m : string) (c : Columns) : Columns :=
  mkColumns (title c) (resource_type c) (root_path c) d m (assessment_id c)
            (updated c) (last_changed_by c).

Definition set_assessment_id (a : option string) (c : Columns) : Columns :=
  mkColumns (title c) (resource_type c) (root_path c) (doi c) (minid c) a
            (updated c) (last_changed_by c).

Definition set_modified (u : option string) (t : Z) (c : Columns) : Columns :=
  mkColumns (title c) (resource_type c) (root_path c) (doi c) (minid c)
            (assessment_id c) t u.

Definition set_public_flag (v : bool) (a : ResourceAccess) : ResourceAccess :=
  mkAccess v (discoverable a) (immutable a) (shareable a) (published a).
Definition set_discoverable (v : bool) (a : ResourceAccess) : ResourceAccess :=
  mkAccess (public a) v (immutable a) (shareable a) (published a).
Definition set_immutable (v : bool) (a : ResourceAccess) : ResourceAccess :=
  mkAccess (public a) (discoverable a) v (shareable a) (published a).
Definition set_shareable (v : bool) (a : ResourceAccess) : ResourceAccess :=
  mkAccess (public a) (discoverable a) (immutable a) v (published a).
Definition set_published (v : bool) (a : ResourceAccess) : ResourceAccess :=
  mkAccess (public a) (discoverable a) (immutable a) (shareable a) v.

(** ** The object store (ORM) *)

(** [utils.get_resource_by_shortkey(pk)] *)
Definition get_resource_by_shortkey (pk : string) : M Resource :=
  w ← get_world; or_raise (resources w !! pk) (Http404 pk).

Definition update_row (pk : string) (f : Resource -> Resource) : M unit :=
  modify (set_resources (alter f pk)).

(** [resource.save()]: writes the columns of the in-memory object. *)
Definition resource_save (pk : string) (resource : Resource) : M unit :=
  update_row pk (set_cols (cols resource)).

(** [resource.raccess.save()] *)
Definition raccess_save (pk : string) (a : ResourceAccess) : M unit :=
  update_row pk (set_raccess a).

(** [res.delete()] (the files and metadata of the row go with it). *)
Definition resource_delete (pk : string) : M unit :=
  modify (set_resources (delete pk)).

Definition relations_of_type (ty : string) (l : list Relation) : list Relation :=
  filter (fun r => rel_type r = ty) l.

Definition identifiers_named (n : string) (l : list Identifier) : list Identifier :=
  filter (fun i => ident_name i = n) l.

(** [res.metadata.relations.all().filter(type=ty)]: a query on the store. *)
Definition query_relations (pk ty : string) : M (list Relation) :=
  w ← get_world;
  mret (match resources w !! pk with
        | Some r => relations_of_type ty (relations (metadata r))
        | None => []
        end).

(** [res.metadata.identifiers.all().filter(name=n)] *)
Definition query_identifiers (pk n : string) : M (list Identifier) :=
  w ← get_world;
  mret (match resources w !! pk with
        | Some r => identifiers_named n (identifiers (metadata r))
        | None => []
        end).

(** [res.metadata.create_element('relation', type=ty, value=v)] *)
Definition create_relation (pk ty v : string) : M unit :=
  w ← get_world;
  modify (set_next_id (S (next_id w)));;
  update_row pk (set_metadata (set_relations
    (fun l => l ++ [mkRelation (next_id w) ty v])%list)).

(** [res.metadata.delete_element('relation', eid)] *)
Definition delete_relation (pk : string) (eid : nat) : M unit :=
  update_row pk (set_metadata (set_relations (filter (fun r => rel_id r ≠ eid)))).

Definition create_identifier (pk : string) (i : Identifier) : M unit :=
  update_row pk (set_metadata (set_identifiers (fun l => l ++ [i])%list)).

Definition create_publisher (pk : string) (p : Publisher) : M unit :=
  update_row pk (set_metadata (set_publishers (fun l => l ++ [p])%list)).

Definition create_date (pk : string) (d : DateElement) : M unit :=
  update_row pk (set_metadata (set_dates (fun l => l ++ [d])%list)).

(** ** Local file system *)

(** [os.makedirs(d)]; the name of the scratch directory is fresh
    ([uuid4]), so the directory is new. *)
Definition os_makedirs (d : string) : M unit :=
  call (EvMakedirs d);; modify (set_local_dirs (insert d [])).

Definition write_file (d name : string) : M unit :=
  call (EvWriteFile (Py.os_path_join d name));;
  modify (set_local_dirs (alter (fun l => l ++ [name])%list d)).

Definition shutil_rmtree (d : string) : M unit :=
  call (EvRmtree d);; modify (set_local_dirs (delete d)).

Section Pipeline.

Variable E : Env.

(** ** Collaborators outside the module *)

(** Modelled from the spec: [resource.set_public(True)] of the resource
    model is not among the sources; the call site says it also sets
    discoverable to True, and the spec's commit step flips both.  It
    writes the access row and leaves the flags set on the object. *)
Definition set_public (pk : string) (a : ResourceAccess) (v : bool)
    : M ResourceAccess :=
  let a' := set_public_flag v a in
  let a'' := if v then set_discoverable v a' else a' in
  raccess_save pk a'';; mret a''.

(** Modelled from the spec: [utils.resource_modified(resource, user,
    overwrite_bag=False)] is not among the sources; it records the user
    and the time as the modification actor, saves the resource and marks
    the bag of the resource as stale. *)
Definition resource_modified (pk : string) (resource : Resource)
    (user : string) : M unit :=
  let resource' := set_cols (set_modified (Some user) (now E) (cols resource)) resource in
  resource_save pk resource';;
  call (EvStorageSetAVU (root_path (cols resource)) "bag_modified" "true").

(** Modelled from the spec: [hs_bagit.create_bag(resource)] is not among
    the sources; it (re)builds the archive of the resource in the
    storage backend. *)
Definition create_bag (pk : string) : M unit := call (EvCreateBag pk).

(** [istorage.getFile(src, dst)] into directory [d] as file [name]. *)
Definition istorage_getFile (src d name : string) : M unit :=
  call (EvStorageGetFile src (Py.os_path_join d name));;
  modify (set_local_dirs (alter (fun l => l ++ [name])%list d)).

Definition notify_fts_indexer (pk : string) : M unit := call (EvNotifyFts pk).

(** ** Manifest builder: [get_resource_files_manifest] *)

Definition download_url (p : string) : string :=
  current_site_url E ++ "/django_irods/download/" ++ p.

(** The [finally:] block of the loop body: it builds the entry from
    the checksum found ([None] when the lookup raised). *)
Definition manifest_finally (f : ResourceFile) (srcfile fetch_url ref_file_name : string)
    (checksum : option string) : M ManifestEntry :=
  len_name ←
    (if Py.truthy (reference_file_path f)
     then call (EvStorageSize srcfile);; mret (istorage_size E srcfile, ref_file_name)
     else mret (file_size f, file_name f));
  sums ←
    match checksum with
    | Some c =>
        if Py.startswith c "sha"
        then h ← or_raise (b64decode_hex E (Py.slice_from c 4)) (TypeError "Incorrect padding");
             mret (Some h, None)
        else if Py.startswith c "md5"
        then h ← or_raise (b64decode_hex E (Py.slice_from c 4)) (TypeError "Incorrect padding");
             mret (None, Some h)
        else mret (None, None)
    | None => mret (None, None)
    end;
  mret (mkEntry fetch_url (fst len_name) (snd len_name) (fst sums) (snd sums)).

(** The first branch of the loop body: the path looked up in the
    backend, the url of the entry, and the name of a referenced file. *)
Definition manifest_srcfile (f : ResourceFile) : string :=
  if Py.truthy (reference_file_path f)
  then default "" (reference_file_path f)
  else Py.os_path_join (IRODS_HOME_COLLECTION E) (storage_path f).

Definition manifest_fetch_url (short_id : string) (f : ResourceFile) : string :=
  if Py.truthy (reference_file_path f)
  then download_url (short_id ++ default "" (reference_file_path f))
  else download_url (storage_path f).

Definition manifest_ref_file_name (f : ResourceFile) : string :=
  let irods_file_name := default "" (reference_file_path f) in
  let last_sep_pos := Py.rfind irods_file_name "/" in
  Py.slice_from irods_file_name (last_sep_pos + 1).

(** One iteration of [for f in ResourceFile.objects.filter(...)]: the
    lookup under [try], the handler of a session error, and the
    [finally] block, which also runs when another exception passes. *)
Definition manifest_entry (short_id : string) (f : ResourceFile) : M ManifestEntry :=
  let srcfile := manifest_srcfile f in
  let fetch_url := manifest_fetch_url short_id f in
  let ref_file_name := manifest_ref_file_name f in
  call (EvStorageChecksum srcfile);;
  match istorage_checksum E srcfile with
  | inr c => manifest_finally f srcfile fetch_url ref_file_name (Some c)
  | inl (SessionException _) =>
      manifest_finally f srcfile fetch_url ref_file_name None
  | inl e =>
      manifest_finally f srcfile fetch_url ref_file_name None;; raise e
  end.

Definition get_resource_files_manifest (short_id : string) (resource : Resource)
    : M (list ManifestEntry) :=
  for_each (manifest_entry short_id) (files resource).

(** ** Publication: [publish_resource] *)

Definition msg_cannot_be_published : string :=
  "This resource cannot be published since it does not have required " ++
  "metadata or content files or this resource type is not allowed " ++
  "for publication.".

Definition msg_not_in_irods (short_id : string) : string :=
  "Resource " ++ short_id ++ " does not exist in iRODS".

Definition msg_no_doi : string :=
  "Unable to retrieve a DOI from DataCite. Resource cannot be published.".

Definition msg_fairshake : string :=
  "This resource cannot be published because it has failed the FairShake registration process.".

(** What packaging hands to the minting step. *)
Record Package := mkPackage {
  sha_checksum : string;
  pkg_size : Z;
  file_format : string;
  download_file_url : string
}.

(** The packaging branch: [if resource.files.all().count() > 1: ... else: ...]. *)
Definition publish_package (resource_id : string) (resource : Resource)
    (tmpdir : string) (resource_file_manifest_json : list ManifestEntry)
    : M Package :=
  let res_coll := root_path (cols resource) in
  if (1 <? List.length (files resource))%nat then
    bag_modified ←
      (call (EvStorageExists res_coll);;
       if istorage_exists E res_coll
       then call (EvStorageGetAVU res_coll "bag_modified");;
            mret (istorage_getAVU E res_coll "bag_modified")
       else raise (ValidationError (msg_not_in_irods resource_id)));
    (match bag_modified with
     | None => create_bag resource_id
     | Some b => if String.eqb (Py.lower b) "true"
                 then create_bag resource_id else mret tt
     end);;
    let tmpfile := Py.os_path_join tmpdir "bag.zip" in
    let bag_full_name := "bags/" ++ resource_id ++ ".zip" in
    let irods_dest_prefix := IRODS_HOME_COLLECTION E in
    let srcfile := Py.os_path_join irods_dest_prefix bag_full_name in
    istorage_getFile srcfile tmpdir "bag.zip";;
    call (EvComputeChecksum tmpfile);;
    let sha_checksum := compute_checksum E tmpfile in
    call (EvStorageSize srcfile);;
    let size := istorage_size E srcfile in
    let download_file_url :=
      current_site_url E ++ "/django_irods/download/bags/" ++ resource_id ++ ".zip" in
    mret (mkPackage sha_checksum size "application/zip" download_file_url)
  else
    e0 ← or_raise (head resource_file_manifest_json) IndexError;
    sha_checksum ← or_raise (e_sha256 e0) (KeyError "sha256");
    mret (mkPackage sha_checksum (e_length e0) "text/plain" (e_url e0)).

(** The minting branch: [if publish_type.lower() == "minid": ... elif
    publish_type.lower() == "doi": ...].  It returns the in-memory
    resource and [ident_md_args], which stays unbound ([None]) when
    neither test holds. *)
Definition publish_mint (resource : Resource) (publish_type resource_url dos_url : string)
    (p : Package) : M (Resource * option Identifier) :=
  let locations := [resource_url; download_file_url p] in
  if String.eqb (Py.lower publish_type) "minid" then
    let req := mkMinidRequest (minid_server E) (sha_checksum p) (minid_email E)
                 (minid_code E) locations ("MINID for " ++ title (cols resource)) true in
    call (EvMinidRegister req);;
    identifier ← or_raise (mca_register_entity E req) MinidServiceError;
    let resource := set_cols (set_doi_minid "" identifier (cols resource)) resource in
    mret (resource,
          Some (mkIdentifier "minid"
                  ("http://minid.bd2k.org/minid/landingpage/" ++ minid (cols resource)
                   ++ ", http://n2t.net/" ++ minid (cols resource))))
  else if String.eqb (Py.lower publish_type) "doi" then
    let doi_put_url := DOI_PUT_URL E in
    let request_data :=
      mkDoiRequest (today_year E) resource_url ("DOI for " ++ title (cols resource))
                   (file_format p) (pkg_size p) [download_file_url p; dos_url] in
    call (EvDoiPut doi_put_url request_data);;
    let response := requests_put_doi E doi_put_url request_data in
    if negb (status_code response =? HTTP_200_OK)
    then raise (PublishException msg_no_doi)
    else
      return_data ← or_raise (json response) (ValueError "No JSON object could be decoded");
      identifier ← or_raise (return_data !! "@id") (KeyError "@id");
      let resource := set_cols (set_doi_minid identifier "" (cols resource)) resource in
      let doi_url := "https://ors.datacite.org/" ++ identifier in
      mret (resource, Some (mkIdentifier "doi" doi_url))
  else mret (resource, None).

(** Registration with FairShake: login, then the digital object. *)
Definition publish_fairshake (resource : Resource) (resource_url : string) : M Resource :=
  let login_url := FAIRSHAKE_URL E ++ "/auth/login/" in
  call (EvFairshakeLogin login_url);;
  let response := requests_post_login E login_url in
  fairshake_apikey ←
    (if negb (status_code response =? HTTP_200_OK)
     then raise (PublishException (msg_fairshake ++ text response))
     else
       return_data ← or_raise (json response) (ValueError "No JSON object could be decoded");
       or_raise (return_data !! "key") (KeyError "key"));
  let request_data :=
    mkFairshakeRequest (title (cols resource)) "dcppc" resource_url [14] [11] in
  let object_url := FAIRSHAKE_URL E ++ "/digital_object/" in
  call (EvFairshakeRegister object_url request_data);;
  let response := requests_post_digital_object E object_url fairshake_apikey request_data in
  if negb (status_code response =? HTTP_201_CREATED)
  then raise (PublishException (msg_fairshake ++ text response))
  else
    return_data ← or_raise (json response) (ValueError "No JSON object could be decoded");
    assessment_id ← or_raise (return_data !! "id") (KeyError "id");
    mret (set_cols (set_assessment_id (Some assessment_id) (cols resource)) resource).

(** The commit: [resource.save()] to the end of the function. *)
Definition publish_commit (user pk : string) (resource : Resource)
    (ident_md_args : option Identifier) : M unit :=
  resource_save pk resource;;
  a ← set_public pk (raccess resource) true;
  let a := set_published true (set_shareable false (set_immutable true a)) in
  raccess_save pk a;;
  create_publisher pk (mkPublisher "CommonsShare" "https://www.commonsshare.org");;
  create_date pk (mkDate "published" (updated (cols resource)));;
  ident ← or_raise ident_md_args (UnboundLocalError "ident_md_args");
  create_identifier pk ident;;
  resource_modified pk resource user.

Definition publish_resource (user pk publish_type : string) : M unit :=
  let resource_id := pk in
  resource ← get_resource_by_shortkey pk;
  let resource_url := current_site_url E ++ "/resource/" ++ pk in
  if negb (can_be_published E resource)
  then raise (ValidationError msg_cannot_be_published)
  else
    let dos_url := current_site_url E ++ "/dosapi/dataobjects/" ++ pk ++ "/" in
    let tmpdir := Py.os_path_join (TEMP_FILE_DIR E) (uuid4_hex E) in
    resource_file_manifest_json ← get_resource_files_manifest pk resource;
    os_makedirs tmpdir;;
    write_file tmpdir "resource-file-manifest.json";;
    p ← publish_package resource_id resource tmpdir resource_file_manifest_json;
    minted ← publish_mint resource publish_type resource_url dos_url p;
    shutil_rmtree tmpdir;;
    resource ← publish_fairshake (fst minted) resource_url;
    publish_commit user pk resource (snd minted).

(** ** Versioning lineage *)

(** Modelled from the spec: [utils.copy_resource_files_and_AVUs(src, dst)]
    is not among the sources; it copies the content of the original
    into the new resource through the storage backend. *)
Definition rebase_path (src dst p : string) : string :=
  if Py.startswith p src then dst ++ Py.drop_chars (String.length src) p else p.

Definition rebase_file (src dst : string) (f : ResourceFile) : ResourceFile :=
  mkFile (reference_file_path f) (rebase_path src dst (storage_path f))
         (file_name f) (file_size f).

Definition copy_resource_files_and_AVUs (src dst : string) : M unit :=
  call (EvCopyFilesAndAVUs src dst);;
  w ← get_world;
  match resources w !! src with
  | Some r => update_row dst (set_files (map (rebase_file src dst) (files r)))
  | None => mret tt
  end.

(** Modelled from the spec: [utils.copy_and_create_metadata(src, dst)] is
    not among the sources; per the comments at its call sites it copies
    the metadata of the original except three elements (the identifier,
    publisher and date elements, which belong to one resource), so the
    relations of the original, an [isVersionOf] relation among them, are
    copied over; the new resource gets a [hydroShareIdentifier] of its
    own. *)
Definition copy_and_create_metadata (src dst : string) : M unit :=
  rels ← (w ← get_world;
          mret (match resources w !! src with
                | Some r => relations (metadata r)
                | None => []
                end));
  for_each (fun r => create_relation dst (rel_type r) (rel_value r)) rels;;
  create_identifier dst
    (mkIdentifier "hydroShareIdentifier" (current_site_url E ++ "/resource/" ++ dst)).

(** [create_new_version_resource(ori_res, new_res, user)]: the two
    objects are the handle of a row and the object the caller holds. *)
Definition create_new_version_resource (ori_id : string) (ori_res : Resource)
    (new_id : string) (new_res : Resource) (user : string) : M string :=
  copy_resource_files_and_AVUs ori_id new_id;;
  copy_and_create_metadata ori_id new_id;;
  ids ← query_identifiers new_id "hydroShareIdentifier";
  hs_identifier ← or_raise (head ids) IndexError;
  create_relation ori_id "isReplacedBy" (ident_url hs_identifier);;
  inherited ← query_relations new_id "isVersionOf";
  (match inherited with
   | r :: _ => delete_relation new_id (rel_id r)
   | [] => mret tt
   end);;
  ids ← query_identifiers ori_id "hydroShareIdentifier";
  hs_identifier ← or_raise (head ids) IndexError;
  create_relation new_id "isVersionOf" (ident_url hs_identifier);;
  (if String.eqb (Py.lower (resource_type (cols ori_res))) "collectionresource"
   then w ← get_world;
        update_row new_id (set_contained
          (match resources w !! ori_id with Some r => contained r | None => [] end))
   else mret tt);;
  resource_modified ori_id ori_res user;;
  raccess_save ori_id (set_immutable true (raccess ori_res));;
  mret new_id.

(** ** Deletion: [delete_resource] *)

Definition msg_mid_chain : string :=
  "An obsoleted resource in the middle of the obsolescence chain " ++
  "cannot be deleted.".

(** [s.rindex(c)] raises where [s.rfind(c)] gives [-1]. *)
Definition rindex (s : string) (c : ascii) : M Z :=
  let i := Py.rfind s c in
  if i =? -1 then raise (ValueError "substring not found") else mret i.

Definition delete_resource (pk : string) : M string :=
  res ← get_resource_by_shortkey pk;
  replaced ← query_relations pk "isReplacedBy";
  match replaced with
  | _ :: _ => raise (ValidationError msg_mid_chain)
  | [] =>
      version_of ← query_relations pk "isVersionOf";
      (match version_of with
       | r :: _ =>
           let is_version_of_res_link := rel_value r in
           idx ← rindex is_version_of_res_link "/";
           let obsolete_res_id :=
             if idx =? -1 then is_version_of_res_link
             else Py.slice_from is_version_of_res_link (idx + 1) in
           obsolete_res ← get_resource_by_shortkey obsolete_res_id;
           obsolete_replaced ← query_relations obsolete_res_id "isReplacedBy";
           match obsolete_replaced with
           | r' :: _ =>
               delete_relation obsolete_res_id (rel_id r');;
               raccess_save obsolete_res_id (set_immutable false (raccess obsolete_res))
           | [] => mret tt
           end
       | [] => mret tt
       end);;
      resource_delete pk;;
      (if negb (String.eqb (FTS_URL E) "") then notify_fts_indexer pk else mret tt);;
      mret pk
  end.

End Pipeline.

(** * File helpers of the module *)

(** ** [os.path] functions the helpers call (posixpath) *)

Module PyPath.

(** [basename(p)]: [i = p.rfind('/') + 1; return p[i:]]. *)
Definition basename (p : string) : string :=
  let i := Py.rfind p "/" + 1 in
  Py.slice_from p i.

(** No index of the string holds a character other than the dot. *)
Fixpoint all_dots (s : string) : bool :=
  match s with
  | EmptyString => true
  | String c s' => (Ascii.eqb c "."%char && all_dots s')%bool
  end.

(** [splitext(p)]: the extension starts at the last dot of the last
    path component; the loop skips the leading dots of the component,
    and a component made of dots up to its last dot has no extension. *)
Definition splitext (p : string) : string * string :=
  let sepIndex := Py.rfind p "/" in
  let dotIndex := Py.rfind p "." in
  if sepIndex <? dotIndex then
    let filenameIndex := sepIndex + 1 in
    if all_dots (String.substring (Z.to_nat filenameIndex)
                   (Z.to_nat (dotIndex - filenameIndex)) p)
    then (p, "")
    else (String.substring 0 (Z.to_nat dotIndex) p, Py.slice_from p dotIndex)
  else (p, "").

End PyPath.

(** ** [check_resource_files] *)

(** An attribute of a Python object: absent, [None], or a number. *)
Inductive Attr := NoAttr | AttrNone | AttrInt (n : Z).

(** A file handed to [check_resource_files]: whether it is an
    [UploadedFile], its [_size] and [size] attributes, and the size
    [os.stat] gives for it (for its name, when it is uploaded), [None]
    when the call raises [TypeError] or [OSError]. *)
Record FileObj := mkFileObj {
  is_uploaded : bool;
  attr__size : Attr;
  attr_size : Attr;
  stat_size : option Z
}.

(** [int(x)] of an attribute that is present. *)
Definition py_int (a : Attr) : Exn + Z :=
  match a with
  | AttrInt n => inr n
  | _ => inl (TypeError "int() argument must be a string or a number, not 'NoneType'")
  end.

(** The body of the loop: the size added for one file. *)
Definition checked_size (file : FileObj) : Exn + Z :=
  if negb (is_uploaded file) then
    match attr__size file with
    | NoAttr =>
        match attr_size file with
        | NoAttr => inr (default 0 (stat_size file))
        | a => py_int a
        end
    | a => py_int a
    end
  else
    match attr__size file, attr_size file with
    | AttrInt n, _ => inr n
    | _, AttrInt n => inr n
    | _, _ => inr (default 0 (stat_size file))
    end.

Fixpoint check_resource_files_from (sum : Z) (files : list FileObj) : Exn + (bool * Z) :=
  match files with
  | [] => inr (true, sum)
  | file :: files' =>
      match checked_size file with
      | inl e => inl e
      | inr size => check_resource_files_from (sum + size) files'
      end
  end.

Definition check_resource_files (files : list FileObj) : Exn + (bool * Z) :=
  check_resource_files_from 0 files.

(** ** [get_resource_file] *)

(** The columns of a [ResourceFile] that the lookup reads: the
    reference path and the name of the file field. *)
Record FileRow := mkFileRow {
  row_reference_file_path : option string;
  row_resource_file_name : string
}.

(** What the helpers raise besides the exceptions of the pipeline. *)
Inductive ApiExn :=
| Raised (e : Exn)
| ObjectDoesNotExist (msg : string).

(** The lookup returns the row itself for a referenced file, and the
    file field for a stored one. *)
Inductive Found :=
| FoundRow (f : FileRow)
| FoundFieldFile (name : string).

Fixpoint get_resource_file_loop (files : list FileRow) (filename : string)
    : ApiExn + Found :=
  match files with
  | [] => inl (ObjectDoesNotExist filename)
  | f :: files' =>
      if Py.truthy (row_reference_file_path f) then
        if String.eqb (Py.slice_from (default "" (row_reference_file_path f)) 1) filename
        then inr (FoundRow f)
        else get_resource_file_loop files' filename
      else if String.eqb (PyPath.basename (row_resource_file_name f)) filename
      then inr (FoundFieldFile (row_resource_file_name f))
      else get_resource_file_loop files' filename
  end.

(** [db] gives the file rows of each resource, by short id. *)
Definition get_resource_file (db : gmap string (list FileRow)) (pk filename : string)
    : ApiExn + Found :=
  match db !! pk with
  | None => inl (Raised (Http404 pk))
  | Some files => get_resource_file_loop files filename
  end.

(** ** [add_resource_files] *)

(** The calls the function makes to its collaborators in [utils] and to
    the indexer; each [CallAddFile] and [CallAddSource] is one call of
    [utils.add_file_to_resource], whose result is appended to [ret]. *)
Inductive FileCall :=
| CallHarvestOntologyIds (name : string)
| CallAddFile (name : string) (folder : option string)
| CallAddSource (folder : option string) (source_name : string) (source_size : Z)
    (move is_file_reference : bool)
| CallCreateEmptyContentsDirectory
| CallNotifyFts.

(** The body of [for f in files]. *)
Definition add_uploaded (folder : option string) (name : string) : list FileCall :=
  let file_ext := (PyPath.splitext name).2 in
  if String.eqb (Py.lower file_ext) ".jsonld"
  then [CallHarvestOntologyIds name; CallAddFile name (Some "metadata")]
  else [CallAddFile name folder].

(** [source_sizes[idx] if source_sizes else 0] *)
Definition source_size_at (source_sizes : list Z) (idx : nat) : Exn + Z :=
  match source_sizes with
  | [] => inr 0
  | _ => match source_sizes !! idx with
         | Some s => inr s
         | None => inl IndexError
         end
  end.

(** [for ifname in source_names], from index [idx]. *)
Fixpoint add_sources (folder : option string) (move is_file_reference : bool)
    (source_sizes : list Z) (idx : nat) (source_names : list string)
    : Exn + list FileCall :=
  match source_names with
  | [] => inr []
  | ifname :: names' =>
      match source_size_at source_sizes idx with
      | inl e => inl e
      | inr s_size =>
          match add_sources folder move is_file_reference source_sizes (S idx) names' with
          | inl e => inl e
          | inr calls =>
              inr (CallAddSource folder ifname s_size move is_file_reference :: calls)
          end
      end
  end.

(** The calls of a run that returns, in order; [files] are the names of
    the uploaded files. *)
Definition add_resource_files (fts_url : string) (files : list string)
    (source_names : list string) (source_sizes : list Z)
    (is_file_reference move : bool) (folder : option string) : Exn + list FileCall :=
  let uploaded := flat_map (add_uploaded folder) files in
  let sources :=
    if (0 <? List.length source_names)%nat then
      let source_sizes :=
        if negb (List.length source_names =? List.length source_sizes)%nat
        then [] else source_sizes in
      add_sources folder move is_file_reference source_sizes 0 source_names
    else inr [] in
  match sources with
  | inl e => inl e
  | inr sources =>
      inr (uploaded ++ sources ++ [CallCreateEmptyContentsDirectory] ++
           (if negb (String.eqb fts_url "") then [CallNotifyFts] else []))%list
  end.

(** ** [delete_format_metadata_after_delete_file] *)

(** A format element of the metadata: its key and its mime type. *)
Record FormatElement := mkFormat { fmt_id : nat; fmt_value : string }.

(** [get_resource_file_name(f)] *)
Definition get_resource_file_name (f : ResourceFile) : string := storage_path f.

(** The format elements left, given [utils.get_file_mime_type], the
    files still in the resource and its format elements. *)
Definition delete_format_metadata_after_delete_file (get_file_mime_type : string -> string)
    (files : list ResourceFile) (formats : list FormatElement) (file_name : string)
    : list FormatElement :=
  let delete_file_mime_type := get_file_mime_type file_name in
  let delete_file_extension := (PyPath.splitext file_name).2 in
  let resource_file_extensions :=
    map (fun f => (PyPath.splitext (get_resource_file_name f)).2) files in
  if bool_decide (delete_file_extension ∈ resource_file_extensions) then formats
  else
    match head (filter (fun e => fmt_value e = delete_file_mime_type) formats) with
    | Some format_element =>
        filter (fun e => fmt_id e ≠ fmt_id format_element) formats
    | None => formats
    end.

(** * Reasoning about runs *)

(** The calls made between two states of one run. *)
Definition events_since (w w' : World) : list Event :=
  drop (List.length (trace w)) (trace w').

(** [same_db]: the persisted rows are untouched. *)
Definition same_db (w w' : World) : Prop := resources w' = resources w.

(** [emitted P]: the trace only grew, by calls that satisfy [P]. *)
Definition emitted (P : Event -> Prop) (w w' : World) : Prop :=
  exists evs, trace w' = (trace w ++ evs)%list /\ Forall P evs.

(** [same_dirs]: the local directories are untouched. *)
Definition same_dirs (w w' : World) : Prop := local_dirs w' = local_dirs w.

(** A computation respects a relation between the state before and the
    state it leaves, whether it returns or raises. *)
Definition respects {A} (R : World -> World -> Prop) (m : M A) : Prop :=
  forall w, R w (m w).2.

(** ** Statement vocabulary *)

(** The length recorded for a file: the backend size of a referenced
    file, the stored size otherwise. *)
Definition manifest_length (E : Env) (f : ResourceFile) : Z :=
  if Py.truthy (reference_file_path f)
  then istorage_size E (manifest_srcfile E f) else file_size f.

Definition manifest_filename (E : Env) (f : ResourceFile) : string :=
  if Py.truthy (reference_file_path f)
  then manifest_ref_file_name f else file_name f.

(** A checksum lookup that the builder survives: it raises a session
    error, or it gives a checksum whose payload decodes. *)
Definition lookup_benign (E : Env) (f : ResourceFile) : Prop :=
  match istorage_checksum E (manifest_srcfile E f) with
  | inl (SessionException _) => True
  | inl _ => False
  | inr c =>
      (Py.startswith c "sha" || Py.startswith c "md5")%bool = true ->
      is_Some (b64decode_hex E (Py.slice_from c 4))
  end.

(** What an entry records for a file, whatever the checksum lookup did. *)
Definition entry_describes (E : Env) (short_id : string) (f : ResourceFile)
    (e : ManifestEntry) : Prop :=
  e_url e = manifest_fetch_url E short_id f /\
  e_length e = manifest_length E f /\
  e_filename e = manifest_filename E f /\
  (forall err, istorage_checksum E (manifest_srcfile E f) = inl (SessionException err) ->
     e_sha256 e = None /\ e_md5 e = None).

(** Calls of the bag packager: the freshness check, the rebuild, the
    download of the archive and its checksum. *)
Definition is_bag_event (e : Event) : bool :=
  match e with
  | EvStorageExists _ | EvStorageGetAVU _ _ | EvCreateBag _
  | EvStorageGetFile _ _ | EvComputeChecksum _ => true
  | _ => false
  end.

(** Calls of the identifier minter. *)
Definition is_mint_event (e : Event) : bool :=
  match e with
  | EvMinidRegister _ | EvDoiPut _ _ => true
  | _ => false
  end.

(** Calls of the third-party registrant. *)
Definition is_registration_event (e : Event) : bool :=
  match e with
  | EvFairshakeLogin _ | EvFairshakeRegister _ _ => true
  | _ => false
  end.

(** The scratch directory of a run, and the state once it is set up. *)
Definition scratch_dir (E : Env) : string :=
  Py.os_path_join (TEMP_FILE_DIR E) (uuid4_hex E).

Definition scratch_ready (E : Env) (w : World) : World :=
  (write_file (scratch_dir E) "resource-file-manifest.json"
     (os_makedirs (scratch_dir E) w).2).2.

Definition resource_url (E : Env) (pk : string) : string :=
  current_site_url E ++ "/resource/" ++ pk.

Definition dos_url (E : Env) (pk : string) : string :=
  current_site_url E ++ "/dosapi/dataobjects/" ++ pk ++ "/".

(** The call the minting step makes for a publish type, if any. *)
Definition mint_events (E : Env) (resource : Resource) (publish_type pk : string)
    (p : Package) : list Event :=
  if String.eqb (Py.lower publish_type) "minid" then
    [EvMinidRegister
       (mkMinidRequest (minid_server E) (sha_checksum p) (minid_email E) (minid_code E)
          [resource_url E pk; download_file_url p]
          ("MINID for " ++ title (cols resource)) true)]
  else if String.eqb (Py.lower publish_type) "doi" then
    [EvDoiPut (DOI_PUT_URL E)
       (mkDoiRequest (today_year E) (resource_url E pk)
          ("DOI for " ++ title (cols resource)) (file_format p) (pkg_size p)
          [download_file_url p; dos_url E pk])]
  else [].

(** Calls made before the minting step on any path: storage lookups of
    the manifest builder and the packager, and the scratch directory. *)
Definition is_external_service_event (e : Event) : bool :=
  (is_mint_event e || is_registration_event e)%bool.

(** The three spans of [publish_resource] around the minting step:
    [publish_prepare] is the code from the manifest to the end of
    packaging, [publish_finish] the code from the removal of the scratch
    directory to the end. *)
Definition publish_prepare (E : Env) (pk : string) (resource : Resource) : M Package :=
  resource_file_manifest_json ← get_resource_files_manifest E pk resource;
  os_makedirs (scratch_dir E);;
  write_file (scratch_dir E) "resource-file-manifest.json";;
  publish_package E pk resource (scratch_dir E) resource_file_manifest_json.

Definition publish_finish (E : Env) (user pk : string)
    (minted : Resource * option Identifier) : M unit :=
  shutil_rmtree (scratch_dir E);;
  resource ← publish_fairshake E minted.1 (resource_url E pk);
  publish_commit E user pk resource minted.2.

(** Calls that only the packager or the minter make. *)
Definition is_bag_or_mint_event (e : Event) : bool :=
  (is_bag_event e || is_mint_event e)%bool.


(** The access flags of a published resource. *)
Definition published_access : ResourceAccess := mkAccess true true true false true.


(** FairShake accepts the login and the registration: 200 with a key,
    then 201 with an assessment id. *)
Definition fairshake_accepts (E : Env) (key aid : string) : Prop :=
  let login := requests_post_login E (FAIRSHAKE_URL E ++ "/auth/login/") in
  status_code login = HTTP_200_OK /\
  (exists body, json login = Some body /\ body !! "key" = Some key) /\
  forall req,
    let created :=
      requests_post_digital_object E (FAIRSHAKE_URL E ++ "/digital_object/") key req in
    status_code created = HTTP_201_CREATED /\
    exists body, json created = Some body /\ body !! "id" = Some aid.

(** The Publisher element the commit creates. *)
Definition commonsshare_publisher : Publisher :=
  mkPublisher "CommonsShare" "https://www.commonsshare.org".

(** ** Lineage vocabulary *)

(** The relations of an original as they are created on the new
    resource, with keys from [n] on. *)
Fixpoint copied (n : nat) (rels : list Relation) : list Relation :=
  match rels with
  | [] => []
  | r :: rs => mkRelation n (rel_type r) (rel_value r) :: copied (S n) rs
  end.

(** A placeholder, as [create_empty_resource] makes it: created with
    [create_metadata=False], it has no relation and no identifier yet. *)
Definition is_placeholder (r : Resource) : Prop :=
  relations (metadata r) = [] /\ identifiers (metadata r) = [].

(** The chain is linear at a resource: at most one predecessor. *)
Definition at_most_one_predecessor (r : Resource) : Prop :=
  (List.length (relations_of_type "isVersionOf" (relations (metadata r))) <= 1)%nat.

(** The [hydroShareIdentifier] of a resource, the url relations point to. *)
Definition site_identifier_of (r : Resource) : option Identifier :=
  head (identifiers_named "hydroShareIdentifier" (identifiers (metadata r))).

(** A short id is one path segment. *)
Definition no_slash (s : string) : Prop := Py.rfind s "/" = -1.

(** [keeps_dir d]: a local directory that exists is still there. *)
Definition keeps_dir (d : string) (w w' : World) : Prop :=
  is_Some (local_dirs w !! d) -> is_Some (local_dirs w' !! d).

(** ** Vocabulary for the rest of the pipeline *)

(** [rows_outside pk]: every row but the one of [pk] is untouched. *)
Definition rows_outside (pk : string) (w w' : World) : Prop :=
  forall k, k <> pk -> resources w' !! k = resources w !! k.

(** The test of the packager: [bag_modified is None or
    bag_modified.lower() == "true"]. *)
Definition bag_is_stale (E : Env) (res : Resource) : bool :=
  match istorage_getAVU E (root_path (cols res)) "bag_modified" with
  | None => true
  | Some b => String.eqb (Py.lower b) "true"
  end.

(** The archive of a resource in the backend, its local copy, and the
    package the packager makes of it. *)
Definition bag_srcfile (E : Env) (pk : string) : string :=
  Py.os_path_join (IRODS_HOME_COLLECTION E) ("bags/" ++ pk ++ ".zip").

Definition bag_tmpfile (E : Env) : string :=
  Py.os_path_join (scratch_dir E) "bag.zip".

Definition bag_package (E : Env) (pk : string) : Package :=
  mkPackage (compute_checksum E (bag_tmpfile E)) (istorage_size E (bag_srcfile E pk))
            "application/zip"
            (current_site_url E ++ "/django_irods/download/bags/" ++ pk ++ ".zip").

(** The calls of the packager on a collection that exists. *)
Definition package_events (E : Env) (pk : string) (res : Resource) : list Event :=
  ([EvStorageExists (root_path (cols res));
    EvStorageGetAVU (root_path (cols res)) "bag_modified"]
   ++ (if bag_is_stale E res then [EvCreateBag pk] else [])
   ++ [EvStorageGetFile (bag_srcfile E pk) (bag_tmpfile E);
       EvComputeChecksum (bag_tmpfile E);
       EvStorageSize (bag_srcfile E pk)])%list.

Definition is_create_bag (e : Event) : bool :=
  match e with EvCreateBag _ => true | _ => false end.

(** The Identifier element recorded for a minted identifier. *)
Definition minid_element (id : string) : Identifier :=
  mkIdentifier "minid"
    ("http://minid.bd2k.org/minid/landingpage/" ++ id ++ ", http://n2t.net/" ++ id).

Definition doi_element (id : string) : Identifier :=
  mkIdentifier "doi" ("https://ors.datacite.org/" ++ id).

Definition is_fairshake_register (e : Event) : bool :=
  match e with EvFairshakeRegister _ _ => true | _ => false end.

(** The answers of FairShake to the two calls of a run. *)
Definition fairshake_login (E : Env) : Response :=
  requests_post_login E (FAIRSHAKE_URL E ++ "/auth/login/").

Definition fairshake_created (E : Env) (key : string) (res : Resource) (pk : string) : Response :=
  requests_post_digital_object E (FAIRSHAKE_URL E ++ "/digital_object/") key
    (mkFairshakeRequest (title (cols res)) "dcppc" (resource_url E pk) [14] [11]).

(** The requests the minting step sends, and the answer of the naming
    authority. *)
Definition minid_request (E : Env) (res : Resource) (pk : string) (p : Package)
    : MinidRequest :=
  mkMinidRequest (minid_server E) (sha_checksum p) (minid_email E) (minid_code E)
    [resource_url E pk; download_file_url p] ("MINID for " ++ title (cols res)) true.

Definition doi_request (E : Env) (res : Resource) (pk : string) (p : Package) : DoiRequest :=
  mkDoiRequest (today_year E) (resource_url E pk) ("DOI for " ++ title (cols res))
    (file_format p) (pkg_size p) [download_file_url p; dos_url E pk].

Definition doi_answer (E : Env) (res : Resource) (pk : string) (p : Package) : Response :=
  requests_put_doi E (DOI_PUT_URL E) (doi_request E res pk p).

(** The identifier a registry hands out for a publish type: the value
    [register_entity] returns, or the [@id] member of the body of the
    naming authority. *)
Definition registry_gives (E : Env) (res : Resource) (publish_type pk : string)
    (p : Package) (id : string) : Prop :=
  (Py.lower publish_type = "minid" /\
   mca_register_entity E (minid_request E res pk p) = Some id) \/
  (Py.lower publish_type <> "minid" /\ Py.lower publish_type = "doi" /\
   status_code (doi_answer E res pk p) = HTTP_200_OK /\
   exists body, json (doi_answer E res pk p) = Some body /\ body !! "@id" = Some id).

(** The Identifier element and the two columns after minting [id]. *)
Definition identifier_element (publish_type id : string) : Identifier :=
  if String.eqb (Py.lower publish_type) "minid" then minid_element id else doi_element id.

Definition identifier_columns (publish_type id : string) : string * string :=
  if String.eqb (Py.lower publish_type) "minid" then ("", id) else (id, "").

(** The backend calls the manifest builder makes for one file: the
    checksum lookup, and the size lookup of a referenced file. *)
Definition manifest_lookups (E : Env) (f : ResourceFile) : list Event :=
  EvStorageChecksum (manifest_srcfile E f) ::
  (if Py.truthy (reference_file_path f) then [EvStorageSize (manifest_srcfile E f)] else []).

(** The two checksum fields of an entry are never both set. *)
Definition one_checksum (e : ManifestEntry) : Prop :=
  e_sha256 e = None \/ e_md5 e = None.

(** How a lookup makes the builder raise: the lookup itself raised, or
    its payload did not decode. *)
Definition lookup_failure (E : Env) (f : ResourceFile) (x : Exn) : Prop :=
  istorage_checksum E (manifest_srcfile E f) = inl x \/
  (x = TypeError "Incorrect padding" /\
   exists c, istorage_checksum E (manifest_srcfile E f) = inr c /\
             b64decode_hex E (Py.slice_from c 4) = None).

(** The state once [res.delete()] has run and the indexer was told. *)
Definition deleted (E : Env) (pk : string) (w : World) : World :=
  let w1 := set_resources (delete pk) w in
  if negb (String.eqb (FTS_URL E) "") then add_event (EvNotifyFts pk) w1 else w1.

(** The predecessor once its first [isReplacedBy] relation [r'] is
    dropped and it is editable again. *)
Definition reactivated (pred : string) (pres : Resource) (r' : Relation) (w : World) : World :=
  set_resources (alter (set_raccess (set_immutable false (raccess pres))) pred)
    (set_resources
       (alter (set_metadata (set_relations (filter (fun r => rel_id r ≠ rel_id r')))) pred) w).

(** The short id a relation value ends in. *)
Definition link_target (link : string) : string :=
  Py.slice_from link (Py.rfind link "/" + 1).

(** ** Vocabulary for the file helpers *)

(** A file already on the server whose first size attribute is [None]. *)
Definition size_is_none (f : FileObj) : bool :=
  (negb (is_uploaded f) &&
   match attr__size f, attr_size f with
   | AttrNone, _ => true
   | NoAttr, AttrNone => true
   | _, _ => false
   end)%bool.

(** Calls of [utils.add_file_to_resource]: those whose result goes to
    the list the function returns. *)
Definition is_add_call (c : FileCall) : bool :=
  match c with CallAddFile _ _ | CallAddSource _ _ _ _ _ => true | _ => false end.

Definition is_source_call (c : FileCall) : bool :=
  match c with CallAddSource _ _ _ _ _ => true | _ => false end.

(** A file name that is taken for semantic metadata. *)
Definition is_jsonld (name : string) : bool :=
  String.eqb (Py.lower (PyPath.splitext name).2) ".jsonld".

(** The extension of a stored file, as the format clean-up reads it. *)
Definition extension_of (f : ResourceFile) : string :=
  (PyPath.splitext (get_resource_file_name f)).2.

(** ** A small installation, for examples *)

Module Demo.

Definition checksum (path : string) : Exn + string :=
  if String.eqb path "/zone/home/r1/data/contents/a.txt" then inr "sha2:q83v"
  else if String.eqb path "/zone/home/r3/data/contents/m.txt" then inr "md5:q83v"
  else if String.eqb path "/zone/ext/b.dat" then inr "sha2:AAEC"
  else inl (SessionException "CAT_NO_ROWS_FOUND").

(** The installation, with the status the naming authority answers and
    whether the backend has the collections. *)
Definition env (doi_status : Z) (coll_exists : bool) : Env :=
  {| TEMP_FILE_DIR := "/tmp";
     IRODS_HOME_COLLECTION := "/zone/home";
     DOI_PUT_URL := "https://ors.datacite.org/doi/put";
     DOI_OAUTH_TOKEN := "token";
     FAIRSHAKE_URL := "https://fairshake.cloud";
     FAIRSHAKE_USERID := "commonsshare";
     FAIRSHAKE_PASSWORD := "secret";
     FTS_URL := "";
     current_site_url := "https://www.commonsshare.org";
     uuid4_hex := "0f3c";
     today_year := 2018;
     now := 1000;
     minid_server := "http://minid.bd2k.org/minid";
     minid_email := "admin@commonsshare.org";
     minid_code := "code";
     can_be_published := fun _ => true;
     istorage_exists := fun _ => coll_exists;
     istorage_getAVU := fun _ _ => Some "false";
     istorage_size := fun _ => 2048;
     istorage_checksum := checksum;
     compute_checksum := fun _ => "9f86d081";
     b64decode_hex := fun s => Some ("hex" ++ s);
     mca_register_entity := fun _ => Some "ark:/57799/b9x12g";
     requests_put_doi := fun _ _ =>
       mkResponse doi_status "body" (Some {[ "@id" := "doi:10.25491/abcd" ]});
     requests_post_login := fun _ => mkResponse 200 "ok" (Some {[ "key" := "k3y" ]});
     requests_post_digital_object := fun _ _ _ =>
       mkResponse 201 "created" (Some {[ "id" := "77" ]}) |}.

Definition draft : ResourceAccess := mkAccess false false false true false.

Definition site_identifier (short_id : string) : Identifier :=
  mkIdentifier "hydroShareIdentifier" ("https://www.commonsshare.org/resource/" ++ short_id).

Definition res (t short_id : string) (fs : list ResourceFile) : Resource :=
  mkResource (mkColumns t "GenericResource" short_id "" "" None 0 None) draft
             (mkMetadata [] [site_identifier short_id] [] []) fs [].

Definition file_a : ResourceFile := mkFile None "r1/data/contents/a.txt" "a.txt" 12.
Definition file_b : ResourceFile := mkFile (Some "/zone/ext/b.dat") "" "" 0.
Definition file_m : ResourceFile := mkFile None "r3/data/contents/m.txt" "m.txt" 5.
Definition file_x : ResourceFile := mkFile None "r2/data/contents/x.txt" "x.txt" 7.
Definition file_y : ResourceFile := mkFile None "r2/data/contents/y.txt" "y.txt" 9.

(** r1: one stored file with a sha checksum; r2: two files, no checksum
    in the backend; r3: one file with an md5 checksum; r4: one referenced
    file; r0: no file. *)
Definition world : World :=
  mkWorld (<["r1" := res "One" "r1" [file_a]]>
          (<["r2" := res "Two" "r2" [file_x; file_y]]>
          (<["r3" := res "Three" "r3" [file_m]]>
          (<["r4" := res "Four" "r4" [file_b]]>
          (<["r0" := res "Zero" "r0" []]> ∅)))))
          ∅ 100 [].

(** A chain of two versions: v1 was replaced by v2. *)
Definition url_of (short_id : string) : string :=
  "https://www.commonsshare.org/resource/" ++ short_id.

Definition v1 : Resource :=
  mkResource (mkColumns "Series" "GenericResource" "v1" "" "" None 0 None)
             (mkAccess false false true true false)
             (mkMetadata [mkRelation 7 "isReplacedBy" (url_of "v2")]
                         [site_identifier "v1"] [] [])
             [] [].

Definition v2 : Resource :=
  mkResource (mkColumns "Series" "GenericResource" "v2" "" "" None 0 None)
             draft
             (mkMetadata [mkRelation 8 "isVersionOf" (url_of "v1")]
                         [site_identifier "v2"] [] [])
             [] [].


(** v2, versioned once more into the placeholder v3. *)
Definition v3 : Resource :=
  mkResource (mkColumns "Series" "GenericResource" "v3" "" "" None 0 None)
             draft (mkMetadata [] [] [] []) [] [].

Definition version_world : World :=
  mkWorld (<["v1" := v1]> (<["v2" := v2]> (<["v3" := v3]> ∅))) ∅ 100 [].

(** The installation with every answer chosen: the statuses of the
    naming authority and of the two FairShake calls, whether collections
    exist, whether resources are publishable, the bag_modified flag, and
    the checksum lookup. *)
Definition env_with (doi_status login_status created_status : Z)
    (coll_exists publishable : bool) (avu : option string)
    (chk : string -> Exn + string) : Env :=
  {| TEMP_FILE_DIR := "/tmp";
     IRODS_HOME_COLLECTION := "/zone/home";
     DOI_PUT_URL := "https://ors.datacite.org/doi/put";
     DOI_OAUTH_TOKEN := "token";
     FAIRSHAKE_URL := "https://fairshake.cloud";
     FAIRSHAKE_USERID := "commonsshare";
     FAIRSHAKE_PASSWORD := "secret";
     FTS_URL := "http://fts.example.org";
     current_site_url := "https://www.commonsshare.org";
     uuid4_hex := "0f3c";
     today_year := 2018;
     now := 1000;
     minid_server := "http://minid.bd2k.org/minid";
     minid_email := "admin@commonsshare.org";
     minid_code := "code";
     can_be_published := fun _ => publishable;
     istorage_exists := fun _ => coll_exists;
     istorage_getAVU := fun _ _ => avu;
     istorage_size := fun _ => 2048;
     istorage_checksum := chk;
     compute_checksum := fun _ => "9f86d081";
     b64decode_hex := fun s => if String.eqb s ":bad" then None else Some ("hex" ++ s);
     mca_register_entity := fun _ => Some "ark:/57799/b9x12g";
     requests_put_doi := fun _ _ =>
       mkResponse doi_status "body" (Some {[ "@id" := "doi:10.25491/abcd" ]});
     requests_post_login := fun _ =>
       mkResponse login_status "login refused" (Some {[ "key" := "k3y" ]});
     requests_post_digital_object := fun _ _ _ =>
       mkResponse created_status "not created" (Some {[ "id" := "77" ]}) |}.

(** v2 alone: its predecessor is not in the store. *)
Definition lone_world : World :=
  mkWorld (<["v2" := v2]> ∅) ∅ 100 [].

(** v2 with a predecessor that is immutable but holds no relation. *)
Definition v1_plain : Resource :=
  mkResource (mkColumns "Series" "GenericResource" "v1" "" "" None 0 None)
             (mkAccess false false true true false)
             (mkMetadata [] [site_identifier "v1"] [] [])
             [] [].

Definition plain_world : World :=
  mkWorld (<["v1" := v1_plain]> (<["v2" := v2]> ∅)) ∅ 100 [].

(** A resource whose isVersionOf relation holds a bare short id. *)
Definition v2_bare : Resource :=
  mkResource (mkColumns "Series" "GenericResource" "v2" "" "" None 0 None)
             draft
             (mkMetadata [mkRelation 8 "isVersionOf" "v1"] [site_identifier "v2"] [] [])
             [] [].

Definition bare_world : World :=
  mkWorld (<["v1" := v1]> (<["v2" := v2_bare]> ∅)) ∅ 100 [].




(** An immutable v1 without relations, and the placeholder v3. *)
Definition reissue_world : World :=
  mkWorld (<["v1" := v1_plain]> (<["v3" := v3]> ∅)) ∅ 100 [].

(** A collection with two members, with a relation to a paper. *)
Definition c1 : Resource :=
  mkResource (mkColumns "Basin" "CollectionResource" "c1" "" "" None 0 None)
             draft
             (mkMetadata [mkRelation 3 "isPartOf" "http://example.org/paper"]
                         [site_identifier "c1"] [] [])
             [] ["r1"; "r2"].

Definition collection_world : World :=
  mkWorld (<["c1" := c1]> (<["v3" := v3]> ∅)) ∅ 100 [].

(** A resource without a site identifier. *)
Definition anon : Resource :=
  mkResource (mkColumns "Anon" "GenericResource" "a1" "" "" None 0 None)
             draft (mkMetadata [] [] [] []) [] [].

Definition anon_world : World :=
  mkWorld (<["a1" := anon]> (<["v3" := v3]> ∅)) ∅ 100 [].

End Demo.

(** * Lemmas *)

(** A bind, run from a state. *)
Lemma bind_run {A B} (m : M A) (k : A -> M B) w :
  (m ≫= k) w =
  match m w with
  | (inr a, w') => k a w'
  | (inl e, w') => (inl e, w')
  end.
Proof. reflexivity. Qed.

#[export] Instance same_db_preorder : PreOrder same_db.
Proof.
  split; [intros w; reflexivity |].
  intros w1 w2 w3 H12 H23. unfold same_db in *. congruence.
Qed.

#[export] Instance same_dirs_preorder : PreOrder same_dirs.
Proof.
  split; [intros w; reflexivity |].
  intros w1 w2 w3 H12 H23. unfold same_dirs in *. congruence.
Qed.

#[export] Instance emitted_preorder P : PreOrder (emitted P).
Proof.
  split.
  - intros w. exists []. split; [by rewrite app_nil_r | constructor].
  - intros w1 w2 w3 (e1 & H1 & F1) (e2 & H2 & F2).
    exists (e1 ++ e2)%list. split.
    + by rewrite H2, H1, app_assoc.
    + by apply Forall_app.
Qed.

Lemma events_since_emitted P w w' :
  emitted P w w' -> Forall P (events_since w w').
Proof.
  intros (evs & Ht & HP). unfold events_since.
  by rewrite Ht, drop_app_length.
Qed.

Lemma events_since_app w w' evs :
  trace w' = (trace w ++ evs)%list -> events_since w w' = evs.
Proof. intros Ht. unfold events_since. by rewrite Ht, drop_app_length. Qed.

Lemma events_since_refl w : events_since w w = [].
Proof. apply events_since_app. by rewrite app_nil_r. Qed.

Section Respects.

Context (R : World -> World -> Prop) `{!PreOrder R}.

Lemma respects_ret {A} (a : A) : respects R (mret a).
Proof. intros w. reflexivity. Qed.

Lemma respects_raise {A} e : respects R (@raise A e).
Proof. intros w. reflexivity. Qed.

Lemma respects_get_world : respects R get_world.
Proof. intros w. reflexivity. Qed.

Lemma respects_or_raise {A} (o : option A) e : respects R (or_raise o e).
Proof. destruct o; [apply respects_ret | apply respects_raise]. Qed.

Lemma respects_bind {A B} (m : M A) (k : A -> M B) :
  respects R m -> (forall a, respects R (k a)) -> respects R (m ≫= k).
Proof.
  intros Hm Hk w. unfold mbind, M_bind.
  specialize (Hm w). destruct (m w) as [[e | a] w1]; simpl in *; [done |].
  etrans; [exact Hm | apply Hk].
Qed.

Lemma respects_modify f : (forall w, R w (f w)) -> respects R (modify f).
Proof. intros Hf w. apply Hf. Qed.

Lemma respects_for_each {A B} (body : A -> M B) l :
  (forall x, respects R (body x)) -> respects R (for_each body l).
Proof.
  intros Hb. induction l as [| x l IH]; simpl.
  - apply respects_ret.
  - apply respects_bind; [apply Hb | intros y].
    apply respects_bind; [apply IH | intros ys]. apply respects_ret.
Qed.

End Respects.

(** Which state updates each relation allows. *)

Lemma same_db_add_event e w : same_db w (add_event e w).
Proof. reflexivity. Qed.
Lemma same_db_set_local_dirs f w : same_db w (set_local_dirs f w).
Proof. reflexivity. Qed.
Lemma same_db_set_next_id n w : same_db w (set_next_id n w).
Proof. reflexivity. Qed.

Lemma emitted_add_event (P : Event -> Prop) e w : P e -> emitted P w (add_event e w).
Proof. intros He. exists [e]. split; [reflexivity | by constructor]. Qed.
Lemma emitted_set_local_dirs P f w : emitted P w (set_local_dirs f w).
Proof. exists []. split; [simpl; by rewrite app_nil_r | constructor]. Qed.
Lemma emitted_set_next_id P n w : emitted P w (set_next_id n w).
Proof. exists []. split; [simpl; by rewrite app_nil_r | constructor]. Qed.
Lemma emitted_set_resources P f w : emitted P w (set_resources f w).
Proof. exists []. split; [simpl; by rewrite app_nil_r | constructor]. Qed.

Lemma same_dirs_add_event e w : same_dirs w (add_event e w).
Proof. reflexivity. Qed.
Lemma same_dirs_set_next_id n w : same_dirs w (set_next_id n w).
Proof. reflexivity. Qed.
Lemma same_dirs_set_resources f w : same_dirs w (set_resources f w).
Proof. reflexivity. Qed.

Create HintDb frame.
#[export] Hint Resolve same_db_add_event same_db_set_local_dirs same_db_set_next_id
  emitted_add_event emitted_set_local_dirs emitted_set_next_id emitted_set_resources
  same_dirs_add_event same_dirs_set_next_id same_dirs_set_resources : frame.

(** One step of a proof that a computation respects a relation: peel a
    bind, close a primitive, or split on the test of a branch. *)
Ltac respects_step :=
  lazymatch goal with
  | |- PreOrder _ => apply _
  | |- respects _ (mbind _ _) => apply respects_bind; [| | intros ?]
  | |- respects _ (mret _) => apply respects_ret
  | |- respects _ (raise _) => apply respects_raise
  | |- respects _ (or_raise _ _) => apply respects_or_raise
  | |- respects _ get_world => apply respects_get_world
  | |- respects _ (call _) => apply respects_modify; intros ?; auto with frame
  | |- respects _ (modify _) => apply respects_modify; intros ?; auto with frame
  | |- respects _ (for_each _ _) => apply respects_for_each; [| intros ?]
  | |- respects _ (if ?b then _ else _) => destruct b
  | |- respects _ (match ?x with _ => _ end) => destruct x
  | |- respects _ (let _ := _ in _) => cbv zeta
  end.

Ltac respects_auto := repeat respects_step.

(** * The manifest builder *)

Lemma manifest_entry_benign E short_id f w :
  lookup_benign E f ->
  exists e w', manifest_entry E short_id f w = (inr e, w') /\
               entry_describes E short_id f e.
Proof.
  unfold lookup_benign, manifest_entry, manifest_finally, entry_describes,
    manifest_length, manifest_filename.
  intros Hb. unfold mbind, M_bind, call, modify. simpl.
  destruct (istorage_checksum E (manifest_srcfile E f)) as [x | c] eqn:Hc.
  - destruct x; try done.
    destruct (Py.truthy (reference_file_path f)); simpl;
      eexists _, _; (split; [reflexivity |]); simpl; repeat split; done.
  - destruct (Py.startswith c "sha") eqn:Hsha; simpl in Hb.
    + destruct (Hb eq_refl) as [h Hh]. rewrite Hh.
      destruct (Py.truthy (reference_file_path f)); simpl;
        eexists _, _; (split; [reflexivity |]); simpl; repeat split; done.
    + destruct (Py.startswith c "md5") eqn:Hmd5.
      * destruct (Hb eq_refl) as [h Hh]. rewrite Hh.
        destruct (Py.truthy (reference_file_path f)); simpl;
          eexists _, _; (split; [reflexivity |]); simpl; repeat split; done.
      * destruct (Py.truthy (reference_file_path f)); simpl;
          eexists _, _; (split; [reflexivity |]); simpl; repeat split; done.
Qed.



(** * The publication pipeline, stage by stage *)

Lemma publish_resource_unfold E user pk publish_type w :
  publish_resource E user pk publish_type w =
  match resources w !! pk with
  | None => (inl (Http404 pk), w)
  | Some res =>
      if can_be_published E res then
        match get_resource_files_manifest E pk res w with
        | (inl e, w1) => (inl e, w1)
        | (inr manifest, w1) =>
            match publish_package E pk res (scratch_dir E) manifest (scratch_ready E w1) with
            | (inl e, w2) => (inl e, w2)
            | (inr p, w2) =>
                match publish_mint E res publish_type (resource_url E pk) (dos_url E pk) p w2 with
                | (inl e, w3) => (inl e, w3)
                | (inr minted, w3) =>
                    match publish_fairshake E minted.1 (resource_url E pk)
                            (shutil_rmtree (scratch_dir E) w3).2 with
                    | (inl e, w4) => (inl e, w4)
                    | (inr r, w4) => publish_commit E user pk r minted.2 w4
                    end
                end
            end
        end
      else (inl (ValidationError msg_cannot_be_published), w)
  end.
Proof.
  unfold publish_resource, get_resource_by_shortkey, scratch_ready.
  unfold mbind at 1, M_bind at 1. unfold mbind at 1, M_bind at 1. simpl.
  destruct (resources w !! pk) as [res |]; simpl; [| done].
  destruct (can_be_published E res); simpl; [| done].
  unfold mbind at 1, M_bind at 1.
  destruct (get_resource_files_manifest E pk res w) as [[e | manifest] w1]; [done |].
  reflexivity.
Qed.

Lemma manifest_same_db E pk res :
  respects same_db (get_resource_files_manifest E pk res).
Proof.
  unfold get_resource_files_manifest, manifest_entry, manifest_finally.
  respects_auto.
Qed.

Lemma manifest_emitted (f : Event -> bool) E pk res :
  (forall p, f (EvStorageChecksum p) = false) ->
  (forall p, f (EvStorageSize p) = false) ->
  respects (emitted (fun e => f e = false)) (get_resource_files_manifest E pk res).
Proof.
  intros H1 H2.
  unfold get_resource_files_manifest, manifest_entry, manifest_finally.
  respects_auto.
Qed.

Lemma scratch_ready_trace E w :
  trace (scratch_ready E w) =
  (trace w ++ [EvMakedirs (scratch_dir E);
               EvWriteFile (Py.os_path_join (scratch_dir E) "resource-file-manifest.json")])%list.
Proof. simpl. by rewrite <- app_assoc. Qed.

Lemma scratch_ready_emitted (f : Event -> bool) E w :
  (forall p, f (EvMakedirs p) = false) ->
  (forall p, f (EvWriteFile p) = false) ->
  emitted (fun e => f e = false) w (scratch_ready E w).
Proof.
  intros H1 H2. eexists. split; [apply scratch_ready_trace |].
  repeat constructor; auto.
Qed.

Lemma scratch_ready_dir E w :
  local_dirs (scratch_ready E w) !! scratch_dir E = Some ["resource-file-manifest.json"].
Proof.
  simpl. rewrite lookup_alter_eq. by rewrite lookup_insert_eq.
Qed.

Lemma publish_package_same_db E pk res d manifest :
  respects same_db (publish_package E pk res d manifest).
Proof. unfold publish_package, create_bag, istorage_getFile. respects_auto. Qed.

Lemma publish_mint_same_db E res pt u d p :
  respects same_db (publish_mint E res pt u d p).
Proof. unfold publish_mint. respects_auto. Qed.

Lemma publish_fairshake_same_db E res u :
  respects same_db (publish_fairshake E res u).
Proof. unfold publish_fairshake. respects_auto. Qed.

(** The fast path of packaging: with at most one file nothing is called
    and nothing changes; the package is read off the first entry. *)
Lemma publish_package_fast_path E pk res d manifest w :
  (List.length (files res) <= 1)%nat ->
  publish_package E pk res d manifest w =
  match manifest with
  | [] => (inl IndexError, w)
  | e :: _ =>
      match e_sha256 e with
      | Some sha => (inr (mkPackage sha (e_length e) "text/plain" (e_url e)), w)
      | None => (inl (KeyError "sha256"), w)
      end
  end.
Proof.
  intros Hlen. unfold publish_package.
  destruct (1 <? List.length (files res))%nat eqn:Hlt.
  - apply Nat.ltb_lt in Hlt. lia.
  - destruct manifest as [| e rest]; [reflexivity |].
    unfold mbind, M_bind; simpl. destruct (e_sha256 e); reflexivity.
Qed.

Lemma emitted_scratch_ready (f : Event -> bool) E w w1 :
  (forall p, f (EvMakedirs p) = false) ->
  (forall p, f (EvWriteFile p) = false) ->
  emitted (fun e => f e = false) w w1 ->
  emitted (fun e => f e = false) w (scratch_ready E w1).
Proof.
  intros H1 H2 Hw. etrans; [exact Hw |]. by apply scratch_ready_emitted.
Qed.

(** An entry has a sha256 field only when the lookup gave a checksum
    with the sha prefix: a failed lookup or an md5 checksum leaves the
    field out. *)
Lemma manifest_entry_sha256 E short_id f w e w' :
  manifest_entry E short_id f w = (inr e, w') ->
  e_sha256 e <> None ->
  exists c, istorage_checksum E (manifest_srcfile E f) = inr c /\
            Py.startswith c "sha" = true.
Proof.
  unfold manifest_entry, manifest_finally.
  rewrite bind_run. unfold call, modify. cbv beta iota zeta.
  destruct (istorage_checksum E (manifest_srcfile E f)) as [x | c].
  - destruct x;
      destruct (Py.truthy (reference_file_path f));
      unfold mbind, M_bind, mret, M_ret, raise; simpl; intros [= <- _]; done.
  - destruct (Py.startswith c "sha") eqn:Hsha; [by exists c |].
    destruct (Py.startswith c "md5");
      [destruct (b64decode_hex E (Py.slice_from c 4)) |];
      destruct (Py.truthy (reference_file_path f));
      unfold mbind, M_bind, mret, M_ret, raise, or_raise; simpl;
      (intros [= <- _] || intros [=]); done.
Qed.

(** C10. On the fast path (at most one file), when the manifest is empty
    or its first entry has no sha256 field, publish_resource raises an
    indexing error (IndexError for the empty manifest, KeyError for the
    missing field); no call to the identifier minter or to the
    third-party registrant has been made by then, and no persisted row,
    hence no publication flag, has changed. *)
Theorem publish_fast_path_lookup_error E user pk publish_type w res manifest w1 :
  resources w !! pk = Some res ->
  can_be_published E res = true ->
  (List.length (files res) <= 1)%nat ->
  get_resource_files_manifest E pk res w = (inr manifest, w1) ->
  match manifest with [] => True | e :: _ => e_sha256 e = None end ->
  let out := publish_resource E user pk publish_type w in
  out.1 = inl (match manifest with [] => IndexError | _ :: _ => KeyError "sha256" end) /\
  Forall (fun e => is_external_service_event e = false) (events_since w out.2) /\
  resources out.2 = resources w.
Proof.
  intros Hres Hpub Hlen Hman Hsha out. subst out.
  rewrite publish_resource_unfold, Hres, Hpub, Hman.
  rewrite publish_package_fast_path by done.
  assert (Hev : emitted (fun e => is_external_service_event e = false) w (scratch_ready E w1)).
  { apply emitted_scratch_ready; [done | done |].
    pose proof (manifest_emitted is_external_service_event E pk res
                  (fun _ => eq_refl) (fun _ => eq_refl) w) as H.
    by rewrite Hman in H. }
  assert (Hdb : resources (scratch_ready E w1) = resources w).
  { pose proof (manifest_same_db E pk res w) as H. by rewrite Hman in H. }
  destruct manifest as [| e rest]; simpl.
  - split; [done |]. split; [by apply events_since_emitted | done].
  - rewrite Hsha. simpl. split; [done |]. split; [by apply events_since_emitted | done].
Qed.

(** A resource whose only file has an md5 checksum in the backend. *)
Lemma publish_fast_path_lookup_error_witness :
  let out := publish_resource (Demo.env 200 true) "alice" "r3" "doi" Demo.world in
  out.1 = inl (KeyError "sha256") /\
  Forall (fun e => is_external_service_event e = false) (events_since Demo.world out.2) /\
  resources out.2 = resources Demo.world.
Proof.
  apply (publish_fast_path_lookup_error (Demo.env 200 true) "alice" "r3" "doi" Demo.world
           (Demo.res "Three" "r3" [Demo.file_m])
           [mkEntry "https://www.commonsshare.org/django_irods/download/r3/data/contents/m.txt"
                    5 "m.txt" None (Some "hexq83v")]
           (add_event (EvStorageChecksum "/zone/home/r3/data/contents/m.txt") Demo.world)).
  - vm_compute. reflexivity.
  - reflexivity.
  - simpl. lia.
  - vm_compute. reflexivity.
  - reflexivity.
Defined.

(** [publish_resource] as its stages: lookup, eligibility, preparation,
    minting, finish. *)
Lemma publish_resource_stages E user pk publish_type w :
  publish_resource E user pk publish_type w =
  match resources w !! pk with
  | None => (inl (Http404 pk), w)
  | Some res =>
      if can_be_published E res then
        match publish_prepare E pk res w with
        | (inl e, w2) => (inl e, w2)
        | (inr p, w2) =>
            match publish_mint E res publish_type (resource_url E pk) (dos_url E pk) p w2 with
            | (inl e, w3) => (inl e, w3)
            | (inr minted, w3) => publish_finish E user pk minted w3
            end
        end
      else (inl (ValidationError msg_cannot_be_published), w)
  end.
Proof.
  rewrite publish_resource_unfold.
  destruct (resources w !! pk) as [res |]; [| done].
  destruct (can_be_published E res); [| done].
  unfold publish_prepare.
  rewrite (bind_run (get_resource_files_manifest E pk res)).
  destruct (get_resource_files_manifest E pk res w) as [[e | manifest] w1]; [done |].
  reflexivity.
Qed.

Lemma publish_prepare_same_db E pk res : respects same_db (publish_prepare E pk res).
Proof.
  unfold publish_prepare. apply respects_bind; [apply _ | apply manifest_same_db |].
  intros manifest. unfold os_makedirs, write_file.
  apply respects_bind; [apply _ | respects_auto |]. intros _.
  apply respects_bind; [apply _ | respects_auto |]. intros _.
  apply publish_package_same_db.
Qed.

Lemma publish_package_emitted (f : Event -> bool) E pk res d manifest :
  (forall e, is_bag_event e = true -> f e = false) ->
  (forall p, f (EvStorageSize p) = false) ->
  respects (emitted (fun e => f e = false)) (publish_package E pk res d manifest).
Proof.
  intros H1 H2. unfold publish_package, create_bag, istorage_getFile.
  respects_auto; apply emitted_add_event; auto.
Qed.

(** Preparation makes storage and local calls only. *)
Lemma publish_prepare_emitted (f : Event -> bool) E pk res :
  (forall e, is_bag_event e = true -> f e = false) ->
  (forall p, f (EvStorageChecksum p) = false) ->
  (forall p, f (EvStorageSize p) = false) ->
  (forall p, f (EvMakedirs p) = false) ->
  (forall p, f (EvWriteFile p) = false) ->
  respects (emitted (fun e => f e = false)) (publish_prepare E pk res).
Proof.
  intros H1 H2 H3 H4 H5. unfold publish_prepare.
  apply respects_bind; [apply _ | by apply manifest_emitted |].
  intros manifest. unfold os_makedirs, write_file.
  apply respects_bind; [apply _ | respects_auto |]. intros _.
  apply respects_bind; [apply _ | respects_auto |]. intros _.
  by apply publish_package_emitted.
Qed.

Lemma manifest_has_one_entry_per_file E pk res w manifest w1 :
  get_resource_files_manifest E pk res w = (inr manifest, w1) ->
  List.length manifest = List.length (files res).
Proof.
  unfold get_resource_files_manifest.
  generalize (files res) as fs. intros fs. revert w manifest.
  induction fs as [| f fs IH]; intros w manifest; simpl.
  - intros [= <- _]. done.
  - rewrite bind_run.
    destruct (manifest_entry E pk f w) as [[e | y] w2]; [done |].
    rewrite bind_run.
    destruct (for_each (manifest_entry E pk) fs w2) as [[e | ys] w3] eqn:Hfs; [done |].
    unfold mret, M_ret. intros [= <- <-]. simpl. f_equal. by eapply IH.
Qed.

Lemma publish_prepare_run E pk res w :
  publish_prepare E pk res w =
  match get_resource_files_manifest E pk res w with
  | (inl e, w1) => (inl e, w1)
  | (inr manifest, w1) =>
      publish_package E pk res (scratch_dir E) manifest (scratch_ready E w1)
  end.
Proof.
  unfold publish_prepare. rewrite bind_run.
  destruct (get_resource_files_manifest E pk res w) as [[e | manifest] w1]; reflexivity.
Qed.

(** Preparation on the fast path: no call of the packager, and the
    package is the first manifest entry. *)
Lemma publish_prepare_fast E pk res w :
  (List.length (files res) <= 1)%nat ->
  emitted (fun e => is_bag_or_mint_event e = false) w (publish_prepare E pk res w).2 /\
  forall p w2, publish_prepare E pk res w = (inr p, w2) ->
    exists entry rest sha w1,
      get_resource_files_manifest E pk res w = (inr (entry :: rest), w1) /\
      e_sha256 entry = Some sha /\
      p = mkPackage sha (e_length entry) "text/plain" (e_url entry).
Proof.
  intros Hlen. rewrite publish_prepare_run.
  pose proof (manifest_emitted is_bag_or_mint_event E pk res
                (fun _ => eq_refl) (fun _ => eq_refl) w) as Hev.
  destruct (get_resource_files_manifest E pk res w) as [[e | manifest] w1] eqn:Hman.
  - split; [exact Hev | done].
  - rewrite publish_package_fast_path by done.
    assert (Hev' : emitted (fun e => is_bag_or_mint_event e = false) w (scratch_ready E w1)).
    { by apply emitted_scratch_ready. }
    destruct manifest as [| entry rest]; [split; [exact Hev' | done] |].
    destruct (e_sha256 entry) as [sha |] eqn:Hsha; (split; [exact Hev' |]); [| done].
    intros p w2 [= <- <-]. by exists entry, rest, sha, w1.
Qed.

Lemma publish_mint_trace E res publish_type pk p w :
  trace (publish_mint E res publish_type (resource_url E pk) (dos_url E pk) p w).2 =
  (trace w ++ mint_events E res publish_type pk p)%list.
Proof.
  unfold publish_mint, mint_events.
  destruct (String.eqb (Py.lower publish_type) "minid").
  - rewrite bind_run. simpl. rewrite bind_run.
    by destruct (mca_register_entity E _).
  - destruct (String.eqb (Py.lower publish_type) "doi").
    + rewrite bind_run. simpl.
      destruct (negb _); [done |].
      rewrite bind_run. destruct (json _) as [d |]; [| done]. simpl.
      rewrite bind_run. by destruct (d !! "@id").
    + simpl. by rewrite app_nil_r.
Qed.

(** After minting: the scratch directory is removed, FairShake is
    called, the store is written. *)
Lemma publish_finish_emitted (f : Event -> bool) E user pk minted :
  (forall p, f (EvRmtree p) = false) ->
  (forall u, f (EvFairshakeLogin u) = false) ->
  (forall u r, f (EvFairshakeRegister u r) = false) ->
  (forall p n v, f (EvStorageSetAVU p n v) = false) ->
  respects (emitted (fun e => f e = false)) (publish_finish E user pk minted).
Proof.
  intros H1 H2 H3 H4.
  unfold publish_finish, shutil_rmtree, publish_fairshake, publish_commit,
    resource_save, set_public, raccess_save, create_publisher, create_date,
    create_identifier, resource_modified, resource_save, update_row.
  respects_auto.
Qed.

(** Where a call filtered out of the first and last span was made. *)
Lemma events_in_middle (f : Event -> bool) w w1 w2 w3 evs ev :
  emitted (fun e => f e = false) w w1 ->
  trace w2 = (trace w1 ++ evs)%list ->
  emitted (fun e => f e = false) w2 w3 ->
  ev ∈ events_since w w3 -> f ev = true -> ev ∈ evs.
Proof.
  intros (e1 & H1 & F1) H2 (e3 & H3 & F3) Hin Hf.
  rewrite (events_since_app w w3 (e1 ++ evs ++ e3)) in Hin.
  - apply elem_of_app in Hin as [Hin | Hin].
    + rewrite Forall_forall in F1. by rewrite (F1 ev) in Hf.
    + apply elem_of_app in Hin as [Hin | Hin]; [done |].
      rewrite Forall_forall in F3. by rewrite (F3 ev) in Hf.
  - rewrite H3, H2, H1. by rewrite <- !app_assoc.
Qed.

Lemma emitted_weaken (P Q : Event -> Prop) w w' :
  (forall e, P e -> Q e) -> emitted P w w' -> emitted Q w w'.
Proof.
  intros HPQ (evs & Ht & HP). exists evs. split; [done |].
  eapply Forall_impl; eauto.
Qed.

Lemma mint_events_no_bag E res publish_type pk p :
  Forall (fun e => is_bag_event e = false) (mint_events E res publish_type pk p).
Proof.
  unfold mint_events.
  destruct (String.eqb _ "minid"); [by repeat constructor |].
  destruct (String.eqb _ "doi"); by repeat constructor.
Qed.

Lemma mint_events_single E res publish_type pk p ev :
  ev ∈ mint_events E res publish_type pk p ->
  mint_events E res publish_type pk p = [ev].
Proof.
  unfold mint_events.
  destruct (String.eqb _ "minid"); [by intros ->%list_elem_of_singleton |].
  destruct (String.eqb _ "doi"); [by intros ->%list_elem_of_singleton |].
  by intros ?%elem_of_nil.
Qed.

Lemma publish_mint_emitted_no_bag E res publish_type pk p w :
  emitted (fun e => is_bag_event e = false) w
    (publish_mint E res publish_type (resource_url E pk) (dos_url E pk) p w).2.
Proof.
  eexists. split; [apply publish_mint_trace | apply mint_events_no_bag].
Qed.

(** C3. For a resource with exactly one file, a run of publish_resource
    makes none of the packager's calls (no freshness check on the
    collection, no bag creation, no download of an archive), and the
    request sent to the identifier minter, when one is sent, is built
    from the single manifest entry: its sha256 as the checksum, its
    length as the size, its url as the download location, with the
    plain-content format. *)
Theorem single_file_skips_bag E user pk publish_type w res :
  resources w !! pk = Some res ->
  List.length (files res) = 1%nat ->
  let out := publish_resource E user pk publish_type w in
  Forall (fun e => is_bag_event e = false) (events_since w out.2) /\
  forall ev, ev ∈ events_since w out.2 -> is_mint_event ev = true ->
    exists entry sha w1,
      get_resource_files_manifest E pk res w = (inr [entry], w1) /\
      e_sha256 entry = Some sha /\
      mint_events E res publish_type pk
        (mkPackage sha (e_length entry) "text/plain" (e_url entry)) = [ev].
Proof.
  intros Hres Hlen out. subst out.
  rewrite publish_resource_stages, Hres.
  destruct (can_be_published E res); simpl;
    [| rewrite events_since_refl; split; [constructor | by intros ev ?%elem_of_nil]].
  destruct (publish_prepare_fast E pk res w) as [Hev Hpkg]; [lia |].
  assert (Hnb : forall e, is_bag_or_mint_event e = false -> is_bag_event e = false).
  { intros e. unfold is_bag_or_mint_event. by intros [? ?]%orb_false_iff. }
  assert (Hmi : forall e, is_mint_event e = true -> is_bag_or_mint_event e = true).
  { intros e He. unfold is_bag_or_mint_event. rewrite He. by rewrite orb_true_r. }
  destruct (publish_prepare E pk res w) as [[e | p] w2] eqn:Hprep; simpl in *.
  { split.
    - apply events_since_emitted. eapply emitted_weaken; [exact Hnb | exact Hev].
    - intros ev Hin Hm. apply events_since_emitted in Hev.
      rewrite Forall_forall in Hev. specialize (Hev ev Hin).
      by rewrite (Hmi ev Hm) in Hev. }
  destruct (Hpkg p w2 eq_refl) as (entry & rest & sha & w1 & Hman & Hsha & ->).
  assert (rest = []) as ->.
  { apply manifest_has_one_entry_per_file in Hman. rewrite Hlen in Hman.
    destruct rest; [done | simpl in Hman; lia]. }
  set (p := mkPackage sha (e_length entry) "text/plain" (e_url entry)) in *.
  pose proof (publish_mint_trace E res publish_type pk p w2) as Htr.
  pose proof (publish_mint_emitted_no_bag E res publish_type pk p w2) as Hmint.
  assert (Hfin : forall minted w3,
            emitted (fun e => is_bag_or_mint_event e = false) w3
              (publish_finish E user pk minted w3).2).
  { intros minted w3. by apply publish_finish_emitted. }
  destruct (publish_mint E res publish_type (resource_url E pk) (dos_url E pk) p w2)
    as [[e | minted] w3] eqn:Hm; simpl in *.
  - split.
    + apply events_since_emitted. etrans; [eapply emitted_weaken; [exact Hnb | exact Hev] | exact Hmint].
    + intros ev Hin Hmev. exists entry, sha, w1. repeat split; [done.. |].
      apply mint_events_single.
      eapply (events_in_middle is_bag_or_mint_event w w2 w3 w3); eauto.
      reflexivity.
  - split.
    + apply events_since_emitted.
      etrans; [eapply emitted_weaken; [exact Hnb | exact Hev] |]. etrans; [exact Hmint |].
      eapply emitted_weaken; [exact Hnb | apply Hfin].
    + intros ev Hin Hmev. exists entry, sha, w1. repeat split; [done.. |].
      apply mint_events_single.
      eapply (events_in_middle is_bag_or_mint_event w w2 w3); eauto.
Qed.

(** The one-file resource r1, published with a minimal identifier. *)
Lemma single_file_skips_bag_witness :
  let out := publish_resource (Demo.env 200 true) "alice" "r1" "minid" Demo.world in
  Forall (fun e => is_bag_event e = false) (events_since Demo.world out.2) /\
  forall ev, ev ∈ events_since Demo.world out.2 -> is_mint_event ev = true ->
    exists entry sha w1,
      get_resource_files_manifest (Demo.env 200 true) "r1"
        (Demo.res "One" "r1" [Demo.file_a]) Demo.world = (inr [entry], w1) /\
      e_sha256 entry = Some sha /\
      mint_events (Demo.env 200 true) (Demo.res "One" "r1" [Demo.file_a]) "minid" "r1"
        (mkPackage sha (e_length entry) "text/plain" (e_url entry)) = [ev].
Proof.
  apply (single_file_skips_bag (Demo.env 200 true) "alice" "r1" "minid" Demo.world
           (Demo.res "One" "r1" [Demo.file_a])).
  - vm_compute. reflexivity.
  - reflexivity.
Defined.

(** The minting step when the naming authority refuses the request it
    was sent. *)
Lemma publish_mint_doi_refused E res publish_type pk p w url req :
  EvDoiPut url req ∈ mint_events E res publish_type pk p ->
  status_code (requests_put_doi E url req) <> HTTP_200_OK ->
  (publish_mint E res publish_type (resource_url E pk) (dos_url E pk) p w).1 =
  inl (PublishException msg_no_doi).
Proof.
  unfold mint_events, publish_mint.
  destruct (String.eqb _ "minid"); [by intros ?%list_elem_of_singleton |].
  destruct (String.eqb _ "doi"); [| by intros ?%elem_of_nil].
  intros [= -> ->]%list_elem_of_singleton Hst.
  apply Z.eqb_neq in Hst.
  rewrite bind_run. unfold call, modify. cbv beta iota zeta. by rewrite Hst.
Qed.

(** C2. When the request sent to the naming authority during
    publish_resource is answered with a status other than 200,
    publish_resource raises (the publication exception), and the store
    is as it was before the call: the public, discoverable, immutable,
    shareable and published flags of every resource are unchanged, and no
    Identifier or Publisher element has been added. *)
Theorem doi_failure_leaves_resource_untouched E user pk publish_type w url req :
  let out := publish_resource E user pk publish_type w in
  EvDoiPut url req ∈ events_since w out.2 ->
  status_code (requests_put_doi E url req) <> HTTP_200_OK ->
  out.1 = inl (PublishException msg_no_doi) /\
  resources out.2 = resources w.
Proof.
  intros out. subst out. rewrite publish_resource_stages.
  destruct (resources w !! pk) as [res |]; simpl;
    [| rewrite events_since_refl; by intros ?%elem_of_nil].
  destruct (can_be_published E res); simpl;
    [| rewrite events_since_refl; by intros ?%elem_of_nil].
  pose proof (publish_prepare_emitted is_mint_event E pk res) as Hev.
  specialize (Hev ltac:(by intros []) ltac:(done) ltac:(done) ltac:(done) ltac:(done) w).
  pose proof (publish_prepare_same_db E pk res w) as Hdb.
  destruct (publish_prepare E pk res w) as [[e | p] w2]; simpl in *.
  { intros Hin _. apply events_since_emitted in Hev.
    rewrite Forall_forall in Hev. by specialize (Hev _ Hin). }
  pose proof (publish_mint_trace E res publish_type pk p w2) as Htr.
  pose proof (publish_mint_same_db E res publish_type (resource_url E pk) (dos_url E pk) p w2)
    as Hdb'.
  pose proof (publish_mint_doi_refused E res publish_type pk p w2 url req) as Href.
  destruct (publish_mint E res publish_type (resource_url E pk) (dos_url E pk) p w2)
    as [[e | minted] w3]; simpl in *.
  - intros Hin Hst. split.
    + assert (inl e = inl (PublishException msg_no_doi)
                :> Exn + Resource * option Identifier) as [= ->]; [| done].
      apply Href; [| done].
      eapply (events_in_middle is_mint_event w w2 w3 w3); eauto. reflexivity.
    + unfold same_db in *. congruence.
  - intros Hin Hst. exfalso.
    assert (Hfin : emitted (fun e => is_mint_event e = false) w3
                     (publish_finish E user pk minted w3).2).
    { by apply publish_finish_emitted. }
    assert (Hmid : EvDoiPut url req ∈ mint_events E res publish_type pk p).
    { eapply (events_in_middle is_mint_event w w2 w3); eauto. }
    by specialize (Href Hmid Hst).
Qed.

(** The two-file resource r2, with a naming authority that answers 500. *)
Lemma doi_failure_leaves_resource_untouched_witness :
  let out := publish_resource (Demo.env 500 true) "alice" "r2" "DOI" Demo.world in
  out.1 = inl (PublishException msg_no_doi) /\
  resources out.2 = resources Demo.world.
Proof.
  apply (doi_failure_leaves_resource_untouched (Demo.env 500 true) "alice" "r2" "DOI"
           Demo.world "https://ors.datacite.org/doi/put"
           (mkDoiRequest 2018 "https://www.commonsshare.org/resource/r2" "DOI for Two"
              "application/zip" 2048
              ["https://www.commonsshare.org/django_irods/download/bags/r2.zip";
               "https://www.commonsshare.org/dosapi/dataobjects/r2/"])).
  - vm_compute. apply list_elem_of_In. repeat (first [left; reflexivity | right]).
  - vm_compute. discriminate.
Defined.

(** * Success of the pipeline *)


(** Registration only records the assessment id on the object. *)
Lemma publish_fairshake_ok E res u w r w' :
  publish_fairshake E res u w = (inr r, w') ->
  doi (cols r) = doi (cols res) /\ minid (cols r) = minid (cols res) /\
  raccess r = raccess res.
Proof.
  unfold publish_fairshake.
  rewrite bind_run. unfold call, modify. cbv beta iota zeta.
  rewrite bind_run.
  destruct (negb _); [done |].
  rewrite bind_run. destruct (json _) as [body |]; [| done].
  unfold or_raise at 1, mret at 1, M_ret at 1.
  destruct (body !! "key") as [key |]; [| done].
  unfold or_raise at 1, mret at 1, M_ret at 1.
  rewrite bind_run. cbv beta iota zeta.
  destruct (negb _); [done |].
  rewrite bind_run. destruct (json _) as [body' |]; [| done].
  unfold or_raise at 1, mret at 1, M_ret at 1. rewrite bind_run.
  destruct (body' !! "id") as [aid |]; [| done].
  unfold or_raise, mret, M_ret. by intros [= <- <-].
Qed.






(** * A publish type that is neither minid nor doi *)

Lemma publish_mint_unknown E res publish_type u d p w :
  Py.lower publish_type <> "minid" -> Py.lower publish_type <> "doi" ->
  publish_mint E res publish_type u d p w = (inr (res, None), w).
Proof.
  intros H1 H2. unfold publish_mint.
  apply String.eqb_neq in H1, H2. by rewrite H1, H2.
Qed.

Lemma publish_fairshake_accepted E key aid res pk w :
  fairshake_accepts E key aid ->
  publish_fairshake E res (resource_url E pk) w =
  (inr (set_cols (set_assessment_id (Some aid) (cols res)) res),
   add_event (EvFairshakeRegister (FAIRSHAKE_URL E ++ "/digital_object/")
                (mkFairshakeRequest (title (cols res)) "dcppc" (resource_url E pk) [14] [11]))
     (add_event (EvFairshakeLogin (FAIRSHAKE_URL E ++ "/auth/login/")) w)).
Proof.
  intros (Hlogin & (body & Hbody & Hkey) & Hreg). unfold publish_fairshake.
  rewrite bind_run. unfold call, modify. cbv beta iota zeta.
  rewrite bind_run, Hlogin, Z.eqb_refl. change (negb true) with false. cbv iota.
  rewrite bind_run, Hbody. unfold or_raise at 1, mret at 1, M_ret at 1.
  rewrite Hkey. unfold or_raise at 1, mret at 1, M_ret at 1.
  rewrite bind_run. cbv beta iota zeta.
  destruct (Hreg (mkFairshakeRequest (title (cols res)) "dcppc" (resource_url E pk) [14] [11]))
    as (Hst & body' & Hbody' & Hid).
  rewrite Hst, Z.eqb_refl. change (negb true) with false. cbv iota.
  rewrite bind_run, Hbody'. unfold or_raise at 1, mret at 1, M_ret at 1.
  rewrite bind_run, Hid. reflexivity.
Qed.

(** The commit with [ident_md_args] unbound: everything up to the
    creation of the Identifier element is done, then the name is read. *)
Lemma publish_commit_unbound E user pk r w row :
  resources w !! pk = Some row ->
  let out := publish_commit E user pk r None w in
  out.1 = inl (UnboundLocalError "ident_md_args") /\
  trace out.2 = trace w /\ local_dirs out.2 = local_dirs w /\
  exists row', resources out.2 !! pk = Some row' /\
    cols row' = cols r /\
    raccess row' = set_published true (set_shareable false (set_immutable true
                     (set_discoverable true (set_public_flag true (raccess r))))) /\
    identifiers (metadata row') = identifiers (metadata row) /\
    publishers (metadata row') = (publishers (metadata row) ++ [commonsshare_publisher])%list.
Proof.
  intros Hrow out. subst out. unfold publish_commit.
  unfold resource_save, set_public, raccess_save, create_publisher, create_date,
    update_row, call, modify.
  unfold mbind, M_bind, mret, M_ret, or_raise, raise. simpl.
  split; [done |]. split; [done |]. split; [done |].
  rewrite !lookup_alter_eq, Hrow. simpl. eexists. split; [reflexivity |]. by repeat split.
Qed.

(** C9. With a publish type whose lowercase form is neither minid nor
    doi, on a publishable resource whose content was packaged and with a
    FairShake that accepts the registration, publish_resource does not
    fail before its side effects: no call to an identifier minter is
    made, the FairShake login and registration calls are made, the
    resource is saved (with the assessment id) and its flags are
    committed as published (public, discoverable, immutable, published
    set, shareable cleared), the Publisher element is created; only then
    an unbound-local-name error is raised for ident_md_args.  The DOI and
    minimal-identifier fields keep their values and no Identifier element
    is created. *)
Theorem unknown_publish_type_commits_then_raises
    E user pk publish_type w res p w2 key aid :
  Py.lower publish_type <> "minid" ->
  Py.lower publish_type <> "doi" ->
  resources w !! pk = Some res ->
  can_be_published E res = true ->
  publish_prepare E pk res w = (inr p, w2) ->
  fairshake_accepts E key aid ->
  let out := publish_resource E user pk publish_type w in
  out.1 = inl (UnboundLocalError "ident_md_args") /\
  Forall (fun e => is_mint_event e = false) (events_since w out.2) /\
  (exists u, EvFairshakeLogin u ∈ events_since w out.2) /\
  (exists u r, EvFairshakeRegister u r ∈ events_since w out.2) /\
  exists row, resources out.2 !! pk = Some row /\
    raccess row = published_access /\
    doi (cols row) = doi (cols res) /\ minid (cols row) = minid (cols res) /\
    assessment_id (cols row) = Some aid /\
    identifiers (metadata row) = identifiers (metadata res) /\
    publishers (metadata row) = (publishers (metadata res) ++ [commonsshare_publisher])%list.
Proof.
  intros Hm Hd Hres Hpub Hprep Hfs out.
  pose proof (publish_prepare_same_db E pk res w) as Hdb.
  pose proof (publish_prepare_emitted is_mint_event E pk res) as Hev.
  specialize (Hev ltac:(by intros []) ltac:(done) ltac:(done) ltac:(done) ltac:(done) w).
  rewrite Hprep in Hdb, Hev. unfold same_db in Hdb. cbn [fst snd] in Hdb, Hev.
  set (w3 :=
    add_event (EvFairshakeRegister (FAIRSHAKE_URL E ++ "/digital_object/")
                 (mkFairshakeRequest (title (cols res)) "dcppc" (resource_url E pk) [14] [11]))
      (add_event (EvFairshakeLogin (FAIRSHAKE_URL E ++ "/auth/login/"))
         (set_local_dirs (delete (scratch_dir E))
            (add_event (EvRmtree (scratch_dir E)) w2)))).
  assert (Hrun : publish_resource E user pk publish_type w =
                 publish_commit E user pk
                   (set_cols (set_assessment_id (Some aid) (cols res)) res) None w3).
  { rewrite publish_resource_stages, Hres, Hpub, Hprep.
    rewrite publish_mint_unknown by done.
    unfold publish_finish. rewrite bind_run. unfold shutil_rmtree at 1.
    rewrite bind_run. unfold call at 1, modify at 1. cbv beta iota zeta.
    unfold modify at 1. cbv beta iota zeta.
    rewrite bind_run. cbn [fst snd].
    by rewrite (publish_fairshake_accepted E key aid) by done. }
  subst out. rewrite Hrun.
  assert (Hrow3 : resources w3 !! pk = Some res) by (subst w3; simpl; by rewrite Hdb).
  destruct (publish_commit_unbound E user pk
              (set_cols (set_assessment_id (Some aid) (cols res)) res) w3 res Hrow3)
    as (Hout & Htr & _ & row & Hrow & Hcols & Hacc & Hids & Hpubs).
  destruct (publish_commit E user pk _ None w3) as [r4 w4]. cbn [fst snd] in *.
  destruct Hev as (evs & Hevs & Hno).
  assert (Hsince : events_since w w4 =
    (evs ++ [EvRmtree (scratch_dir E);
             EvFairshakeLogin (FAIRSHAKE_URL E ++ "/auth/login/");
             EvFairshakeRegister (FAIRSHAKE_URL E ++ "/digital_object/")
               (mkFairshakeRequest (title (cols res)) "dcppc" (resource_url E pk) [14] [11])])%list).
  { apply events_since_app. rewrite Htr. subst w3. simpl. rewrite Hevs.
    by rewrite <- !app_assoc. }
  rewrite Hsince. split; [done |]. split; [| split; [| split]].
  - apply Forall_app. split; [done |]. by repeat constructor.
  - eexists. apply elem_of_app. right. apply list_elem_of_In. simpl. eauto.
  - eexists _, _. apply elem_of_app. right. apply list_elem_of_In. simpl. eauto.
  - exists row. split; [done |]. rewrite Hcols, Hacc. by repeat split.
Qed.

(** The one-file resource r1, published with the publish type "ark". *)
Lemma unknown_publish_type_commits_then_raises_witness :
  let out := publish_resource (Demo.env 200 true) "alice" "r1" "ark" Demo.world in
  out.1 = inl (UnboundLocalError "ident_md_args") /\
  Forall (fun e => is_mint_event e = false) (events_since Demo.world out.2) /\
  (exists u, EvFairshakeLogin u ∈ events_since Demo.world out.2) /\
  (exists u r, EvFairshakeRegister u r ∈ events_since Demo.world out.2) /\
  exists row, resources out.2 !! "r1" = Some row /\
    raccess row = published_access /\
    doi (cols row) = "" /\ minid (cols row) = "" /\
    assessment_id (cols row) = Some "77" /\
    identifiers (metadata row) = [Demo.site_identifier "r1"] /\
    publishers (metadata row) = [commonsshare_publisher].
Proof.
  apply (unknown_publish_type_commits_then_raises (Demo.env 200 true) "alice" "r1" "ark"
           Demo.world (Demo.res "One" "r1" [Demo.file_a])
           (mkPackage "hex:q83v" 12 "text/plain"
              "https://www.commonsshare.org/django_irods/download/r1/data/contents/a.txt")
           (publish_prepare (Demo.env 200 true) "r1" (Demo.res "One" "r1" [Demo.file_a])
              Demo.world).2 "k3y" "77").
  - vm_compute. discriminate.
  - vm_compute. discriminate.
  - vm_compute. reflexivity.
  - reflexivity.
  - vm_compute. reflexivity.
  - split; [reflexivity |]. split.
    + eexists. split; [reflexivity |]. vm_compute. reflexivity.
    + intros req. split; [reflexivity |].
      eexists. split; [reflexivity |]. vm_compute. reflexivity.
Defined.

(** * A collection missing from the backend *)

(** The packager on more than one file checks the collection first. *)
Lemma publish_package_missing_collection E pk res d manifest w :
  (1 < List.length (files res))%nat ->
  istorage_exists E (root_path (cols res)) = false ->
  publish_package E pk res d manifest w =
  (inl (ValidationError (msg_not_in_irods pk)),
   add_event (EvStorageExists (root_path (cols res))) w).
Proof.
  intros Hlen Hex. unfold publish_package.
  apply Nat.ltb_lt in Hlen. rewrite Hlen.
  rewrite bind_run. rewrite bind_run. unfold call, modify. cbv beta iota zeta.
  by rewrite Hex.
Qed.

(** C8, as the code has it.  For a publishable resource with more than
    one file, whose manifest was built, and whose backend collection
    does not exist, publish_resource fails with the validation error
    that reports the missing collection; no identifier is minted, no
    registration is made and the store is unchanged.  With one file the
    collection is not looked at, as the example after the theorem shows. *)
Theorem missing_collection_multi_file E user pk publish_type w res manifest w1 :
  resources w !! pk = Some res ->
  can_be_published E res = true ->
  (1 < List.length (files res))%nat ->
  get_resource_files_manifest E pk res w = (inr manifest, w1) ->
  istorage_exists E (root_path (cols res)) = false ->
  let out := publish_resource E user pk publish_type w in
  out.1 = inl (ValidationError (msg_not_in_irods pk)) /\
  Forall (fun e => is_external_service_event e = false) (events_since w out.2) /\
  resources out.2 = resources w.
Proof.
  intros Hres Hpub Hlen Hman Hex out.
  assert (Hrun : publish_resource E user pk publish_type w =
                 (inl (ValidationError (msg_not_in_irods pk)),
                  add_event (EvStorageExists (root_path (cols res))) (scratch_ready E w1))).
  { rewrite publish_resource_unfold, Hres, Hpub, Hman.
    by rewrite publish_package_missing_collection. }
  subst out. rewrite Hrun. cbn [fst snd].
  pose proof (manifest_same_db E pk res w) as Hdb.
  pose proof (manifest_emitted is_external_service_event E pk res
                (fun _ => eq_refl) (fun _ => eq_refl) w) as Hev.
  rewrite Hman in Hdb, Hev. cbn [fst snd] in Hdb, Hev.
  split; [done |]. split; [| done].
  apply events_since_emitted.
  etrans; [apply emitted_scratch_ready; [done | done | exact Hev] |].
  by apply emitted_add_event.
Qed.

(** The two-file resource r2 in a backend without its collection. *)
Lemma missing_collection_multi_file_witness :
  let out := publish_resource (Demo.env 200 false) "alice" "r2" "doi" Demo.world in
  out.1 = inl (ValidationError (msg_not_in_irods "r2")) /\
  Forall (fun e => is_external_service_event e = false) (events_since Demo.world out.2) /\
  resources out.2 = resources Demo.world.
Proof.
  apply (missing_collection_multi_file (Demo.env 200 false) "alice" "r2" "doi" Demo.world
           (Demo.res "Two" "r2" [Demo.file_x; Demo.file_y])
           [mkEntry "https://www.commonsshare.org/django_irods/download/r2/data/contents/x.txt"
                    7 "x.txt" None None;
            mkEntry "https://www.commonsshare.org/django_irods/download/r2/data/contents/y.txt"
                    9 "y.txt" None None]
           (add_event (EvStorageChecksum "/zone/home/r2/data/contents/y.txt")
              (add_event (EvStorageChecksum "/zone/home/r2/data/contents/x.txt") Demo.world))).
  - vm_compute. reflexivity.
  - reflexivity.
  - simpl. lia.
  - vm_compute. reflexivity.
  - reflexivity.
Defined.

(** C8, counterexample: r4 has one (referenced) file and no collection
    in the backend, and publish_resource returns normally, with the
    resource published under a DOI. *)
Lemma missing_collection_single_file_publishes :
  let E := Demo.env 200 false in
  let out := publish_resource E "alice" "r4" "doi" Demo.world in
  resources Demo.world !! "r4" = Some (Demo.res "Four" "r4" [Demo.file_b]) /\
  files (Demo.res "Four" "r4" [Demo.file_b]) <> [] /\
  istorage_exists E (root_path (cols (Demo.res "Four" "r4" [Demo.file_b]))) = false /\
  out.1 = inr tt /\
  out.1 <> inl (ValidationError (msg_not_in_irods "r4")) /\
  (raccess <$> resources out.2 !! "r4") = Some published_access /\
  ((doi ∘ cols) <$> resources out.2 !! "r4") = Some "doi:10.25491/abcd".
Proof.
  vm_compute. repeat split; try reflexivity; discriminate.
Qed.

(** * The scratch directory *)

#[export] Instance keeps_dir_preorder d : PreOrder (keeps_dir d).
Proof.
  split; [intros w H; exact H |].
  intros w1 w2 w3 H12 H23 H. by apply H23, H12.
Qed.

Lemma keeps_dir_add_event d e w : keeps_dir d w (add_event e w).
Proof. intros H. exact H. Qed.
Lemma keeps_dir_alter d d' f w : keeps_dir d w (set_local_dirs (alter f d') w).
Proof.
  intros [x Hx]. simpl. destruct (decide (d' = d)) as [-> | Hne].
  - rewrite lookup_alter_eq, Hx. by eexists.
  - rewrite lookup_alter_ne by done. by eexists.
Qed.

#[export] Hint Resolve keeps_dir_add_event keeps_dir_alter : frame.

Lemma publish_package_keeps_dir E pk res d manifest d' :
  respects (keeps_dir d') (publish_package E pk res d manifest).
Proof. unfold publish_package, create_bag, istorage_getFile. respects_auto. Qed.

Lemma publish_mint_same_dirs E res pt u d p :
  respects same_dirs (publish_mint E res pt u d p).
Proof. unfold publish_mint. respects_auto. Qed.

(** The scratch directory after a failed minting step: every raise of
    the minting step leaves it behind. *)
Lemma scratch_dir_survives_mint_failure E user pk publish_type w res p w2 e w3 :
  resources w !! pk = Some res ->
  can_be_published E res = true ->
  publish_prepare E pk res w = (inr p, w2) ->
  publish_mint E res publish_type (resource_url E pk) (dos_url E pk) p w2 = (inl e, w3) ->
  publish_resource E user pk publish_type w = (inl e, w3) /\
  is_Some (local_dirs w3 !! scratch_dir E).
Proof.
  intros Hres Hpub Hprep Hmint. split.
  - by rewrite publish_resource_stages, Hres, Hpub, Hprep, Hmint.
  - pose proof (publish_mint_same_dirs E res publish_type (resource_url E pk) (dos_url E pk)
                  p w2) as Hd.
    rewrite Hmint in Hd. unfold same_dirs in Hd. simpl in Hd. rewrite Hd.
    rewrite publish_prepare_run in Hprep.
    destruct (get_resource_files_manifest E pk res w) as [[e' | manifest] w1]; [done |].
    pose proof (publish_package_keeps_dir E pk res (scratch_dir E) manifest (scratch_dir E)
                  (scratch_ready E w1)) as Hk.
    rewrite Hprep in Hk. apply Hk. rewrite scratch_ready_dir. by eexists.
Qed.

(** The scratch directory after a run that returns: it is gone. *)
Lemma scratch_dir_removed_on_success E user pk publish_type w w' :
  publish_resource E user pk publish_type w = (inr tt, w') ->
  local_dirs w' !! scratch_dir E = None.
Proof.
  rewrite publish_resource_stages.
  destruct (resources w !! pk) as [res |]; [| done].
  destruct (can_be_published E res); [| done].
  destruct (publish_prepare E pk res w) as [[e | p] w2]; [done |].
  destruct (publish_mint E res publish_type (resource_url E pk) (dos_url E pk) p w2)
    as [[e | minted] w3]; [done |].
  unfold publish_finish. rewrite bind_run. unfold shutil_rmtree at 1.
  rewrite bind_run. unfold call at 1, modify at 1. cbv beta iota zeta.
  unfold modify at 1. cbv beta iota zeta.
  set (w4 := set_local_dirs _ _).
  assert (Hrest : respects same_dirs
            (publish_fairshake E minted.1 (resource_url E pk) ≫=
               fun resource => publish_commit E user pk resource minted.2)).
  { unfold publish_fairshake, publish_commit, resource_save, set_public, raccess_save,
      create_publisher, create_date, create_identifier, resource_modified, resource_save,
      update_row.
    respects_auto. }
  specialize (Hrest w4). intros Hrun. rewrite Hrun in Hrest.
  unfold same_dirs in Hrest. simpl in Hrest. rewrite Hrest.
  apply lookup_delete_eq.
Qed.

(** C7, at the failing input: the naming authority answers 500 for the
    two-file resource r2.  publish_resource raises the publication
    exception, and the scratch directory created for packaging is still
    there, with the manifest and the downloaded archive in it; it was
    never removed. *)
Lemma scratch_dir_left_after_doi_failure :
  let E := Demo.env 500 true in
  let out := publish_resource E "alice" "r2" "doi" Demo.world in
  out.1 = inl (PublishException msg_no_doi) /\
  (EvMakedirs (scratch_dir E) ∈ trace out.2) /\
  (EvRmtree (scratch_dir E) ∉ trace out.2) /\
  local_dirs out.2 !! scratch_dir E = Some ["resource-file-manifest.json"; "bag.zip"].
Proof.
  vm_compute. split; [reflexivity |]. split; [| split; [| reflexivity]].
  - apply list_elem_of_In. simpl. tauto.
  - intros H%list_elem_of_In. simpl in H.
    repeat (destruct H as [H | H]; [discriminate H |]). exact H.
Qed.

(** * Lineage *)

(** ** The last path segment of a relation value *)

Lemma rfind_from_none_shift c s i j :
  0 <= i -> 0 <= j -> Py.rfind_from c s i = -1 -> Py.rfind_from c s j = -1.
Proof.
  revert i j. induction s as [| a s IH]; intros i j Hi Hj; simpl; [done |].
  destruct (Py.rfind_from c s (i + 1) =? -1) eqn:Hr.
  - apply Z.eqb_eq in Hr. rewrite (IH (i + 1) (j + 1)) by (done || lia). simpl.
    destruct (Ascii.eqb a c); [lia | done].
  - apply Z.eqb_neq in Hr. done.
Qed.

Lemma rfind_from_last_segment base pred i :
  no_slash pred -> 0 <= i ->
  Py.rfind_from "/" (base ++ "/" ++ pred) i = i + Z.of_nat (String.length base).
Proof.
  intros Hpred. revert i. induction base as [| a base IH]; intros i Hi; simpl.
  - change ("" ++ pred) with pred.
    rewrite (rfind_from_none_shift "/" pred 0 (i + 1)) by (done || lia). simpl. lia.
  - rewrite IH by lia.
    destruct (i + 1 + Z.of_nat (String.length base) =? -1) eqn:Hr.
    + apply Z.eqb_eq in Hr. lia.
    + lia.
Qed.

Lemma drop_chars_last_segment base pred :
  Py.drop_chars (S (String.length base)) (base ++ "/" ++ pred) = pred.
Proof. induction base as [| a base IH]; simpl; [done | exact IH]. Qed.

(** [link[link.rindex('/') + 1:]] of a url is its last segment. *)
Lemma last_segment base pred :
  no_slash pred ->
  Py.rfind (base ++ "/" ++ pred) "/" = Z.of_nat (String.length base) /\
  Py.slice_from (base ++ "/" ++ pred) (Z.of_nat (String.length base) + 1) = pred.
Proof.
  intros Hpred. split.
  - unfold Py.rfind. by rewrite rfind_from_last_segment.
  - unfold Py.slice_from.
    destruct (Z.of_nat (String.length base) + 1 <? 0) eqn:Hneg;
      [apply Z.ltb_lt in Hneg; lia |].
    replace (Z.to_nat (Z.of_nat (String.length base) + 1)) with (S (String.length base)) by lia.
    apply drop_chars_last_segment.
Qed.

(** ** Relations under deletion by key *)

Lemma relations_of_type_filter ty (P : Relation -> Prop) `{!forall r, Decision (P r)} l :
  relations_of_type ty (filter P l) = filter P (relations_of_type ty l).
Proof.
  unfold relations_of_type. rewrite !list_filter_filter.
  apply list_filter_iff. intros r. tauto.
Qed.

Lemma relations_of_type_delete_only ty l r :
  relations_of_type ty l = [r] ->
  relations_of_type ty (filter (fun x => rel_id x <> rel_id r) l) = [].
Proof.
  intros Hl. rewrite relations_of_type_filter, Hl.
  rewrite filter_cons, decide_False by (intros H; by apply H). done.
Qed.

(** ** Deleting in a chain *)

Lemma get_resource_by_shortkey_run pk w r :
  resources w !! pk = Some r -> get_resource_by_shortkey pk w = (inr r, w).
Proof.
  intros Hr. unfold get_resource_by_shortkey. rewrite bind_run.
  unfold get_world. by rewrite Hr.
Qed.

Lemma query_relations_run pk ty w r :
  resources w !! pk = Some r ->
  query_relations pk ty w = (inr (relations_of_type ty (relations (metadata r))), w).
Proof.
  intros Hr. unfold query_relations. rewrite bind_run.
  unfold get_world. by rewrite Hr.
Qed.



(** ** Creating a new version *)

(** Copying the relations of the original: one [create_relation] per
    relation, with consecutive keys. *)
Lemma copy_relations_run dst rels w :
  exists ys,
    for_each (fun r => create_relation dst (rel_type r) (rel_value r)) rels w =
    (inr ys,
     set_next_id (next_id w + List.length rels)
       (set_resources
          (alter (set_metadata (set_relations (fun l => l ++ copied (next_id w) rels)%list)) dst)
          w)).
Proof.
  revert w. induction rels as [| r rs IH]; intros w.
  - exists []. simpl. unfold mret, M_ret. f_equal.
    destruct w as [db dirs n tr]. unfold set_next_id, set_resources. simpl.
    f_equal; [| lia].
    apply map_eq. intros k. destruct (decide (dst = k)) as [<- | Hne].
    + rewrite lookup_alter_eq. destruct (db !! dst) as [[c a [rl il pl dl] fs cs] |]; [| done].
      simpl. unfold set_metadata, set_relations. simpl. by rewrite app_nil_r.
    + by rewrite lookup_alter_ne.
  - simpl. rewrite bind_run.
    unfold create_relation at 1. rewrite bind_run. unfold get_world at 1.
    cbv beta iota. rewrite bind_run. unfold modify at 1. cbv beta iota.
    unfold update_row at 1, modify at 1. rewrite bind_run.
    destruct (IH (set_resources
                    (alter (set_metadata (set_relations
                       (fun l => l ++ [mkRelation (next_id w) (rel_type r) (rel_value r)])%list)) dst)
                    (set_next_id (S (next_id w)) w))) as (ys & ->).
    exists (tt :: ys). unfold mret, M_ret. f_equal.
    destruct w as [db dirs n tr]. unfold set_next_id, set_resources. simpl.
    f_equal; [| lia].
    apply map_eq. intros k. destruct (decide (dst = k)) as [<- | Hne].
    + rewrite !lookup_alter_eq. destruct (db !! dst) as [[c a [rl il pl dl] fs cs] |]; [| done].
      simpl. unfold set_metadata, set_relations. simpl. by rewrite <- app_assoc.
    + by rewrite !lookup_alter_ne.
Qed.

Lemma copied_type ty n rels :
  List.length (relations_of_type ty (copied n rels)) =
  List.length (relations_of_type ty rels).
Proof.
  unfold relations_of_type. revert n.
  induction rels as [| r rs IH]; intros n; simpl; [done |].
  rewrite !filter_cons. simpl.
  destruct (decide (rel_type r = ty)); simpl; by rewrite IH.
Qed.

Lemma copied_ids n rels x :
  x ∈ copied n rels -> (n <= rel_id x < n + List.length rels)%nat.
Proof.
  revert n. induction rels as [| r rs IH]; intros n; simpl.
  - by intros ?%elem_of_nil.
  - intros [-> | Hin]%elem_of_cons; [simpl; lia |].
    apply IH in Hin. lia.
Qed.

(** The primitives as state transformers, for symbolic runs. *)
Lemma mret_run {A} (a : A) w : mret (M := M) a w = (inr a, w).
Proof. reflexivity. Qed.
Lemma call_run e w : call e w = (inr tt, add_event e w).
Proof. reflexivity. Qed.
Lemma get_world_run w : get_world w = (inr w, w).
Proof. reflexivity. Qed.
Lemma update_row_run k f w : update_row k f w = (inr tt, set_resources (alter f k) w).
Proof. reflexivity. Qed.
Lemma create_relation_run k ty v w :
  create_relation k ty v w =
  (inr tt, set_resources
             (alter (set_metadata (set_relations
                (fun l => l ++ [mkRelation (next_id w) ty v])%list)) k)
             (set_next_id (S (next_id w)) w)).
Proof. reflexivity. Qed.
Lemma query_relations_at k ty w :
  query_relations k ty w =
  (inr (match resources w !! k with
        | Some r => relations_of_type ty (relations (metadata r))
        | None => []
        end), w).
Proof. reflexivity. Qed.
Lemma query_identifiers_at k n w :
  query_identifiers k n w =
  (inr (match resources w !! k with
        | Some r => identifiers_named n (identifiers (metadata r))
        | None => []
        end), w).
Proof. reflexivity. Qed.

Create Rewrite HintDb run.
#[export] Hint Rewrite @bind_run @mret_run call_run get_world_run update_row_run
  create_relation_run query_relations_at query_identifiers_at : run.

(** The rows and the key counter through the state updates of a run. *)
Lemma resources_set_resources f w : resources (set_resources f w) = f (resources w).
Proof. reflexivity. Qed.
Lemma resources_add_event e w : resources (add_event e w) = resources w.
Proof. reflexivity. Qed.
Lemma resources_set_next_id n w : resources (set_next_id n w) = resources w.
Proof. reflexivity. Qed.
Lemma resources_set_local_dirs f w : resources (set_local_dirs f w) = resources w.
Proof. reflexivity. Qed.
Lemma next_id_set_resources f w : next_id (set_resources f w) = next_id w.
Proof. reflexivity. Qed.
Lemma next_id_add_event e w : next_id (add_event e w) = next_id w.
Proof. reflexivity. Qed.
Lemma next_id_set_next_id n w : next_id (set_next_id n w) = n.
Proof. reflexivity. Qed.

Create Rewrite HintDb rows.
#[export] Hint Rewrite resources_set_resources resources_add_event resources_set_next_id
  resources_set_local_dirs next_id_set_resources next_id_add_event next_id_set_next_id : rows.

Ltac read_rows :=
  autorewrite with rows;
  repeat (rewrite lookup_alter_eq || rewrite lookup_alter_ne by done).

Ltac read_fields :=
  cbn [metadata set_metadata set_identifiers set_relations set_publishers set_dates
       set_files set_cols set_raccess set_contained identifiers relations raccess
       cols files contained publishers dates fmap option_fmap option_map].

Ltac run_steps H1 H2 :=
  repeat (progress (autorewrite with run; read_rows; rewrite ?H1, ?H2; read_fields)).

Lemma relations_of_type_snoc ty l n v :
  relations_of_type ty (l ++ [mkRelation n ty v]) =
  (relations_of_type ty l ++ [mkRelation n ty v])%list.
Proof.
  unfold relations_of_type. rewrite filter_app. f_equal.
  by rewrite filter_cons, decide_True.
Qed.

Lemma identifiers_named_single n u :
  identifiers_named n [mkIdentifier n u] = [mkIdentifier n u].
Proof. unfold identifiers_named. by rewrite filter_cons, decide_True. Qed.

(** C4. Creating a new version of an original R1 (with its site
    identifier and at most one isVersionOf relation) in a placeholder R2
    returns R2; afterwards R1 holds an isReplacedBy relation whose value
    is the url of R2 and R1 is immutable; R2 holds exactly one
    isVersionOf relation, whose value is the url of R1's identifier: an
    isVersionOf relation that R2 inherited when the metadata was copied
    has been deleted, the one left is the one created for R1. *)
Theorem new_version_links_chain E ori new user w ori_res new_res i :
  ori <> new ->
  resources w !! ori = Some ori_res ->
  resources w !! new = Some new_res ->
  is_placeholder new_res ->
  at_most_one_predecessor ori_res ->
  site_identifier_of ori_res = Some i ->
  exists w',
    create_new_version_resource E ori ori_res new new_res user w = (inr new, w') /\
    (exists orow, resources w' !! ori = Some orow /\
       immutable (raccess orow) = true /\
       exists rel, rel ∈ relations_of_type "isReplacedBy" (relations (metadata orow)) /\
                   rel_value rel = resource_url E new) /\
    (exists nrow rel, resources w' !! new = Some nrow /\
       relations_of_type "isVersionOf" (relations (metadata nrow)) = [rel] /\
       rel_value rel = ident_url i /\
       rel ∉ copied (next_id w) (relations (metadata ori_res))).
Proof.
  intros Hne Hori Hnew [Hnrel Hnid] Hone Hsite.
  unfold create_new_version_resource, copy_resource_files_and_AVUs,
    copy_and_create_metadata.
  run_steps Hori Hnew.
  match goal with
  | |- context [for_each _ ?rels ?w1] =>
      destruct (copy_relations_run new rels w1) as (ys & ->)
  end.
  unfold create_identifier. run_steps Hori Hnew.
  rewrite Hnid. cbn [app]. rewrite identifiers_named_single.
  cbn [head or_raise ident_url]. run_steps Hori Hnew.
  rewrite Hnrel. cbn [app].
  assert (Hlen : (List.length (relations_of_type "isVersionOf"
                    (copied (next_id w) (relations (metadata ori_res)))) <= 1)%nat).
  { rewrite copied_type. exact Hone. }
  unfold site_identifier_of in Hsite.
  destruct (relations_of_type "isVersionOf"
              (copied (next_id w) (relations (metadata ori_res))))
    as [| r [| r2 rest]] eqn:Hinh; simpl in Hlen; [| | lia].
  all: unfold delete_relation; run_steps Hori Hnew; rewrite Hsite; cbn [or_raise];
    run_steps Hori Hnew.
  all: destruct (String.eqb _ "collectionresource");
    unfold resource_modified, resource_save, raccess_save; run_steps Hori Hnew.
  all: eexists; (split; [reflexivity |]).
  all: read_rows; rewrite ?Hori, ?Hnew; read_fields.
  all: split;
    [ eexists; split; [reflexivity |]; read_fields; split; [reflexivity |];
      eexists; split;
        [ rewrite relations_of_type_snoc; apply elem_of_app; right;
          apply list_elem_of_singleton; reflexivity
        | reflexivity ]
    | eexists _, _; split; [reflexivity |]; read_fields; rewrite Hnrel; cbn [app];
      rewrite relations_of_type_snoc ].
  all: rewrite ?(relations_of_type_delete_only _ _ r Hinh), ?Hinh.
  all: split; [reflexivity |]; split; [reflexivity |].
  all: intros Hin%copied_ids; simpl in Hin; lia.
Qed.

(** The chain v1 <- v2, versioned once more into the placeholder v3:
    v3 inherits the isVersionOf relation of v2 when the metadata is
    copied, and ends with the one to v2 only. *)
Lemma new_version_links_chain_witness :
  exists w',
    create_new_version_resource (Demo.env 200 true) "v2" Demo.v2 "v3" Demo.v3 "alice"
      Demo.version_world = (inr "v3", w') /\
    (exists orow, resources w' !! "v2" = Some orow /\
       immutable (raccess orow) = true /\
       exists rel, rel ∈ relations_of_type "isReplacedBy" (relations (metadata orow)) /\
                   rel_value rel = resource_url (Demo.env 200 true) "v3") /\
    (exists nrow rel, resources w' !! "v3" = Some nrow /\
       relations_of_type "isVersionOf" (relations (metadata nrow)) = [rel] /\
       rel_value rel = ident_url (Demo.site_identifier "v2") /\
       rel ∉ copied (next_id Demo.version_world) (relations (metadata Demo.v2))).
Proof.
  apply (new_version_links_chain (Demo.env 200 true) "v2" "v3" "alice" Demo.version_world
           Demo.v2 Demo.v3 (Demo.site_identifier "v2")).
  - discriminate.
  - vm_compute. reflexivity.
  - vm_compute. reflexivity.
  - split; reflexivity.
  - unfold at_most_one_predecessor. vm_compute. lia.
  - vm_compute. reflexivity.
Defined.

(** * More of the publication pipeline *)

(** The commit either returns or raises for the unbound name; nothing
    else can go wrong in it. *)
Lemma publish_commit_outcome E user pk r oi w :
  (publish_commit E user pk r oi w).1 = inr tt \/
  (publish_commit E user pk r oi w).1 = inl (UnboundLocalError "ident_md_args").
Proof. destruct oi; [by left | by right]. Qed.

(** The last span run from a state: removal of the scratch directory,
    registration, commit. *)
Lemma publish_finish_run E user pk minted w :
  publish_finish E user pk minted w =
  match publish_fairshake E minted.1 (resource_url E pk)
          (set_local_dirs (delete (scratch_dir E)) (add_event (EvRmtree (scratch_dir E)) w)) with
  | (inl e, w') => (inl e, w')
  | (inr r, w') => publish_commit E user pk r minted.2 w'
  end.
Proof. reflexivity. Qed.

(** X1. A run of publish_resource that raises anything but the
    unbound-name error of the commit leaves every persisted row as it
    was: eligibility, manifest, packaging, minting and registration
    failures all happen before the first write to the store. *)
Theorem publish_failure_keeps_store E user pk publish_type w e :
  (publish_resource E user pk publish_type w).1 = inl e ->
  e <> UnboundLocalError "ident_md_args" ->
  resources (publish_resource E user pk publish_type w).2 = resources w.
Proof.
  rewrite publish_resource_stages.
  destruct (resources w !! pk) as [res |]; [| done].
  destruct (can_be_published E res); [| done].
  pose proof (publish_prepare_same_db E pk res w) as Hdb.
  destruct (publish_prepare E pk res w) as [[e1 | p] w2]; [by intros _ _ |].
  pose proof (publish_mint_same_db E res publish_type (resource_url E pk) (dos_url E pk) p w2)
    as Hdb'.
  destruct (publish_mint E res publish_type (resource_url E pk) (dos_url E pk) p w2)
    as [[e2 | minted] w3]; unfold same_db in *; cbn [fst snd] in *.
  1: intros _ _; by rewrite Hdb', Hdb.
  rewrite publish_finish_run.
  set (w4 := set_local_dirs _ _).
  pose proof (publish_fairshake_same_db E minted.1 (resource_url E pk) w4) as Hdb''.
  destruct (publish_fairshake E minted.1 (resource_url E pk) w4) as [[e3 | r] w5];
    unfold same_db in *; cbn [fst snd] in *.
  - intros _ _. subst w4. simpl in Hdb''. by rewrite Hdb'', Hdb', Hdb.
  - intros He Hne.
    destruct (publish_commit_outcome E user pk r minted.2 w5) as [Hok | Hub];
      rewrite He in *; [done | by injection Hub as ->].
Qed.

(** A naming authority that answers 500: the run raises the publication
    exception and the store is as before. *)
Lemma publish_failure_keeps_store_witness :
  resources (publish_resource (Demo.env 500 true) "alice" "r2" "doi" Demo.world).2 =
  resources Demo.world.
Proof.
  apply (publish_failure_keeps_store (Demo.env 500 true) "alice" "r2" "doi" Demo.world
           (PublishException msg_no_doi)).
  - vm_compute. reflexivity.
  - discriminate.
Defined.

#[export] Instance rows_outside_preorder pk : PreOrder (rows_outside pk).
Proof.
  split; [by intros w k Hk |].
  intros w1 w2 w3 H12 H23 k Hk. by rewrite H23, H12.
Qed.

Lemma rows_outside_add_event pk e w : rows_outside pk w (add_event e w).
Proof. by intros k Hk. Qed.
Lemma rows_outside_set_local_dirs pk f w : rows_outside pk w (set_local_dirs f w).
Proof. by intros k Hk. Qed.
Lemma rows_outside_set_next_id pk n w : rows_outside pk w (set_next_id n w).
Proof. by intros k Hk. Qed.
Lemma rows_outside_alter pk f w : rows_outside pk w (set_resources (alter f pk) w).
Proof. intros k Hk. simpl. by rewrite lookup_alter_ne. Qed.
Lemma rows_outside_delete pk w : rows_outside pk w (set_resources (delete pk) w).
Proof. intros k Hk. simpl. by rewrite lookup_delete_ne. Qed.

#[export] Hint Resolve rows_outside_add_event rows_outside_set_local_dirs
  rows_outside_set_next_id rows_outside_alter rows_outside_delete : frame.

(** X2. Whatever its outcome, publish_resource reads and writes the row
    of the resource it was given only: every other resource of the store
    is as it was. *)
Theorem publish_touches_only_its_row E user pk publish_type w k :
  k <> pk ->
  resources (publish_resource E user pk publish_type w).2 !! k = resources w !! k.
Proof.
  intros Hk. revert k Hk. change (rows_outside pk w (publish_resource E user pk publish_type w).2).
  revert w. change (respects (rows_outside pk) (publish_resource E user pk publish_type)).
  unfold publish_resource, get_resource_by_shortkey, get_resource_files_manifest,
    manifest_entry, manifest_finally, os_makedirs, write_file, publish_package, create_bag,
    istorage_getFile, publish_mint, shutil_rmtree, publish_fairshake, publish_commit,
    resource_save, set_public, raccess_save, create_publisher, create_date,
    create_identifier, resource_modified, resource_save, update_row.
  respects_auto.
Qed.

(** Publishing r1 leaves r2 alone. *)
Lemma publish_touches_only_its_row_witness :
  resources (publish_resource (Demo.env 200 true) "alice" "r1" "minid" Demo.world).2 !! "r2" =
  resources Demo.world !! "r2".
Proof.
  apply (publish_touches_only_its_row (Demo.env 200 true) "alice" "r1" "minid" Demo.world "r2").
  discriminate.
Defined.

(** X3. The two checks at the head of publish_resource come before any
    effect: for a short id that is not in the store it raises the
    not-found error, and for a resource that cannot be published the
    validation error, and in both cases nothing was called, no scratch
    directory was made and the store is untouched. *)
Theorem publish_checks_before_effects E user pk publish_type w :
  (resources w !! pk = None ->
   publish_resource E user pk publish_type w = (inl (Http404 pk), w)) /\
  (forall res, resources w !! pk = Some res -> can_be_published E res = false ->
   publish_resource E user pk publish_type w =
   (inl (ValidationError msg_cannot_be_published), w)).
Proof.
  split.
  - intros Hnone. by rewrite publish_resource_stages, Hnone.
  - intros res Hres Hpub. by rewrite publish_resource_stages, Hres, Hpub.
Qed.

(** A short id that is not in the store, and a resource that is not
    publishable. *)
Lemma publish_checks_before_effects_witness :
  publish_resource (Demo.env 200 true) "alice" "nope" "doi" Demo.world =
    (inl (Http404 "nope"), Demo.world) /\
  publish_resource (Demo.env_with 200 200 201 true false None Demo.checksum)
    "alice" "r1" "doi" Demo.world =
    (inl (ValidationError msg_cannot_be_published), Demo.world).
Proof.
  split.
  - apply (proj1 (publish_checks_before_effects (Demo.env 200 true) "alice" "nope" "doi"
                    Demo.world)).
    vm_compute. reflexivity.
  - apply (proj2 (publish_checks_before_effects
                    (Demo.env_with 200 200 201 true false None Demo.checksum)
                    "alice" "r1" "doi" Demo.world) (Demo.res "One" "r1" [Demo.file_a])).
    + vm_compute. reflexivity.
    + reflexivity.
Defined.

(** ** Registration failures after a successful mint *)

Lemma publish_fairshake_same_dirs E res u : respects same_dirs (publish_fairshake E res u).
Proof. unfold publish_fairshake. respects_auto. Qed.

(** When the registration step raises, the run raises the same
    exception; the identifier was requested, the scratch directory
    removed, and the store not written. *)
Lemma publish_registration_failure E user pk publish_type w res p w2 minted w3 e w5 :
  resources w !! pk = Some res ->
  can_be_published E res = true ->
  publish_prepare E pk res w = (inr p, w2) ->
  publish_mint E res publish_type (resource_url E pk) (dos_url E pk) p w2 = (inr minted, w3) ->
  publish_fairshake E minted.1 (resource_url E pk)
    (set_local_dirs (delete (scratch_dir E)) (add_event (EvRmtree (scratch_dir E)) w3))
    = (inl e, w5) ->
  publish_resource E user pk publish_type w = (inl e, w5) /\
  resources w5 = resources w /\
  local_dirs w5 !! scratch_dir E = None /\
  exists pre,
    Forall (fun ev => is_registration_event ev = false) pre /\
    trace w3 = (trace w ++ pre ++ mint_events E res publish_type pk p)%list.
Proof.
  intros Hres Hpub Hprep Hmint Hfs.
  split; [by rewrite publish_resource_stages, Hres, Hpub, Hprep, Hmint,
            publish_finish_run, Hfs |].
  set (w4 := set_local_dirs _ _) in *.
  pose proof (publish_prepare_same_db E pk res w) as Hdb.
  pose proof (publish_mint_same_db E res publish_type (resource_url E pk) (dos_url E pk) p w2)
    as Hdb'.
  pose proof (publish_fairshake_same_db E minted.1 (resource_url E pk) w4) as Hdb''.
  pose proof (publish_fairshake_same_dirs E minted.1 (resource_url E pk) w4) as Hdirs.
  pose proof (publish_mint_trace E res publish_type pk p w2) as Htr.
  destruct (publish_prepare_emitted is_registration_event E pk res
              ltac:(by intros []) ltac:(done) ltac:(done) ltac:(done) ltac:(done) w)
    as (pre & Hpre & Hno).
  rewrite Hprep in Hdb, Hpre. rewrite Hmint in Hdb', Htr. rewrite Hfs in Hdb'', Hdirs.
  unfold same_db, same_dirs in *. cbn [fst snd] in *.
  split; [subst w4; simpl in Hdb''; by rewrite Hdb'', Hdb', Hdb |].
  split; [rewrite Hdirs; subst w4; simpl; apply lookup_delete_eq |].
  exists pre. split; [done |]. by rewrite Htr, Hpre, <- app_assoc.
Qed.

(** X4. When FairShake refuses the login (a status other than 200)
    after an identifier was minted, publish_resource raises the
    publication exception carrying the text of the answer.  By then the
    request to the identifier registry has been made and is not undone,
    the scratch directory has been removed, no registration was
    attempted, and the store is as it was: the resource stays a draft
    although an identifier exists for it. *)
Theorem fairshake_login_refused_after_mint
    E user pk publish_type w res p w2 minted w3 :
  resources w !! pk = Some res ->
  can_be_published E res = true ->
  publish_prepare E pk res w = (inr p, w2) ->
  publish_mint E res publish_type (resource_url E pk) (dos_url E pk) p w2 = (inr minted, w3) ->
  status_code (fairshake_login E) <> HTTP_200_OK ->
  let out := publish_resource E user pk publish_type w in
  out.1 = inl (PublishException (msg_fairshake ++ text (fairshake_login E))) /\
  resources out.2 = resources w /\
  local_dirs out.2 !! scratch_dir E = None /\
  (forall ev, ev ∈ mint_events E res publish_type pk p -> ev ∈ events_since w out.2) /\
  Forall (fun ev => is_fairshake_register ev = false) (events_since w out.2).
Proof.
  intros Hres Hpub Hprep Hmint Hst out.
  set (w4 := set_local_dirs (delete (scratch_dir E)) (add_event (EvRmtree (scratch_dir E)) w3)).
  assert (Hfs : publish_fairshake E minted.1 (resource_url E pk) w4 =
                (inl (PublishException (msg_fairshake ++ text (fairshake_login E))),
                 add_event (EvFairshakeLogin (FAIRSHAKE_URL E ++ "/auth/login/")) w4)).
  { unfold publish_fairshake. rewrite bind_run. unfold call, modify. cbv beta iota zeta.
    rewrite bind_run. apply Z.eqb_neq in Hst. unfold fairshake_login in *. by rewrite Hst. }
  destruct (publish_registration_failure E user pk publish_type w res p w2 minted w3 _ _
              Hres Hpub Hprep Hmint Hfs) as (Hrun & Hdb & Hdirs & pre & Hno & Htr).
  subst out. rewrite Hrun. cbn [fst snd]. split; [done |]. split; [done |]. split; [done |].
  assert (Hall : events_since w
                   (add_event (EvFairshakeLogin (FAIRSHAKE_URL E ++ "/auth/login/")) w4) =
                 (pre ++ mint_events E res publish_type pk p ++
                  [EvRmtree (scratch_dir E);
                   EvFairshakeLogin (FAIRSHAKE_URL E ++ "/auth/login/")])%list).
  { apply events_since_app. subst w4. simpl. rewrite Htr. by rewrite <- !app_assoc. }
  rewrite Hall. split.
  - intros ev Hin. apply elem_of_app. right. apply elem_of_app. by left.
  - apply Forall_app. split.
    + eapply Forall_impl; [exact Hno |]. by intros [].
    + apply Forall_app. split; [| by repeat constructor].
      unfold mint_events. destruct (String.eqb _ "minid"); [by repeat constructor |].
      destruct (String.eqb _ "doi"); by repeat constructor.
Qed.

(** The one-file resource r1 with a FairShake that answers 403 to the
    login. *)
Lemma fairshake_login_refused_after_mint_witness :
  let E := Demo.env_with 200 403 201 true true None Demo.checksum in
  let p := mkPackage "hex:q83v" 12 "text/plain"
             "https://www.commonsshare.org/django_irods/download/r1/data/contents/a.txt" in
  let out := publish_resource E "alice" "r1" "doi" Demo.world in
  out.1 = inl (PublishException (msg_fairshake ++ "login refused")) /\
  resources out.2 = resources Demo.world /\
  local_dirs out.2 !! scratch_dir E = None /\
  (forall ev,
     ev ∈ mint_events E (Demo.res "One" "r1" [Demo.file_a]) "doi" "r1" p ->
     ev ∈ events_since Demo.world out.2) /\
  Forall (fun ev => is_fairshake_register ev = false) (events_since Demo.world out.2).
Proof.
  intros E p.
  eapply (fairshake_login_refused_after_mint E "alice" "r1" "doi" Demo.world
            (Demo.res "One" "r1" [Demo.file_a]) p).
  - vm_compute. reflexivity.
  - reflexivity.
  - vm_compute. reflexivity.
  - vm_compute. reflexivity.
  - discriminate.
Defined.

(** ** What a successful run records *)

(** The minting step, when it returns with an identifier element. *)
Lemma publish_mint_cases E res publish_type pk p w r oi w' :
  publish_mint E res publish_type (resource_url E pk) (dos_url E pk) p w = (inr (r, oi), w') ->
  (oi = None /\ r = res) \/
  exists id,
    registry_gives E res publish_type pk p id /\
    oi = Some (identifier_element publish_type id) /\
    r = set_cols (set_doi_minid (identifier_columns publish_type id).1
                    (identifier_columns publish_type id).2 (cols res)) res.
Proof.
  unfold publish_mint, registry_gives, identifier_element, identifier_columns, doi_answer,
    doi_request, minid_request.
  destruct (String.eqb _ "minid") eqn:Hm.
  - apply String.eqb_eq in Hm.
    rewrite bind_run. unfold call, modify. cbv beta iota zeta. rewrite bind_run.
    destruct (mca_register_entity E _) as [id |] eqn:Hid; [| done].
    unfold or_raise, mret, M_ret. intros [= <- <- <-]. right. exists id.
    split; [left; by split |]. by split.
  - apply String.eqb_neq in Hm.
    destruct (String.eqb _ "doi") eqn:Hd.
    + apply String.eqb_eq in Hd.
      rewrite bind_run. unfold call, modify. cbv beta iota zeta.
      destruct (status_code _ =? HTTP_200_OK) eqn:Hst; [| done].
      apply Z.eqb_eq in Hst. change (negb true) with false. cbv iota.
      rewrite bind_run.
      destruct (json _) as [body |] eqn:Hbody; [| done].
      unfold or_raise at 1, mret at 1, M_ret at 1. rewrite bind_run.
      destruct (body !! "@id") as [id |] eqn:Hid; [| done].
      unfold or_raise, mret, M_ret. intros [= <- <- <-]. right. exists id.
      split; [| by split]. right. repeat split; try done. by exists body.
    + unfold mret, M_ret. intros [= <- <- <-]. by left.
Qed.

(** The registration step, when it returns: the object with the id of
    the answer as its assessment id. *)
Lemma publish_fairshake_result E res pk w r w' :
  publish_fairshake E res (resource_url E pk) w = (inr r, w') ->
  exists lb key cb aid,
    json (fairshake_login E) = Some lb /\ lb !! "key" = Some key /\
    json (fairshake_created E key res pk) = Some cb /\ cb !! "id" = Some aid /\
    r = set_cols (set_assessment_id (Some aid) (cols res)) res.
Proof.
  unfold publish_fairshake, fairshake_login, fairshake_created.
  rewrite bind_run. unfold call, modify. cbv beta iota zeta.
  rewrite bind_run.
  destruct (negb _); [done |].
  rewrite bind_run. destruct (json _) as [lb |] eqn:Hlb; [| done].
  unfold or_raise at 1, mret at 1, M_ret at 1.
  destruct (lb !! "key") as [key |] eqn:Hkey; [| done].
  unfold or_raise at 1, mret at 1, M_ret at 1.
  rewrite bind_run. cbv beta iota zeta.
  destruct (negb _); [done |].
  rewrite bind_run.
  destruct (json (requests_post_digital_object _ _ _ _)) as [cb |] eqn:Hcb; [| done].
  unfold or_raise at 1, mret at 1, M_ret at 1. rewrite bind_run.
  destruct (cb !! "id") as [aid |] eqn:Haid; [| done].
  unfold or_raise, mret, M_ret. intros [= <- <-].
  by exists lb, key, cb, aid.
Qed.

(** The commit on a row that exists: the elements it appends and the
    columns it writes. *)
Lemma publish_commit_row E user pk r ident w row w' :
  resources w !! pk = Some row ->
  publish_commit E user pk r (Some ident) w = (inr tt, w') ->
  exists row', resources w' !! pk = Some row' /\
    identifiers (metadata row') = (identifiers (metadata row) ++ [ident])%list /\
    publishers (metadata row') = (publishers (metadata row) ++ [commonsshare_publisher])%list /\
    (exists d, dates (metadata row') = (dates (metadata row) ++ [mkDate "published" d])%list) /\
    doi (cols row') = doi (cols r) /\ minid (cols row') = minid (cols r) /\
    assessment_id (cols row') = assessment_id (cols r).
Proof.
  intros Hrow. unfold publish_commit.
  unfold resource_save, set_public, raccess_save, create_publisher, create_date,
    create_identifier, resource_modified, resource_save, update_row, call, modify.
  unfold mbind, M_bind, mret, M_ret, or_raise. simpl.
  intros [= <-]. simpl.
  rewrite !lookup_alter_eq, Hrow. simpl. eexists. split; [reflexivity |].
  simpl. repeat split; try done. by eexists.
Qed.

(** A run that returns went through every stage, and the store was not
    written before the commit. *)
Lemma publish_success_stages E user pk publish_type w res w' :
  resources w !! pk = Some res ->
  publish_resource E user pk publish_type w = (inr tt, w') ->
  exists p w2 minted w3 r w5,
    publish_prepare E pk res w = (inr p, w2) /\
    publish_mint E res publish_type (resource_url E pk) (dos_url E pk) p w2
      = (inr minted, w3) /\
    publish_fairshake E minted.1 (resource_url E pk)
      (set_local_dirs (delete (scratch_dir E)) (add_event (EvRmtree (scratch_dir E)) w3))
      = (inr r, w5) /\
    publish_commit E user pk r minted.2 w5 = (inr tt, w') /\
    resources w5 = resources w.
Proof.
  intros Hres. rewrite publish_resource_stages, Hres.
  destruct (can_be_published E res); [| done].
  pose proof (publish_prepare_same_db E pk res w) as Hdb.
  destruct (publish_prepare E pk res w) as [[e1 | p] w2] eqn:Hprep; [done |].
  pose proof (publish_mint_same_db E res publish_type (resource_url E pk) (dos_url E pk) p w2)
    as Hdb'.
  destruct (publish_mint E res publish_type (resource_url E pk) (dos_url E pk) p w2)
    as [[e2 | minted] w3] eqn:Hmint; [done |].
  rewrite publish_finish_run.
  pose proof (publish_fairshake_same_db E minted.1 (resource_url E pk)
                (set_local_dirs (delete (scratch_dir E))
                   (add_event (EvRmtree (scratch_dir E)) w3))) as Hdb''.
  destruct (publish_fairshake E minted.1 (resource_url E pk) _) as [[e3 | r] w5] eqn:Hfs;
    [done |].
  unfold same_db in *; cbn [fst snd] in *.
  intros Hc. exists p, w2, minted, w3, r, w5.
  split; [done |]. split; [done |]. split; [done |]. split; [done |].
  simpl in Hdb''. by rewrite Hdb'', Hdb', Hdb.
Qed.

(** X5. After a run of publish_resource that returns, the identifier
    stored in the row is the one the registry of the requested scheme
    gave for the package of the run (the value register_entity returned
    for "minid", the "@id" member of the 200 answer of the naming
    authority for "doi"); the column of the other scheme is empty; and
    one Identifier element was appended to the metadata, named after the
    scheme, whose url is built from that same identifier. *)
Theorem publish_success_identifier E user pk publish_type w res p w2 w' :
  resources w !! pk = Some res ->
  publish_prepare E pk res w = (inr p, w2) ->
  publish_resource E user pk publish_type w = (inr tt, w') ->
  exists row id,
    resources w' !! pk = Some row /\
    registry_gives E res publish_type pk p id /\
    (doi (cols row), minid (cols row)) = identifier_columns publish_type id /\
    identifiers (metadata row) =
      (identifiers (metadata res) ++ [identifier_element publish_type id])%list.
Proof.
  intros Hres Hprep Hrun.
  destruct (publish_success_stages E user pk publish_type w res w' Hres Hrun)
    as (p' & w2' & [r0 oi] & w3 & r & w5 & Hprep' & Hmint & Hfs & Hc & Hdb).
  rewrite Hprep in Hprep'. injection Hprep' as <- <-. cbn [fst snd] in *.
  apply publish_fairshake_ok in Hfs as (Hdoi & Hminid & _).
  destruct (publish_mint_cases _ _ _ _ _ _ _ _ _ Hmint) as [[-> _] | (id & Hid & -> & ->)];
    [done |].
  assert (Hrow5 : resources w5 !! pk = Some res) by (by rewrite Hdb).
  destruct (publish_commit_row E user pk r _ w5 res w' Hrow5 Hc)
    as (row & Hrow & Hids & _ & _ & Hd & Hm & _).
  exists row, id. split; [done |]. split; [done |]. split; [| done].
  rewrite Hd, Hm, Hdoi, Hminid. simpl. by destruct (identifier_columns publish_type id).
Qed.

(** The one-file resource r1 published with a DOI: the row holds the
    identifier of the answer and a doi element for it. *)
Lemma publish_success_identifier_witness :
  let E := Demo.env 200 true in
  let res := Demo.res "One" "r1" [Demo.file_a] in
  let p := mkPackage "hex:q83v" 12 "text/plain"
             "https://www.commonsshare.org/django_irods/download/r1/data/contents/a.txt" in
  exists row id,
    resources (publish_resource E "alice" "r1" "DOI" Demo.world).2 !! "r1" = Some row /\
    registry_gives E res "DOI" "r1" p id /\
    (doi (cols row), minid (cols row)) = identifier_columns "DOI" id /\
    identifiers (metadata row) =
      (identifiers (metadata res) ++ [identifier_element "DOI" id])%list.
Proof.
  intros E res p.
  eapply (publish_success_identifier E "alice" "r1" "DOI" Demo.world res p).
  - vm_compute. reflexivity.
  - vm_compute. reflexivity.
  - vm_compute. reflexivity.
Defined.

(** X6. After a run of publish_resource that returns, the row has one
    more Publisher element, the CommonsShare publisher, one more date
    element, of type "published", and as assessment id the "id" member
    of the answer FairShake gave to the registration request, which was
    sent with the key of the login answer, the title of the resource and
    its url. *)
Theorem publish_success_elements E user pk publish_type w res w' :
  resources w !! pk = Some res ->
  publish_resource E user pk publish_type w = (inr tt, w') ->
  exists row,
    resources w' !! pk = Some row /\
    publishers (metadata row) = (publishers (metadata res) ++ [commonsshare_publisher])%list /\
    (exists d, dates (metadata row) = (dates (metadata res) ++ [mkDate "published" d])%list) /\
    exists lb key cb aid,
      json (fairshake_login E) = Some lb /\ lb !! "key" = Some key /\
      json (fairshake_created E key res pk) = Some cb /\ cb !! "id" = Some aid /\
      assessment_id (cols row) = Some aid.
Proof.
  intros Hres Hrun.
  destruct (publish_success_stages E user pk publish_type w res w' Hres Hrun)
    as (p & w2 & [r0 oi] & w3 & r & w5 & Hprep & Hmint & Hfs & Hc & Hdb).
  cbn [fst snd] in *.
  destruct (publish_fairshake_result _ _ _ _ _ _ Hfs) as (lb & key & cb & aid & Hlb & Hkey &
    Hcb & Haid & ->).
  assert (Htitle : title (cols r0) = title (cols res)).
  { by destruct (publish_mint_cases _ _ _ _ _ _ _ _ _ Hmint) as [[_ ->] | (id & _ & _ & ->)]. }
  destruct oi as [ident |]; [| done].
  assert (Hrow5 : resources w5 !! pk = Some res) by (by rewrite Hdb).
  destruct (publish_commit_row E user pk _ ident w5 res w' Hrow5 Hc)
    as (row & Hrow & _ & Hpubs & Hdates & _ & _ & Haid').
  exists row. split; [done |]. split; [done |]. split; [done |].
  exists lb, key, cb, aid. split; [done |]. split; [done |].
  unfold fairshake_created in *. rewrite <- Htitle. by repeat split.
Qed.

Lemma publish_success_elements_witness :
  let E := Demo.env 200 true in
  let res := Demo.res "One" "r1" [Demo.file_a] in
  exists row,
    resources (publish_resource E "alice" "r1" "minid" Demo.world).2 !! "r1" = Some row /\
    publishers (metadata row) = (publishers (metadata res) ++ [commonsshare_publisher])%list /\
    (exists d, dates (metadata row) = (dates (metadata res) ++ [mkDate "published" d])%list) /\
    exists lb key cb aid,
      json (fairshake_login E) = Some lb /\ lb !! "key" = Some key /\
      json (fairshake_created E key res "r1") = Some cb /\ cb !! "id" = Some aid /\
      assessment_id (cols row) = Some aid.
Proof.
  intros E res.
  apply (publish_success_elements E "alice" "r1" "minid" Demo.world res).
  - vm_compute. reflexivity.
  - vm_compute. reflexivity.
Defined.

(** ** Packaging a resource with several files *)

(** The packager on a collection that exists: the package is the one of
    the archive, whatever the manifest holds. *)
Lemma publish_package_bag E pk res manifest w :
  (1 < List.length (files res))%nat ->
  istorage_exists E (root_path (cols res)) = true ->
  exists w',
    publish_package E pk res (scratch_dir E) manifest w = (inr (bag_package E pk), w') /\
    trace w' = (trace w ++ package_events E pk res)%list /\
    local_dirs w' = alter (fun l => l ++ ["bag.zip"])%list (scratch_dir E) (local_dirs w).
Proof.
  intros Hlen Hex. unfold publish_package, package_events, bag_is_stale, bag_package,
    bag_srcfile, bag_tmpfile, create_bag, istorage_getFile.
  apply Nat.ltb_lt in Hlen. rewrite Hlen.
  unfold mbind, M_bind, call, modify, mret, M_ret. cbv beta iota zeta. rewrite Hex.
  destruct (istorage_getAVU E (root_path (cols res)) "bag_modified") as [b |].
  - destruct (String.eqb (Py.lower b) "true"); eexists; (split; [reflexivity |]);
      simpl; by rewrite <- ?app_assoc.
  - eexists; (split; [reflexivity |]); simpl; by rewrite <- ?app_assoc.
Qed.

(** A call that the spans before and after do not make was made in
    the middle. *)
Lemma elem_of_middle (f : Event -> bool) (pre mid post : list Event) ev :
  Forall (fun e => f e = false) pre -> Forall (fun e => f e = false) post ->
  f ev = true -> ev ∈ (pre ++ mid ++ post)%list -> ev ∈ mid.
Proof.
  rewrite !Forall_forall. intros Fpre Fpost Hf.
  rewrite !elem_of_app. intros [Hin | [Hin | Hin]]; [| done |].
  - by rewrite (Fpre _ Hin) in Hf.
  - by rewrite (Fpost _ Hin) in Hf.
Qed.

Lemma mint_events_are_mint E res publish_type pk p :
  Forall (fun e => is_mint_event e = true /\ is_create_bag e = false)
         (mint_events E res publish_type pk p).
Proof.
  unfold mint_events.
  destruct (String.eqb _ "minid"); [by repeat constructor |].
  destruct (String.eqb _ "doi"); by repeat constructor.
Qed.

Lemma package_events_no_mint E pk res :
  Forall (fun e => is_mint_event e = false) (package_events E pk res).
Proof. unfold package_events. destruct (bag_is_stale E res); by repeat constructor. Qed.

Lemma create_bag_in_package_events E pk res id :
  EvCreateBag id ∈ package_events E pk res -> id = pk /\ bag_is_stale E res = true.
Proof.
  unfold package_events. intros H.
  destruct (bag_is_stale E res); simpl in H;
    repeat (apply elem_of_cons in H as [H | H];
            [first [discriminate H | by injection H as ->] |]);
    by apply elem_of_nil in H.
Qed.

(** The calls of a run on a resource with several files whose collection
    exists and whose manifest was built: those of the manifest builder
    and the scratch directory, the packager, the minting step for the
    package of the archive, and whatever follows the minting step. *)
Lemma publish_multi_file_trace (f : Event -> bool) E user pk publish_type w res manifest w1 :
  (forall p, f (EvStorageChecksum p) = false) ->
  (forall p, f (EvStorageSize p) = false) ->
  (forall p, f (EvMakedirs p) = false) ->
  (forall p, f (EvWriteFile p) = false) ->
  (forall p, f (EvRmtree p) = false) ->
  (forall u, f (EvFairshakeLogin u) = false) ->
  (forall u r, f (EvFairshakeRegister u r) = false) ->
  (forall p n v, f (EvStorageSetAVU p n v) = false) ->
  resources w !! pk = Some res ->
  can_be_published E res = true ->
  (1 < List.length (files res))%nat ->
  istorage_exists E (root_path (cols res)) = true ->
  get_resource_files_manifest E pk res w = (inr manifest, w1) ->
  exists pre post,
    events_since w (publish_resource E user pk publish_type w).2 =
      (pre ++ package_events E pk res
           ++ mint_events E res publish_type pk (bag_package E pk) ++ post)%list /\
    Forall (fun e => f e = false) pre /\ Forall (fun e => f e = false) post.
Proof.
  intros F1 F2 F3 F4 F5 F6 F7 F8 Hres Hpub Hlen Hex Hman.
  rewrite publish_resource_stages, Hres, Hpub, publish_prepare_run, Hman.
  destruct (publish_package_bag E pk res manifest (scratch_ready E w1) Hlen Hex)
    as (w2 & -> & Htr2 & _).
  destruct (manifest_emitted f E pk res F1 F2 w) as (pre & Hpre & Fpre).
  rewrite Hman in Hpre. cbn [fst snd] in Hpre.
  pose proof (publish_mint_trace E res publish_type pk (bag_package E pk) w2) as Htr3.
  set (scratch := [EvMakedirs (scratch_dir E);
                   EvWriteFile (Py.os_path_join (scratch_dir E)
                                  "resource-file-manifest.json")]).
  assert (Fscratch : Forall (fun e => f e = false) (pre ++ scratch)).
  { apply Forall_app. split; [done |]. by repeat constructor. }
  destruct (publish_mint E res publish_type (resource_url E pk) (dos_url E pk)
              (bag_package E pk) w2) as [[e | minted] w3]; cbn [fst snd] in *.
  - exists (pre ++ scratch)%list, []. split; [| by split].
    apply events_since_app.
    rewrite Htr3, Htr2, scratch_ready_trace, Hpre, app_nil_r. by rewrite <- !app_assoc.
  - destruct (publish_finish_emitted f E user pk minted F5 F6 F7 F8 w3)
      as (post & Hpost & Fpost).
    exists (pre ++ scratch)%list, post. split; [| by split].
    apply events_since_app.
    rewrite Hpost, Htr3, Htr2, scratch_ready_trace, Hpre. by rewrite <- !app_assoc.
Qed.

(** X7. For a publishable resource with more than one file, whose
    collection exists in the backend and whose manifest was built, the
    requests of a run of publish_resource to an identifier registry are
    exactly those for the package of the archive: the checksum computed
    on the downloaded bag, the size of the bag in the backend, the zip
    format and the download url of the bag.  The checksums of the
    manifest entries play no part. *)
Theorem multi_file_mints_the_bag E user pk publish_type w res manifest w1 :
  resources w !! pk = Some res ->
  can_be_published E res = true ->
  (1 < List.length (files res))%nat ->
  istorage_exists E (root_path (cols res)) = true ->
  get_resource_files_manifest E pk res w = (inr manifest, w1) ->
  let out := publish_resource E user pk publish_type w in
  forall ev,
    (ev ∈ events_since w out.2 /\ is_mint_event ev = true) <->
    ev ∈ mint_events E res publish_type pk (bag_package E pk).
Proof.
  intros Hres Hpub Hlen Hex Hman out ev. subst out.
  destruct (publish_multi_file_trace is_mint_event E user pk publish_type w res manifest w1)
    as (pre & post & -> & Fpre & Fpost); try done.
  pose proof (mint_events_are_mint E res publish_type pk (bag_package E pk)) as Hmint.
  rewrite Forall_forall in Hmint. split.
  - intros [Hin Hm]. rewrite app_assoc in Hin.
    eapply (elem_of_middle is_mint_event); [| exact Fpost | exact Hm | exact Hin].
    apply Forall_app. split; [done | apply package_events_no_mint].
  - intros Hin. split; [| by apply Hmint].
    rewrite !elem_of_app. right. right. by left.
Qed.

(** The two-file resource r2: the naming authority is asked for the
    bag. *)
Lemma multi_file_mints_the_bag_witness :
  let E := Demo.env 200 true in
  let res := Demo.res "Two" "r2" [Demo.file_x; Demo.file_y] in
  let out := publish_resource E "alice" "r2" "doi" Demo.world in
  let ev := EvDoiPut (DOI_PUT_URL E) (doi_request E res "r2" (bag_package E "r2")) in
  (ev ∈ events_since Demo.world out.2 /\ is_mint_event ev = true) <->
  ev ∈ mint_events E res "doi" "r2" (bag_package E "r2").
Proof.
  intros E res out ev.
  eapply (multi_file_mints_the_bag E "alice" "r2" "doi" Demo.world res).
  - vm_compute. reflexivity.
  - reflexivity.
  - simpl. lia.
  - reflexivity.
  - vm_compute. reflexivity.
Defined.

(** X8. For a publishable resource with more than one file, whose
    collection exists in the backend and whose manifest was built, a run
    of publish_resource rebuilds the archive exactly when the
    bag_modified attribute of the collection is missing or reads "true"
    in any letter case; the archive it rebuilds is that of the resource,
    and it is downloaded and measured whether rebuilt or not. *)
Theorem bag_rebuilt_iff_stale E user pk publish_type w res manifest w1 :
  resources w !! pk = Some res ->
  can_be_published E res = true ->
  (1 < List.length (files res))%nat ->
  istorage_exists E (root_path (cols res)) = true ->
  get_resource_files_manifest E pk res w = (inr manifest, w1) ->
  let out := publish_resource E user pk publish_type w in
  (forall id, EvCreateBag id ∈ events_since w out.2 <->
              id = pk /\ bag_is_stale E res = true) /\
  EvStorageGetFile (bag_srcfile E pk) (bag_tmpfile E) ∈ events_since w out.2 /\
  EvStorageSize (bag_srcfile E pk) ∈ events_since w out.2.
Proof.
  intros Hres Hpub Hlen Hex Hman out. subst out.
  destruct (publish_multi_file_trace is_create_bag E user pk publish_type w res manifest w1)
    as (pre & post & -> & Fpre & Fpost); try done.
  pose proof (mint_events_are_mint E res publish_type pk (bag_package E pk)) as Hmint.
  assert (Fpost' : Forall (fun e => is_create_bag e = false)
                     (mint_events E res publish_type pk (bag_package E pk) ++ post)).
  { apply Forall_app. split; [| done]. eapply Forall_impl; [exact Hmint |]. by intros ? [_ ?]. }
  split; [| split].
  - intros id. split.
    + intros Hin.
      apply (elem_of_middle is_create_bag) in Hin; [| done | done | done].
      by apply create_bag_in_package_events.
    + intros [-> Hstale]. unfold package_events. rewrite Hstale.
      rewrite !elem_of_app, !elem_of_cons. right. left. right. left. by left.
  - unfold package_events. rewrite !elem_of_app, !elem_of_cons.
    right. left. right. right. by left.
  - unfold package_events. rewrite !elem_of_app, !elem_of_cons.
    right. left. right. right. right. right. by left.
Qed.

(** r2 with a collection that has no bag_modified attribute: the archive
    is rebuilt. *)
Lemma bag_rebuilt_iff_stale_witness :
  let E := Demo.env_with 200 200 201 true true None Demo.checksum in
  let res := Demo.res "Two" "r2" [Demo.file_x; Demo.file_y] in
  let out := publish_resource E "alice" "r2" "doi" Demo.world in
  (forall id, EvCreateBag id ∈ events_since Demo.world out.2 <->
              id = "r2" /\ bag_is_stale E res = true) /\
  EvStorageGetFile (bag_srcfile E "r2") (bag_tmpfile E) ∈ events_since Demo.world out.2 /\
  EvStorageSize (bag_srcfile E "r2") ∈ events_since Demo.world out.2.
Proof.
  intros E res.
  eapply (bag_rebuilt_iff_stale E "alice" "r2" "doi" Demo.world res).
  - vm_compute. reflexivity.
  - reflexivity.
  - simpl. lia.
  - reflexivity.
  - vm_compute. reflexivity.
Defined.

(** ** The scratch directory *)

Lemma publish_after_rmtree_same_dirs E user pk minted :
  respects same_dirs
    (publish_fairshake E minted.1 (resource_url E pk) ≫=
       fun resource => publish_commit E user pk resource minted.2).
Proof.
  unfold publish_fairshake, publish_commit, resource_save, set_public, raccess_save,
    create_publisher, create_date, create_identifier, resource_modified, resource_save,
    update_row.
  respects_auto.
Qed.

(** X9. Once the manifest of a publishable resource is built, the
    scratch directory of the run outlives publish_resource exactly when
    packaging or the minting step raises: the run then raises that
    exception and the directory is still there.  When the minting step
    returns, the directory is gone after the run, whether registration
    and the commit succeed or not. *)
Theorem scratch_dir_fate E user pk publish_type w res manifest w1 :
  resources w !! pk = Some res ->
  can_be_published E res = true ->
  get_resource_files_manifest E pk res w = (inr manifest, w1) ->
  let out := publish_resource E user pk publish_type w in
  match publish_package E pk res (scratch_dir E) manifest (scratch_ready E w1) with
  | (inl e, _) => out.1 = inl e /\ is_Some (local_dirs out.2 !! scratch_dir E)
  | (inr p, w2) =>
      match publish_mint E res publish_type (resource_url E pk) (dos_url E pk) p w2 with
      | (inl e, _) => out.1 = inl e /\ is_Some (local_dirs out.2 !! scratch_dir E)
      | (inr _, _) => local_dirs out.2 !! scratch_dir E = None
      end
  end.
Proof.
  intros Hres Hpub Hman out. subst out.
  rewrite publish_resource_stages, Hres, Hpub, publish_prepare_run, Hman.
  pose proof (publish_package_keeps_dir E pk res (scratch_dir E) manifest (scratch_dir E)
                (scratch_ready E w1)) as Hk.
  assert (Hready : is_Some (local_dirs (scratch_ready E w1) !! scratch_dir E)).
  { rewrite scratch_ready_dir. by eexists. }
  destruct (publish_package E pk res (scratch_dir E) manifest (scratch_ready E w1))
    as [[e | p] w2]; cbn [fst snd] in *; [by split; [| apply Hk] |].
  pose proof (publish_mint_same_dirs E res publish_type (resource_url E pk) (dos_url E pk)
                p w2) as Hd.
  destruct (publish_mint E res publish_type (resource_url E pk) (dos_url E pk) p w2)
    as [[e | minted] w3]; unfold same_dirs in Hd; cbn [fst snd] in *.
  - split; [done |]. rewrite Hd. by apply Hk.
  - unfold publish_finish. rewrite bind_run. unfold shutil_rmtree at 1.
    rewrite bind_run. unfold call at 1, modify at 1. cbv beta iota zeta.
    unfold modify at 1. cbv beta iota zeta.
    set (w4 := set_local_dirs _ _).
    pose proof (publish_after_rmtree_same_dirs E user pk minted w4) as Hrest.
    unfold same_dirs in Hrest. rewrite Hrest. apply lookup_delete_eq.
Qed.

(** The two-file resource r2 when the backend has no collection for it:
    packaging raises and the directory stays. *)
Lemma scratch_dir_fate_witness :
  let E := Demo.env 200 false in
  let out := publish_resource E "alice" "r2" "doi" Demo.world in
  out.1 = inl (ValidationError (msg_not_in_irods "r2")) /\
  is_Some (local_dirs out.2 !! scratch_dir E).
Proof.
  intros E.
  assert (Hman : get_resource_files_manifest E "r2"
                   (Demo.res "Two" "r2" [Demo.file_x; Demo.file_y]) Demo.world =
                 (inr [mkEntry (download_url E "r2/data/contents/x.txt") 7 "x.txt" None None;
                       mkEntry (download_url E "r2/data/contents/y.txt") 9 "y.txt" None None],
                  (get_resource_files_manifest E "r2"
                     (Demo.res "Two" "r2" [Demo.file_x; Demo.file_y]) Demo.world).2))
    by (vm_compute; reflexivity).
  exact (scratch_dir_fate E "alice" "r2" "doi" Demo.world
           (Demo.res "Two" "r2" [Demo.file_x; Demo.file_y]) _ _ eq_refl eq_refl Hman).
Defined.

(** ** More on the manifest builder *)

Lemma for_each_cons_run {A B} (body : A -> M B) x l w :
  for_each body (x :: l) w =
  match body x w with
  | (inl e, w1) => (inl e, w1)
  | (inr y, w1) =>
      match for_each body l w1 with
      | (inl e, w2) => (inl e, w2)
      | (inr ys, w2) => (inr (y :: ys), w2)
      end
  end.
Proof.
  simpl. rewrite bind_run. destruct (body x w) as [[e | y] w1]; [done |].
  rewrite bind_run. by destruct (for_each body l w1) as [[e | ys] w2].
Qed.

(** One iteration makes the lookups of its file, whatever comes of
    them, and touches nothing else. *)
Lemma manifest_entry_frame E short_id f w :
  let out := manifest_entry E short_id f w in
  trace out.2 = (trace w ++ manifest_lookups E f)%list /\
  resources out.2 = resources w /\ local_dirs out.2 = local_dirs w /\
  next_id out.2 = next_id w.
Proof.
  unfold manifest_entry, manifest_finally, manifest_lookups.
  unfold mbind, M_bind, call, modify, mret, M_ret, or_raise, raise. cbv beta iota zeta.
  destruct (istorage_checksum E (manifest_srcfile E f)) as [x | c].
  - destruct x; destruct (Py.truthy (reference_file_path f)); simpl;
      by rewrite <- ?app_assoc.
  - destruct (Py.truthy (reference_file_path f)); simpl;
      (destruct (Py.startswith c "sha");
       [| destruct (Py.startswith c "md5")];
       try destruct (b64decode_hex E (Py.slice_from c 4)); simpl;
       by rewrite <- ?app_assoc).
Qed.

(** An iteration that returns. *)
Lemma manifest_entry_returns E short_id f w e w' :
  manifest_entry E short_id f w = (inr e, w') ->
  lookup_benign E f /\ entry_describes E short_id f e /\ one_checksum e.
Proof.
  unfold manifest_entry, manifest_finally, lookup_benign, entry_describes, one_checksum,
    manifest_length, manifest_filename.
  unfold mbind, M_bind, call, modify, mret, M_ret, or_raise, raise. cbv beta iota zeta.
  destruct (istorage_checksum E (manifest_srcfile E f)) as [x | c].
  - destruct x; destruct (Py.truthy (reference_file_path f)); simpl; try done;
      intros [= <- _]; simpl; by repeat split; try left.
  - destruct (Py.truthy (reference_file_path f)); simpl;
      (destruct (Py.startswith c "sha");
       [| destruct (Py.startswith c "md5")];
       try destruct (b64decode_hex E (Py.slice_from c 4)); simpl; try done;
       intros [= <- _]; simpl; repeat split; try done; try (by left); by right).
Qed.

(** An iteration that raises. *)
Lemma manifest_entry_raises E short_id f w x w' :
  manifest_entry E short_id f w = (inl x, w') ->
  ~ lookup_benign E f /\ lookup_failure E f x.
Proof.
  unfold manifest_entry, manifest_finally, lookup_benign, lookup_failure.
  unfold mbind, M_bind, call, modify, mret, M_ret, or_raise, raise. cbv beta iota zeta.
  destruct (istorage_checksum E (manifest_srcfile E f)) as [y | c].
  - destruct y; destruct (Py.truthy (reference_file_path f)); simpl; try done;
      intros [= <- _]; (split; [tauto | by left]).
  - assert (Hbad : forall b : bool,
              b = true -> b64decode_hex E (Py.slice_from c 4) = None ->
              ~ (b = true -> is_Some (b64decode_hex E (Py.slice_from c 4))) /\
              (@inr Exn string c = inl (TypeError "Incorrect padding") \/
               TypeError "Incorrect padding" = TypeError "Incorrect padding" /\
               exists c', @inr Exn string c = inr c' /\
                          b64decode_hex E (Py.slice_from c' 4) = None)).
    { intros b Hb Hdec. split.
      - intros H. destruct (H Hb) as [h Hh]. congruence.
      - right. split; [done |]. by exists c. }
    destruct (Py.startswith c "sha") eqn:Hsha; [| destruct (Py.startswith c "md5") eqn:Hmd5];
      destruct (b64decode_hex E (Py.slice_from c 4)) eqn:Hdec;
      destruct (Py.truthy (reference_file_path f)); simpl; try done;
      intros [= <- _]; by apply Hbad.
Qed.

(** The loop, from any state. *)
Lemma for_each_manifest_entry_frame E short_id fs w :
  let out := for_each (manifest_entry E short_id) fs w in
  resources out.2 = resources w /\ local_dirs out.2 = local_dirs w /\
  next_id out.2 = next_id w /\
  exists n : nat,
    trace out.2 = (trace w ++ flat_map (manifest_lookups E) (take n fs))%list /\
    (forall manifest, out.1 = inr manifest -> n = List.length fs).
Proof.
  revert w. induction fs as [| f fs IH]; intros w.
  - simpl. repeat split. exists 0%nat. by rewrite app_nil_r.
  - cbv zeta. rewrite for_each_cons_run.
    destruct (manifest_entry_frame E short_id f w) as (Ht & Hr & Hd & Hn).
    destruct (manifest_entry E short_id f w) as [[x | e] w1]; cbn [fst snd] in *.
    + repeat split; try done. exists 1%nat. split; [| done].
      rewrite Ht. simpl. by rewrite ?take_0, ?app_nil_r.
    + destruct (IH w1) as (Hr' & Hd' & Hn' & n & Hev & Hall).
      destruct (for_each (manifest_entry E short_id) fs w1) as [[x | es] w2];
        cbn [fst snd] in *;
        (split; [by rewrite Hr' |]; split; [by rewrite Hd' |]; split; [by rewrite Hn' |]);
        exists (S n); (split; [rewrite Hev, Ht; simpl; by rewrite <- app_assoc |]);
        [done |].
      intros manifest _. simpl. f_equal. by apply (Hall es).
Qed.

(** X10. The manifest builder only reads: whatever its outcome, it
    leaves the persisted rows, the local directories and the key counter
    as they were, and its calls to the backend are, in the order of the
    files, the checksum lookup of each file it reached, followed for a
    referenced file by a size lookup; when it returns, it reached every
    file. *)
Theorem manifest_builder_reads_only E short_id res w :
  let out := get_resource_files_manifest E short_id res w in
  resources out.2 = resources w /\ local_dirs out.2 = local_dirs w /\
  next_id out.2 = next_id w /\
  exists n : nat,
    events_since w out.2 = flat_map (manifest_lookups E) (take n (files res)) /\
    (forall manifest, out.1 = inr manifest -> n = List.length (files res)).
Proof.
  unfold get_resource_files_manifest.
  destruct (for_each_manifest_entry_frame E short_id (files res) w)
    as (Hr & Hd & Hn & n & Ht & Hall).
  cbv zeta. split; [done |]. split; [done |]. split; [done |].
  exists n. split; [by apply events_since_app | done].
Qed.



(** X12. The manifest builder stops at the first file whose checksum
    lookup is not survivable: it raises what that lookup raised (any
    exception other than a session error), or the decoding error when
    the payload of the checksum does not decode; the backend was asked
    about the files up to that one and about none after it. *)
Theorem manifest_stops_at_first_failure E short_id res w pre f post :
  files res = (pre ++ f :: post)%list ->
  Forall (lookup_benign E) pre ->
  ~ lookup_benign E f ->
  exists x w',
    get_resource_files_manifest E short_id res w = (inl x, w') /\
    lookup_failure E f x /\
    events_since w w' = flat_map (manifest_lookups E) (pre ++ [f]).
Proof.
  unfold get_resource_files_manifest. intros -> Hpre Hf.
  cut (exists x w',
         for_each (manifest_entry E short_id) (pre ++ f :: post) w = (inl x, w') /\
         lookup_failure E f x /\
         trace w' = (trace w ++ flat_map (manifest_lookups E) (pre ++ [f]))%list).
  { intros (x & w' & Hrun & Hx & Ht). exists x, w'.
    split; [done |]. split; [done |]. by apply events_since_app. }
  revert w. induction pre as [| g pre IH]; intros w.
  - cbn [app]. rewrite for_each_cons_run.
    destruct (manifest_entry_frame E short_id f w) as (Ht & _).
    destruct (manifest_entry E short_id f w) as [[x | e] w1] eqn:He; cbn [fst snd] in *.
    + exists x, w1. split; [done |]. split; [by eapply manifest_entry_raises |].
      rewrite Ht. simpl. by rewrite app_nil_r.
    + by apply manifest_entry_returns in He as [? _].
  - apply Forall_cons in Hpre as [Hg Hpre].
    change ((g :: pre) ++ f :: post)%list with (g :: (pre ++ f :: post))%list.
    rewrite for_each_cons_run.
    destruct (manifest_entry_frame E short_id g w) as (Ht & _).
    destruct (manifest_entry E short_id g w) as [[x | e] w1] eqn:He; cbn [fst snd] in *.
    + by apply manifest_entry_raises in He as [? _].
    + destruct (IH Hpre w1) as (x & w' & -> & Hx & Ht').
      exists x, w'. split; [done |]. split; [done |].
      rewrite Ht', Ht. simpl. by rewrite <- app_assoc.
Qed.

(** r2 in a backend that has no checksum for x.txt and a checksum that
    does not decode for y.txt. *)
Lemma manifest_stops_at_first_failure_witness :
  let chk := fun p : string =>
    if String.eqb p "/zone/home/r2/data/contents/y.txt"
    then inr "sha2:bad" else inl (SessionException "CAT_NO_ROWS_FOUND") in
  let E := Demo.env_with 200 200 201 true true None chk in
  exists x w',
    get_resource_files_manifest E "r2" (Demo.res "Two" "r2" [Demo.file_x; Demo.file_y])
      Demo.world = (inl x, w') /\
    lookup_failure E Demo.file_y x /\
    events_since Demo.world w' = flat_map (manifest_lookups E) [Demo.file_x; Demo.file_y].
Proof.
  intros chk E.
  apply (manifest_stops_at_first_failure E "r2" (Demo.res "Two" "r2" [Demo.file_x; Demo.file_y])
           Demo.world [Demo.file_x] Demo.file_y []).
  - reflexivity.
  - constructor; [exact I | constructor].
  - intros H. destruct (H eq_refl) as [h Hh]. discriminate Hh.
Defined.

(** X13. A publishable resource with exactly one file cannot be
    published unless the backend has a sha checksum for that file: when
    the lookup raises a session error, or gives a checksum of another
    kind (an md5 checksum, say), the manifest is built, and
    publish_resource then raises KeyError for the missing sha256 field.
    Nothing is written to the store, and the scratch directory of the
    run is left behind. *)
Theorem single_file_needs_sha_checksum E user pk publish_type w res f :
  resources w !! pk = Some res ->
  can_be_published E res = true ->
  files res = [f] ->
  lookup_benign E f ->
  (forall c, istorage_checksum E (manifest_srcfile E f) = inr c ->
             Py.startswith c "sha" = false) ->
  let out := publish_resource E user pk publish_type w in
  out.1 = inl (KeyError "sha256") /\
  resources out.2 = resources w /\
  is_Some (local_dirs out.2 !! scratch_dir E).
Proof.
  intros Hres Hpub Hfiles Hb Hsha out. subst out.
  destruct (manifest_entry_benign E pk f w Hb) as (e & w1 & He & _).
  assert (Hnone : e_sha256 e = None).
  { destruct (e_sha256 e) as [h |] eqn:Hh; [| done].
    destruct (manifest_entry_sha256 E pk f w e w1 He) as (c & Hc & Hs); [by rewrite Hh |].
    by rewrite (Hsha c Hc) in Hs. }
  assert (Hman : get_resource_files_manifest E pk res w = (inr [e], w1)).
  { unfold get_resource_files_manifest. by rewrite Hfiles, for_each_cons_run, He. }
  rewrite publish_resource_unfold, Hres, Hpub, Hman.
  rewrite publish_package_fast_path by (rewrite Hfiles; simpl; lia).
  rewrite Hnone. cbn [fst snd]. split; [done |]. split.
  - pose proof (manifest_same_db E pk res w) as H. rewrite Hman in H. exact H.
  - rewrite scratch_ready_dir. by eexists.
Qed.

(** The resource r3, whose only file has an md5 checksum. *)
Lemma single_file_needs_sha_checksum_witness :
  let E := Demo.env 200 true in
  let out := publish_resource E "alice" "r3" "doi" Demo.world in
  out.1 = inl (KeyError "sha256") /\
  resources out.2 = resources Demo.world /\
  is_Some (local_dirs out.2 !! scratch_dir E).
Proof.
  intros E.
  apply (single_file_needs_sha_checksum E "alice" "r3" "doi" Demo.world
           (Demo.res "Three" "r3" [Demo.file_m]) Demo.file_m).
  - vm_compute. reflexivity.
  - reflexivity.
  - reflexivity.
  - intros _. by eexists.
  - intros c [= <-]. reflexivity.
Defined.

(** * More on lineage *)

(** ** Deletion, case by case *)

(** [delete_resource] on a resource that was not replaced. *)
Lemma delete_resource_run E pk w res :
  resources w !! pk = Some res ->
  relations_of_type "isReplacedBy" (relations (metadata res)) = [] ->
  delete_resource E pk w =
  match relations_of_type "isVersionOf" (relations (metadata res)) with
  | [] => (inr pk, deleted E pk w)
  | r :: _ =>
      if Py.rfind (rel_value r) "/" =? -1
      then (inl (ValueError "substring not found"), w)
      else
        match resources w !! link_target (rel_value r) with
        | None => (inl (Http404 (link_target (rel_value r))), w)
        | Some pres =>
            match relations_of_type "isReplacedBy" (relations (metadata pres)) with
            | [] => (inr pk, deleted E pk w)
            | r' :: _ =>
                (inr pk, deleted E pk (reactivated (link_target (rel_value r)) pres r' w))
            end
        end
  end.
Proof.
  intros Hres Hrep. unfold delete_resource, deleted, reactivated, link_target.
  rewrite bind_run, (get_resource_by_shortkey_run pk w res Hres).
  rewrite bind_run, (query_relations_run pk _ w res Hres), Hrep.
  rewrite bind_run, (query_relations_run pk _ w res Hres).
  destruct (relations_of_type "isVersionOf" (relations (metadata res))) as [| r rest].
  - unfold resource_delete, notify_fts_indexer, call, modify, mbind, M_bind, mret, M_ret.
    by destruct (negb (String.eqb (FTS_URL E) "")).
  - rewrite bind_run. unfold rindex at 1. rewrite bind_run.
    destruct (Py.rfind (rel_value r) "/" =? -1) eqn:Hidx; [done |].
    unfold mret at 1, M_ret at 1. rewrite Hidx.
    rewrite bind_run. unfold get_resource_by_shortkey at 1. rewrite bind_run.
    unfold get_world at 1.
    destruct (resources w !! Py.slice_from _ _) as [pres |] eqn:Hpres; [| done].
    unfold or_raise at 1, mret at 1, M_ret at 1.
    rewrite bind_run, (query_relations_run _ _ w pres Hpres).
    destruct (relations_of_type "isReplacedBy" (relations (metadata pres))) as [| r' rest'].
    + unfold resource_delete, notify_fts_indexer, call, modify, mbind, M_bind, mret, M_ret.
      by destruct (negb (String.eqb (FTS_URL E) "")).
    + unfold delete_relation, raccess_save, update_row, resource_delete, notify_fts_indexer,
        call, modify, mbind, M_bind, mret, M_ret.
      by destruct (negb (String.eqb (FTS_URL E) "")).
Qed.

Lemma deleted_rows E pk w : resources (deleted E pk w) = delete pk (resources w).
Proof. unfold deleted. by destruct (negb _). Qed.

Lemma deleted_trace E pk w :
  trace (deleted E pk w) =
  (trace w ++ if String.eqb (FTS_URL E) "" then [] else [EvNotifyFts pk])%list.
Proof.
  unfold deleted. destruct (String.eqb (FTS_URL E) ""); simpl; [by rewrite app_nil_r | done].
Qed.

(** X14. Deleting a resource that holds neither an isReplacedBy nor an
    isVersionOf relation removes its row and nothing else: every other
    row is as it was, and the only call that leaves the process is the
    notification of the full-text indexer, made exactly when an indexer
    url is configured. *)
Theorem delete_standalone_resource E pk w res :
  resources w !! pk = Some res ->
  relations_of_type "isReplacedBy" (relations (metadata res)) = [] ->
  relations_of_type "isVersionOf" (relations (metadata res)) = [] ->
  exists w',
    delete_resource E pk w = (inr pk, w') /\
    resources w' = delete pk (resources w) /\
    events_since w w' = (if String.eqb (FTS_URL E) "" then [] else [EvNotifyFts pk]).
Proof.
  intros Hres Hrep Hver. rewrite (delete_resource_run E pk w res Hres Hrep), Hver.
  eexists. split; [reflexivity |]. split; [apply deleted_rows |].
  apply events_since_app, deleted_trace.
Qed.

(** r1 in an installation with an indexer. *)
Lemma delete_standalone_resource_witness :
  let E := Demo.env_with 200 200 201 true true None Demo.checksum in
  exists w',
    delete_resource E "r1" Demo.world = (inr "r1", w') /\
    resources w' = delete "r1" (resources Demo.world) /\
    events_since Demo.world w' = (if String.eqb (FTS_URL E) "" then [] else [EvNotifyFts "r1"]).
Proof.
  intros E.
  apply (delete_standalone_resource E "r1" Demo.world (Demo.res "One" "r1" [Demo.file_a])).
  - vm_compute. reflexivity.
  - reflexivity.
  - reflexivity.
Defined.

(** X15. The link to the predecessor is cut at its last "/" with
    rindex, which raises where rfind would give -1: when the first
    isVersionOf relation of a resource that was not replaced has a value
    without a "/", delete_resource raises ValueError and deletes
    nothing; the branch that would take the whole value as the short id
    is never taken. *)
Theorem delete_resource_link_without_slash E pk w res r rest :
  resources w !! pk = Some res ->
  relations_of_type "isReplacedBy" (relations (metadata res)) = [] ->
  relations_of_type "isVersionOf" (relations (metadata res)) = r :: rest ->
  no_slash (rel_value r) ->
  delete_resource E pk w = (inl (ValueError "substring not found"), w).
Proof.
  intros Hres Hrep Hver Hslash. rewrite (delete_resource_run E pk w res Hres Hrep), Hver.
  unfold no_slash in Hslash. by rewrite Hslash.
Qed.

(** A resource whose link is the bare short id "v1". *)
Lemma delete_resource_link_without_slash_witness :
  delete_resource (Demo.env 200 true) "v2" Demo.bare_world =
  (inl (ValueError "substring not found"), Demo.bare_world).
Proof.
  apply (delete_resource_link_without_slash (Demo.env 200 true) "v2" Demo.bare_world
           Demo.v2_bare (mkRelation 8 "isVersionOf" "v1") []).
  - vm_compute. reflexivity.
  - reflexivity.
  - reflexivity.
  - reflexivity.
Defined.

(** X16. When the short id that the first isVersionOf relation ends in
    names no resource, delete_resource raises the not-found error for
    that id, and the resource it was asked to delete is still there:
    nothing has changed. *)
Theorem delete_resource_missing_predecessor E pk w res r rest base pred :
  resources w !! pk = Some res ->
  relations_of_type "isReplacedBy" (relations (metadata res)) = [] ->
  relations_of_type "isVersionOf" (relations (metadata res)) = r :: rest ->
  rel_value r = base ++ "/" ++ pred ->
  no_slash pred ->
  resources w !! pred = None ->
  delete_resource E pk w = (inl (Http404 pred), w).
Proof.
  intros Hres Hrep Hver Hval Hslash Hpred.
  rewrite (delete_resource_run E pk w res Hres Hrep), Hver.
  destruct (last_segment base pred Hslash) as [Hfind Hslice].
  unfold link_target. rewrite Hval, Hfind, Hslice, Hpred.
  destruct (Z.of_nat (String.length base) =? -1) eqn:Hidx; [| done].
  apply Z.eqb_eq in Hidx. lia.
Qed.

(** v2 in a store that does not hold v1. *)
Lemma delete_resource_missing_predecessor_witness :
  delete_resource (Demo.env 200 true) "v2" Demo.lone_world =
  (inl (Http404 "v1"), Demo.lone_world).
Proof.
  apply (delete_resource_missing_predecessor (Demo.env 200 true) "v2" Demo.lone_world
           Demo.v2 (mkRelation 8 "isVersionOf" (Demo.url_of "v1")) []
           "https://www.commonsshare.org/resource" "v1").
  - vm_compute. reflexivity.
  - reflexivity.
  - reflexivity.
  - reflexivity.
  - reflexivity.
  - vm_compute. reflexivity.
Defined.

(** X17. When the predecessor that the first isVersionOf relation names
    holds no isReplacedBy relation, delete_resource deletes the resource
    and leaves every other row, the predecessor's among them, as it was:
    the immutable flag of the predecessor is not reset. *)
Theorem delete_resource_predecessor_not_replaced E pk w res r rest base pred pres :
  resources w !! pk = Some res ->
  relations_of_type "isReplacedBy" (relations (metadata res)) = [] ->
  relations_of_type "isVersionOf" (relations (metadata res)) = r :: rest ->
  rel_value r = base ++ "/" ++ pred ->
  no_slash pred ->
  resources w !! pred = Some pres ->
  relations_of_type "isReplacedBy" (relations (metadata pres)) = [] ->
  exists w',
    delete_resource E pk w = (inr pk, w') /\
    resources w' = delete pk (resources w).
Proof.
  intros Hres Hrep Hver Hval Hslash Hpred Hprep.
  rewrite (delete_resource_run E pk w res Hres Hrep), Hver.
  destruct (last_segment base pred Hslash) as [Hfind Hslice].
  unfold link_target. rewrite Hval, Hfind, Hslice, Hpred, Hprep.
  destruct (Z.of_nat (String.length base) =? -1) eqn:Hidx;
    [apply Z.eqb_eq in Hidx; lia |].
  eexists. split; [reflexivity | apply deleted_rows].
Qed.

(** v2 with the immutable predecessor that holds no relation. *)
Lemma delete_resource_predecessor_not_replaced_witness :
  exists w',
    delete_resource (Demo.env 200 true) "v2" Demo.plain_world = (inr "v2", w') /\
    resources w' = delete "v2" (resources Demo.plain_world).
Proof.
  apply (delete_resource_predecessor_not_replaced (Demo.env 200 true) "v2" Demo.plain_world
           Demo.v2 (mkRelation 8 "isVersionOf" (Demo.url_of "v1")) []
           "https://www.commonsshare.org/resource" "v1" Demo.v1_plain).
  - vm_compute. reflexivity.
  - reflexivity.
  - reflexivity.
  - reflexivity.
  - reflexivity.
  - vm_compute. reflexivity.
  - reflexivity.
Defined.


Lemma filter_all {A} (P : A -> Prop) `{!forall x, Decision (P x)} (l : list A) :
  Forall P l -> filter P l = l.
Proof.
  induction 1 as [| x l Hx _ IH]; [done |]. by rewrite filter_cons_True, IH.
Qed.



(** ** A new version, row by row *)

Lemma copied_id_inj n rels x y :
  x ∈ copied n rels -> y ∈ copied n rels -> rel_id x = rel_id y -> x = y.
Proof.
  revert n. induction rels as [| r rs IH]; intros n; simpl.
  - by intros ?%elem_of_nil.
  - intros [-> | Hx]%elem_of_cons [-> | Hy]%elem_of_cons Hid; simpl in *.
    + done.
    + apply copied_ids in Hy. lia.
    + apply copied_ids in Hx. lia.
    + by eapply IH.
Qed.

(** Removing one copied relation by its key leaves the copied relations
    of every other type. *)
Lemma copied_filter_other_type n rels r ty :
  r ∈ copied n rels -> rel_type r <> ty ->
  relations_of_type ty (filter (fun x => rel_id x ≠ rel_id r) (copied n rels)) =
  relations_of_type ty (copied n rels).
Proof.
  intros Hr Hty. rewrite relations_of_type_filter.
  apply filter_all, Forall_forall. intros x Hx Hid.
  unfold relations_of_type in Hx. apply list_elem_of_filter in Hx as [Hxty Hx].
  apply Hty. rewrite <- Hxty. f_equal. symmetry. by eapply copied_id_inj.
Qed.

Lemma relations_of_type_snoc_ne ty l n ty' v :
  ty' <> ty ->
  relations_of_type ty (l ++ [mkRelation n ty' v]) = relations_of_type ty l.
Proof.
  intros Hne. unfold relations_of_type. rewrite filter_app.
  rewrite (filter_cons_False _ (mkRelation n ty' v)) by done.
  by rewrite filter_nil, app_nil_r.
Qed.

(** The two rows after [create_new_version_resource]. *)
Lemma create_new_version_rows E ori new user w ori_res new_res i :
  ori <> new ->
  resources w !! ori = Some ori_res ->
  resources w !! new = Some new_res ->
  is_placeholder new_res ->
  at_most_one_predecessor ori_res ->
  site_identifier_of ori_res = Some i ->
  exists w' orow nrow,
    create_new_version_resource E ori ori_res new new_res user w = (inr new, w') /\
    resources w' !! ori = Some orow /\ resources w' !! new = Some nrow /\
    relations (metadata orow) =
      (relations (metadata ori_res) ++
       [mkRelation (next_id w + List.length (relations (metadata ori_res))) "isReplacedBy"
          (resource_url E new)])%list /\
    raccess orow = set_immutable true (raccess ori_res) /\
    relations_of_type "isVersionOf" (relations (metadata nrow)) =
      [mkRelation (S (next_id w + List.length (relations (metadata ori_res)))) "isVersionOf"
         (ident_url i)] /\
    (forall ty, ty <> "isVersionOf" ->
       relations_of_type ty (relations (metadata nrow)) =
       relations_of_type ty (copied (next_id w) (relations (metadata ori_res)))) /\
    contained nrow =
      (if String.eqb (Py.lower (resource_type (cols ori_res))) "collectionresource"
       then contained ori_res else contained new_res).
Proof.
  intros Hne Hori Hnew [Hnrel Hnid] Hone Hsite.
  unfold create_new_version_resource, copy_resource_files_and_AVUs,
    copy_and_create_metadata.
  run_steps Hori Hnew.
  match goal with
  | |- context [for_each _ ?rels ?w1] =>
      destruct (copy_relations_run new rels w1) as (ys & ->)
  end.
  unfold create_identifier. run_steps Hori Hnew.
  rewrite Hnid. cbn [app]. rewrite identifiers_named_single.
  cbn [head or_raise ident_url]. run_steps Hori Hnew.
  rewrite Hnrel. cbn [app].
  assert (Hlen : (List.length (relations_of_type "isVersionOf"
                    (copied (next_id w) (relations (metadata ori_res)))) <= 1)%nat).
  { rewrite copied_type. exact Hone. }
  unfold site_identifier_of in Hsite.
  destruct (relations_of_type "isVersionOf"
              (copied (next_id w) (relations (metadata ori_res))))
    as [| r [| r2 rest]] eqn:Hinh; simpl in Hlen; [| | lia].
  all: unfold delete_relation; run_steps Hori Hnew; rewrite Hsite; cbn [or_raise];
    run_steps Hori Hnew.
  all: destruct (String.eqb _ "collectionresource");
    unfold resource_modified, resource_save, raccess_save; run_steps Hori Hnew.
  all: eexists _, _, _; (split; [reflexivity |]).
  all: read_rows; rewrite ?Hori, ?Hnew; read_fields.
  all: split; [reflexivity |]; split; [reflexivity |]; read_fields.
  all: split; [reflexivity |]; split; [reflexivity |].
  all: rewrite ?Hnrel; cbn [app].
  all: split; [rewrite relations_of_type_snoc;
               rewrite ?(relations_of_type_delete_only _ _ r Hinh), ?Hinh; reflexivity |].
  all: split; [| reflexivity].
  all: intros ty Hty; rewrite relations_of_type_snoc_ne by done; try reflexivity.
  all: assert (Hin : r ∈ relations_of_type "isVersionOf"
                         (copied (next_id w) (relations (metadata ori_res))))
         by (rewrite Hinh; apply elem_of_cons; by left).
  all: unfold relations_of_type in Hin; apply list_elem_of_filter in Hin as [Hrty Hin].
  all: apply copied_filter_other_type; [exact Hin | rewrite Hrty; congruence].
Qed.

Lemma copied_values ty n rels :
  rel_value <$> relations_of_type ty (copied n rels) =
  rel_value <$> relations_of_type ty rels.
Proof.
  unfold relations_of_type. revert n.
  induction rels as [| r rs IH]; intros n; simpl; [done |].
  rewrite !filter_cons. simpl.
  destruct (decide (rel_type r = ty)); simpl; by rewrite IH.
Qed.

Lemma filter_fresh_key (l : list Relation) k ty v :
  Forall (fun r => (rel_id r < k)%nat) l ->
  filter (fun r => rel_id r ≠ k) (l ++ [mkRelation k ty v])%list = l.
Proof.
  intros Hl. rewrite filter_app, filter_cons_False, filter_nil, app_nil_r
    by (simpl; intros H; by apply H).
  apply filter_all. eapply Forall_impl; [exact Hl |]. simpl. intros r Hr. lia.
Qed.

(** X19. Creating a new version of a resource that was not replaced
    before, and then deleting that new version, gives back the relations
    of the original as they were (the isReplacedBy relation created for
    the version is the one removed), and leaves the original editable:
    its immutable flag is cleared, also when the original was immutable
    before it was versioned. *)
Theorem version_then_delete_round_trip E ori new user w ori_res new_res i base :
  ori <> new ->
  resources w !! ori = Some ori_res ->
  resources w !! new = Some new_res ->
  is_placeholder new_res ->
  at_most_one_predecessor ori_res ->
  relations_of_type "isReplacedBy" (relations (metadata ori_res)) = [] ->
  site_identifier_of ori_res = Some i ->
  ident_url i = base ++ "/" ++ ori ->
  no_slash ori ->
  Forall (fun r => (rel_id r < next_id w)%nat) (relations (metadata ori_res)) ->
  exists w1 w2 orow,
    create_new_version_resource E ori ori_res new new_res user w = (inr new, w1) /\
    delete_resource E new w1 = (inr new, w2) /\
    resources w2 !! new = None /\
    resources w2 !! ori = Some orow /\
    relations (metadata orow) = relations (metadata ori_res) /\
    raccess orow = set_immutable false (raccess ori_res).
Proof.
  intros Hne Hori Hnew Hph Hone Hrep Hsite Hurl Hslash Hfresh.
  destruct (create_new_version_rows E ori new user w ori_res new_res i
              Hne Hori Hnew Hph Hone Hsite)
    as (w1 & orow & nrow & Hrun & Horow & Hnrow & Hrels & Hacc & Hver & Hother & _).
  assert (Hnrep : relations_of_type "isReplacedBy" (relations (metadata nrow)) = []).
  { rewrite Hother by done. apply length_zero_iff_nil. by rewrite copied_type, Hrep. }
  destruct (last_segment base ori Hslash) as [Hfind Hslice].
  pose proof (delete_resource_run E new w1 nrow Hnrow Hnrep) as Hdel.
  rewrite Hver in Hdel. unfold link_target in Hdel. cbn [rel_value] in Hdel.
  rewrite Hurl, Hfind, Hslice, Horow, Hrels in Hdel.
  rewrite relations_of_type_snoc, Hrep in Hdel. cbn [app] in Hdel.
  destruct (Z.of_nat (String.length base) =? -1) eqn:Hidx;
    [apply Z.eqb_eq in Hidx; lia |].
  eexists w1, _, _. split; [exact Hrun |]. split; [exact Hdel |].
  rewrite deleted_rows. unfold reactivated.
  split; [apply lookup_delete_eq |].
  split; [rewrite lookup_delete_ne by done; read_rows; rewrite Horow; reflexivity |].
  read_fields. rewrite Hrels, Hacc. split; [| by destruct (raccess ori_res)].
  cbn [rel_id]. apply filter_fresh_key.
  eapply Forall_impl; [exact Hfresh |]. simpl. intros r Hr. lia.
Qed.

(** The immutable v1 is versioned into v3, and v3 is deleted: v1 is as
    before, but editable. *)
Lemma version_then_delete_round_trip_witness :
  exists w1 w2 orow,
    create_new_version_resource (Demo.env 200 true) "v1" Demo.v1_plain "v3" Demo.v3 "alice"
      Demo.reissue_world = (inr "v3", w1) /\
    delete_resource (Demo.env 200 true) "v3" w1 = (inr "v3", w2) /\
    resources w2 !! "v3" = None /\
    resources w2 !! "v1" = Some orow /\
    relations (metadata orow) = relations (metadata Demo.v1_plain) /\
    raccess orow = set_immutable false (raccess Demo.v1_plain).
Proof.
  apply (version_then_delete_round_trip (Demo.env 200 true) "v1" "v3" "alice"
           Demo.reissue_world Demo.v1_plain Demo.v3 (Demo.site_identifier "v1")
           "https://www.commonsshare.org/resource").
  - discriminate.
  - vm_compute. reflexivity.
  - vm_compute. reflexivity.
  - split; reflexivity.
  - unfold at_most_one_predecessor. vm_compute. lia.
  - reflexivity.
  - reflexivity.
  - reflexivity.
  - reflexivity.
  - constructor.
Defined.

(** X20. The new version inherits the relations of the original of
    every type but isVersionOf, with their values and in their order
    (an isReplacedBy relation of an original that was already replaced
    among them); and when the original is a collection, in any letter
    case of its type name, the new version gets the members of the
    original, otherwise its members are left as they were. *)
Theorem new_version_inherits E ori new user w ori_res new_res i :
  ori <> new ->
  resources w !! ori = Some ori_res ->
  resources w !! new = Some new_res ->
  is_placeholder new_res ->
  at_most_one_predecessor ori_res ->
  site_identifier_of ori_res = Some i ->
  exists w' nrow,
    create_new_version_resource E ori ori_res new new_res user w = (inr new, w') /\
    resources w' !! new = Some nrow /\
    (forall ty, ty <> "isVersionOf" ->
       rel_value <$> relations_of_type ty (relations (metadata nrow)) =
       rel_value <$> relations_of_type ty (relations (metadata ori_res))) /\
    contained nrow =
      (if String.eqb (Py.lower (resource_type (cols ori_res))) "collectionresource"
       then contained ori_res else contained new_res).
Proof.
  intros Hne Hori Hnew Hph Hone Hsite.
  destruct (create_new_version_rows E ori new user w ori_res new_res i
              Hne Hori Hnew Hph Hone Hsite)
    as (w1 & orow & nrow & Hrun & _ & Hnrow & _ & _ & _ & Hother & Hcont).
  exists w1, nrow. split; [done |]. split; [done |]. split; [| done].
  intros ty Hty. rewrite Hother by done. apply copied_values.
Qed.

(** The collection c1, versioned into the placeholder v3. *)
Lemma new_version_inherits_witness :
  exists w' nrow,
    create_new_version_resource (Demo.env 200 true) "c1" Demo.c1 "v3" Demo.v3 "alice"
      Demo.collection_world = (inr "v3", w') /\
    resources w' !! "v3" = Some nrow /\
    (forall ty, ty <> "isVersionOf" ->
       rel_value <$> relations_of_type ty (relations (metadata nrow)) =
       rel_value <$> relations_of_type ty (relations (metadata Demo.c1))) /\
    contained nrow =
      (if String.eqb (Py.lower (resource_type (cols Demo.c1))) "collectionresource"
       then contained Demo.c1 else contained Demo.v3).
Proof.
  apply (new_version_inherits (Demo.env 200 true) "c1" "v3" "alice" Demo.collection_world
           Demo.c1 Demo.v3 (Demo.site_identifier "c1")).
  - discriminate.
  - vm_compute. reflexivity.
  - vm_compute. reflexivity.
  - split; reflexivity.
  - unfold at_most_one_predecessor. vm_compute. lia.
  - reflexivity.
Defined.

(** X21. When the original holds no hydroShareIdentifier element,
    create_new_version_resource raises IndexError: the identifier of the
    original is looked up with [0] on the result of the query. *)
Theorem new_version_needs_site_identifier E ori new user w ori_res new_res :
  ori <> new ->
  resources w !! ori = Some ori_res ->
  resources w !! new = Some new_res ->
  is_placeholder new_res ->
  site_identifier_of ori_res = None ->
  (create_new_version_resource E ori ori_res new new_res user w).1 = inl IndexError.
Proof.
  intros Hne Hori Hnew [Hnrel Hnid] Hsite.
  unfold create_new_version_resource, copy_resource_files_and_AVUs,
    copy_and_create_metadata.
  run_steps Hori Hnew.
  match goal with
  | |- context [for_each _ ?rels ?w1] =>
      destruct (copy_relations_run new rels w1) as (ys & ->)
  end.
  unfold create_identifier. run_steps Hori Hnew.
  rewrite Hnid. cbn [app]. rewrite identifiers_named_single.
  cbn [head or_raise ident_url]. run_steps Hori Hnew.
  unfold site_identifier_of in Hsite.
  destruct (relations_of_type "isVersionOf" _) as [| r rest];
    unfold delete_relation; run_steps Hori Hnew; by rewrite Hsite.
Qed.

Lemma new_version_needs_site_identifier_witness :
  (create_new_version_resource (Demo.env 200 true) "a1" Demo.anon "v3" Demo.v3 "alice"
     Demo.anon_world).1 = inl IndexError.
Proof.
  apply (new_version_needs_site_identifier (Demo.env 200 true) "a1" "v3" "alice"
           Demo.anon_world Demo.anon Demo.v3).
  - discriminate.
  - vm_compute. reflexivity.
  - vm_compute. reflexivity.
  - split; reflexivity.
  - reflexivity.
Defined.

(** * The file helpers *)

(** ** Sizes of the files to attach *)

Lemma checked_size_cases f :
  match checked_size f with
  | inr _ => size_is_none f = false
  | inl e => (exists msg, e = TypeError msg) /\ size_is_none f = true
  end.
Proof.
  unfold checked_size, size_is_none.
  destruct (is_uploaded f), (attr__size f), (attr_size f); simpl; try done;
    split; try done; by eexists.
Qed.

Lemma check_resource_files_from_shift a files :
  check_resource_files_from a files =
  match check_resource_files_from 0 files with
  | inr (st, s) => inr (st, a + s)
  | inl e => inl e
  end.
Proof.
  revert a. induction files as [| f fs IH]; intros a; simpl.
  - by rewrite Z.add_0_r.
  - destruct (checked_size f) as [e | n]; [done |].
    rewrite (IH (a + n)), (IH (0 + n)).
    destruct (check_resource_files_from 0 fs) as [e | [st s]]; [done |].
    f_equal. f_equal. lia.
Qed.

Lemma check_resource_files_from_app a l1 l2 :
  check_resource_files_from a (l1 ++ l2) =
  match check_resource_files_from a l1 with
  | inr (_, s) => check_resource_files_from s l2
  | inl e => inl e
  end.
Proof.
  revert a. induction l1 as [| f fs IH]; intros a; simpl; [done |].
  destruct (checked_size f) as [e | n]; [done |]. apply IH.
Qed.

Lemma check_resource_files_from_status a files st s :
  check_resource_files_from a files = inr (st, s) -> st = true.
Proof.
  revert a. induction files as [| f fs IH]; intros a; simpl; [by intros [= <- _] |].
  destruct (checked_size f) as [e | n]; [done | apply IH].
Qed.

(** X22. check_resource_files never reports a file as too large: when
    it returns, the status is True.  It raises only a TypeError, and
    does so exactly when some file that is not an upload has None as the
    first size attribute it carries (_size before size); uploads never
    make it raise. *)
Theorem check_resource_files_outcome files :
  match check_resource_files files with
  | inr (status, _) =>
      status = true /\ Forall (fun f => size_is_none f = false) files
  | inl e =>
      (exists msg, e = TypeError msg) /\ Exists (fun f => size_is_none f = true) files
  end.
Proof.
  unfold check_resource_files. generalize 0 as a.
  induction files as [| f fs IH]; intros a; simpl; [by split |].
  pose proof (checked_size_cases f) as Hf.
  destruct (checked_size f) as [e | n].
  - destruct Hf as [He Hn]. split; [done |]. by apply Exists_cons_hd.
  - specialize (IH (a + n)).
    destruct (check_resource_files_from (a + n) fs) as [e | [st s]].
    + destruct IH as [He Hex]. split; [done |]. by apply Exists_cons_tl.
    + destruct IH as [Hst Hall]. split; [done |]. by constructor.
Qed.

(** X23. The sum check_resource_files returns is additive and does not
    depend on the order of the files: when it returns for two lists, it
    returns for their concatenation, in either order, with the sum of
    the two sums. *)
Theorem check_resource_files_app l1 l2 st1 s1 st2 s2 :
  check_resource_files l1 = inr (st1, s1) ->
  check_resource_files l2 = inr (st2, s2) ->
  check_resource_files (l1 ++ l2) = inr (true, s1 + s2) /\
  check_resource_files (l2 ++ l1) = inr (true, s1 + s2).
Proof.
  unfold check_resource_files. intros H1 H2.
  pose proof (check_resource_files_from_status _ _ _ _ H1) as ->.
  pose proof (check_resource_files_from_status _ _ _ _ H2) as ->.
  rewrite !check_resource_files_from_app, H1, H2.
  rewrite (check_resource_files_from_shift s1), (check_resource_files_from_shift s2), H1, H2.
  split; [done |]. do 2 f_equal. lia.
Qed.

Lemma check_resource_files_app_witness :
  let upload := mkFileObj true AttrNone (AttrInt 5) None in
  let on_server := mkFileObj false NoAttr NoAttr (Some 7) in
  check_resource_files ([upload] ++ [on_server; upload]) = inr (true, 5 + 12) /\
  check_resource_files ([on_server; upload] ++ [upload]) = inr (true, 5 + 12).
Proof.
  intros upload on_server.
  apply (check_resource_files_app [upload] [on_server; upload] true 5 true 12);
    reflexivity.
Defined.

(** ** Looking a file up by name *)

(** A string either holds no "/" or splits at its last "/". *)
Lemma last_slash_split p :
  no_slash p \/ exists base pred, p = base ++ "/" ++ pred /\ no_slash pred.
Proof.
  induction p as [| a p IH]; [by left |].
  destruct IH as [Hno | (base & pred & -> & Hpred)].
  - destruct (Ascii.eqb a "/") eqn:Ha.
    + apply Ascii.eqb_eq in Ha as ->. right. by exists "", p.
    + left. unfold no_slash, Py.rfind in *. simpl.
      rewrite (rfind_from_none_shift "/" p 0 (0 + 1)) by (done || lia). simpl.
      by rewrite Ha.
  - right. by exists (String a base), pred.
Qed.

(** A base name holds no "/". *)
Lemma basename_no_slash p : no_slash (PyPath.basename p).
Proof.
  unfold PyPath.basename.
  destruct (last_slash_split p) as [Hno | (base & pred & -> & Hpred)].
  - unfold no_slash in Hno. by rewrite Hno.
  - destruct (last_segment base pred Hpred) as [-> ->]. done.
Qed.

Lemma slice_from_1 s : Py.truthy (Some s) = true ->
  exists c, s = String c (Py.slice_from s 1).
Proof. destruct s as [| c s]; [done |]. intros _. by exists c. Qed.

Lemma get_resource_file_loop_sound files filename r :
  get_resource_file_loop files filename = inr r ->
  match r with
  | FoundRow f =>
      f ∈ files /\ exists c, row_reference_file_path f = Some (String c filename)
  | FoundFieldFile name =>
      no_slash filename /\
      exists f, f ∈ files /\ row_resource_file_name f = name /\
                Py.truthy (row_reference_file_path f) = false /\
                PyPath.basename name = filename
  end.
Proof.
  induction files as [| f fs IH]; simpl; [done |].
  destruct (Py.truthy (row_reference_file_path f)) eqn:Href.
  - destruct (String.eqb _ filename) eqn:Heq.
    + intros [= <-]. split; [apply elem_of_cons; by left |].
      apply String.eqb_eq in Heq.
      destruct (row_reference_file_path f) as [s |]; [| done].
      destruct (slice_from_1 s Href) as [c Hs]. exists c. simpl in Heq. congruence.
    + intros Hr. specialize (IH Hr). destruct r as [g | name].
      * destruct IH as [Hin Hc]. split; [apply elem_of_cons; by right | done].
      * destruct IH as [Hno (g & Hin & Hg)]. split; [done |].
        exists g. split; [apply elem_of_cons; by right | done].
  - destruct (String.eqb _ filename) eqn:Heq.
    + intros [= <-]. apply String.eqb_eq in Heq.
      split; [rewrite <- Heq; apply basename_no_slash |].
      exists f. split; [apply elem_of_cons; by left | done].
    + intros Hr. specialize (IH Hr). destruct r as [g | name].
      * destruct IH as [Hin Hc]. split; [apply elem_of_cons; by right | done].
      * destruct IH as [Hno (g & Hin & Hg)]. split; [done |].
        exists g. split; [apply elem_of_cons; by right | done].
Qed.

(** X24. What get_resource_file returns is a file of the resource that
    answers to the name: for a referenced file, the row itself, whose
    reference path is the name behind one leading character; for a
    stored file, the file field (not the row) of a file whose base name
    is the name, so that a name that holds a "/" never finds a stored
    file. *)
Theorem get_resource_file_sound db pk filename r :
  get_resource_file db pk filename = inr r ->
  exists files, db !! pk = Some files /\
    match r with
    | FoundRow f =>
        f ∈ files /\ exists c, row_reference_file_path f = Some (String c filename)
    | FoundFieldFile name =>
        no_slash filename /\
        exists f, f ∈ files /\ row_resource_file_name f = name /\
                  Py.truthy (row_reference_file_path f) = false /\
                  PyPath.basename name = filename
    end.
Proof.
  unfold get_resource_file. destruct (db !! pk) as [files |]; [| done].
  intros Hr. exists files. split; [done |]. by apply get_resource_file_loop_sound.
Qed.

(** A resource with a stored file in a folder and a referenced file;
    the stored file is found by its base name. *)
Lemma get_resource_file_sound_witness :
  let stored := mkFileRow None "r5/data/contents/maps/a.txt" in
  let referenced := mkFileRow (Some "/zone/ext/b.dat") "" in
  let db : gmap string (list FileRow) := {[ "r5" := [referenced; stored] ]} in
  exists files, db !! "r5" = Some files /\
    no_slash "a.txt" /\
    exists f, f ∈ files /\ row_resource_file_name f = "r5/data/contents/maps/a.txt" /\
              Py.truthy (row_reference_file_path f) = false /\
              PyPath.basename "r5/data/contents/maps/a.txt" = "a.txt".
Proof.
  intros stored referenced db.
  apply (get_resource_file_sound db "r5" "a.txt"
           (FoundFieldFile "r5/data/contents/maps/a.txt")).
  vm_compute. reflexivity.
Defined.

(** X25. A stored file cannot be looked up by a path: for a resource
    that exists and has no referenced file, get_resource_file raises
    ObjectDoesNotExist for every name that holds a "/", whatever the
    files of the resource are. *)
Theorem get_resource_file_by_path db pk filename files :
  db !! pk = Some files ->
  Forall (fun f => Py.truthy (row_reference_file_path f) = false) files ->
  ~ no_slash filename ->
  get_resource_file db pk filename = inl (ObjectDoesNotExist filename).
Proof.
  unfold get_resource_file. intros -> Hall Hslash.
  induction Hall as [| f fs Hf _ IH]; simpl; [done |].
  rewrite Hf. destruct (String.eqb _ filename) eqn:Heq; [| exact IH].
  apply String.eqb_eq in Heq. exfalso. apply Hslash. rewrite <- Heq.
  apply basename_no_slash.
Qed.

Lemma get_resource_file_by_path_witness :
  let stored := mkFileRow None "r5/data/contents/maps/a.txt" in
  let db : gmap string (list FileRow) := {[ "r5" := [stored] ]} in
  get_resource_file db "r5" "maps/a.txt" = inl (ObjectDoesNotExist "maps/a.txt").
Proof.
  intros stored db.
  apply (get_resource_file_by_path db "r5" "maps/a.txt" [stored]).
  - vm_compute. reflexivity.
  - by repeat constructor.
  - vm_compute. discriminate.
Defined.

(** ** Adding files *)

(** The source calls in closed form: sizes by position, or all zero
    when no size is used. *)
Lemma add_sources_sized folder move is_ref sizes idx names :
  sizes <> [] -> (idx + List.length names <= List.length sizes)%nat ->
  add_sources folder move is_ref sizes idx names =
  inr (zip_with (fun n s => CallAddSource folder n s move is_ref) names (drop idx sizes)).
Proof.
  intros Hne. revert idx. induction names as [| n names IH]; intros idx Hlen; simpl in *.
  - done.
  - unfold source_size_at. destruct sizes as [| s0 sizes0] eqn:Hs; [done |].
    rewrite <- Hs in *.
    destruct (sizes !! idx) as [s |] eqn:Hidx;
      [| apply lookup_ge_None in Hidx; lia].
    rewrite IH by lia.
    by rewrite (drop_S sizes s idx Hidx).
Qed.

Lemma add_sources_unsized folder move is_ref idx names :
  add_sources folder move is_ref [] idx names =
  inr (map (fun n => CallAddSource folder n 0 move is_ref) names).
Proof.
  revert idx. induction names as [| n names IH]; intros idx; simpl; [done |].
  by rewrite IH.
Qed.

Lemma zip_with_const_length {A B C} (f : A -> B -> C) (l : list A) (k : list B) :
  List.length l = List.length k -> List.length (zip_with f l k) = List.length l.
Proof. intros H. rewrite length_zip_with. lia. Qed.

(** The run of [add_resource_files]: it returns, with these calls. *)
Lemma add_resource_files_run fts files names sizes is_ref move folder :
  add_resource_files fts files names sizes is_ref move folder =
  inr (flat_map (add_uploaded folder) files ++
       (if (List.length names =? List.length sizes)%nat
        then zip_with (fun n s => CallAddSource folder n s move is_ref) names sizes
        else map (fun n => CallAddSource folder n 0 move is_ref) names) ++
       [CallCreateEmptyContentsDirectory] ++
       (if negb (String.eqb fts "") then [CallNotifyFts] else []))%list.
Proof.
  unfold add_resource_files.
  destruct (0 <? List.length names)%nat eqn:Hpos.
  - destruct (List.length names =? List.length sizes)%nat eqn:Heq; simpl.
    + apply Nat.eqb_eq in Heq. apply Nat.ltb_lt in Hpos.
      rewrite add_sources_sized; [done | | simpl; lia].
      intros ->. simpl in Heq. lia.
    + by rewrite add_sources_unsized.
  - apply Nat.ltb_ge in Hpos. destruct names; [| simpl in Hpos; lia]. simpl.
    by destruct (List.length sizes).
Qed.

Lemma add_uploaded_adds_one folder name :
  List.length (filter (fun c => is_add_call c = true) (add_uploaded folder name)) = 1%nat /\
  filter (fun c => is_source_call c = true) (add_uploaded folder name) = [] /\
  (CallCreateEmptyContentsDirectory ∉ add_uploaded folder name) /\
  (CallNotifyFts ∉ add_uploaded folder name).
Proof.
  unfold add_uploaded. destruct (String.eqb _ ".jsonld"); repeat split; try done;
    rewrite ?elem_of_cons, elem_of_nil; intros H;
    repeat (destruct H as [H | H]; [discriminate H |]); done.
Qed.

Lemma uploaded_calls folder files :
  List.length (filter (fun c => is_add_call c = true) (flat_map (add_uploaded folder) files))
    = List.length files /\
  filter (fun c => is_source_call c = true) (flat_map (add_uploaded folder) files) = [] /\
  (CallCreateEmptyContentsDirectory ∉ flat_map (add_uploaded folder) files) /\
  (CallNotifyFts ∉ flat_map (add_uploaded folder) files).
Proof.
  induction files as [| f fs (IH1 & IH2 & IH3 & IH4)]; simpl.
  - repeat split; try done; by intros ?%elem_of_nil.
  - destruct (add_uploaded_adds_one folder f) as (H1 & H2 & H3 & H4).
    rewrite !filter_app, length_app, H1, H2, IH1, IH2.
    repeat split; try done; rewrite elem_of_app; tauto.
Qed.

Lemma source_calls_all (calls : list FileCall) :
  Forall (fun c => is_source_call c = true) calls ->
  List.length (filter (fun c => is_add_call c = true) calls) = List.length calls /\
  filter (fun c => is_source_call c = true) calls = calls /\
  (CallCreateEmptyContentsDirectory ∉ calls) /\ (CallNotifyFts ∉ calls).
Proof.
  intros Hall. split; [| split; [by apply filter_all | split]].
  - f_equal. apply filter_all. eapply Forall_impl; [exact Hall |]. by intros [].
  - intros Hin. rewrite Forall_forall in Hall. by specialize (Hall _ Hin).
  - intros Hin. rewrite Forall_forall in Hall. by specialize (Hall _ Hin).
Qed.

Lemma sized_sources_are_sources folder move is_ref names (sizes : list Z) :
  Forall (fun c => is_source_call c = true)
    (zip_with (fun n s => CallAddSource folder n s move is_ref) names sizes).
Proof.
  revert sizes. induction names as [| n names IH]; intros [| s sizes]; simpl;
    try constructor; [done | apply IH].
Qed.

Lemma unsized_sources_are_sources folder move is_ref (names : list string) :
  Forall (fun c => is_source_call c = true)
    (map (fun n => CallAddSource folder n 0 move is_ref) names).
Proof. induction names; simpl; by constructor. Qed.

Lemma elem_of_flat_map {A B} (f : A -> list B) (l : list A) y :
  y ∈ flat_map f l <-> exists x, x ∈ l /\ y ∈ f x.
Proof.
  induction l as [| a l IH]; simpl.
  - split; [by intros ?%elem_of_nil | by intros (x & ?%elem_of_nil & _)].
  - rewrite elem_of_app, IH. split.
    + intros [H | (x & Hx & H)].
      * exists a. split; [apply elem_of_cons; by left | done].
      * exists x. split; [apply elem_of_cons; by right | done].
    + intros (x & [-> | Hx]%elem_of_cons & H); [by left | right; by exists x].
Qed.

(** X26. add_resource_files always returns: the index into the source
    sizes never runs out of range.  It makes one call of
    add_file_to_resource per uploaded file and per source name, so it
    returns that many results; after all of them it creates the contents
    directory, once, and then notifies the indexer, exactly when an
    indexer url is configured. *)
Theorem add_resource_files_calls fts files names sizes is_ref move folder :
  exists adds,
    add_resource_files fts files names sizes is_ref move folder =
      inr (adds ++ CallCreateEmptyContentsDirectory ::
             (if String.eqb fts "" then [] else [CallNotifyFts]))%list /\
    List.length (filter (fun c => is_add_call c = true) adds) =
      (List.length files + List.length names)%nat /\
    (CallCreateEmptyContentsDirectory ∉ adds) /\ (CallNotifyFts ∉ adds).
Proof.
  rewrite add_resource_files_run.
  destruct (uploaded_calls folder files) as (U1 & _ & U3 & U4).
  set (sources := if (List.length names =? List.length sizes)%nat then _ else _).
  assert (Hsrc : Forall (fun c => is_source_call c = true) sources /\
                  List.length sources = List.length names).
  { subst sources. destruct (List.length names =? List.length sizes)%nat eqn:Heq.
    - apply Nat.eqb_eq in Heq. split; [apply sized_sources_are_sources |].
      by apply zip_with_const_length.
    - split; [apply unsized_sources_are_sources | apply length_map]. }
  destruct Hsrc as [Hsrc Hlen].
  destruct (source_calls_all sources Hsrc) as (S1 & _ & S3 & S4).
  exists (flat_map (add_uploaded folder) files ++ sources)%list. split.
  - rewrite <- app_assoc. do 3 f_equal. by destruct (String.eqb fts "").
  - rewrite filter_app, length_app, U1, S1, Hlen.
    split; [done |]. split; rewrite elem_of_app; tauto.
Qed.

(** X27. The sizes handed on for the source names are the given ones by
    position when there are as many sizes as names, and zero for every
    name otherwise: a size list of another length is dropped as a
    whole, not used in part. *)
Theorem add_resource_files_source_sizes fts files names sizes is_ref move folder :
  exists calls,
    add_resource_files fts files names sizes is_ref move folder = inr calls /\
    filter (fun c => is_source_call c = true) calls =
      if (List.length names =? List.length sizes)%nat
      then zip_with (fun n s => CallAddSource folder n s move is_ref) names sizes
      else map (fun n => CallAddSource folder n 0 move is_ref) names.
Proof.
  rewrite add_resource_files_run. eexists. split; [reflexivity |].
  destruct (uploaded_calls folder files) as (_ & U2 & _).
  rewrite !filter_app, U2. cbn [app].
  assert (Htail : filter (fun c => is_source_call c = true)
                    ([CallCreateEmptyContentsDirectory] ++
                     (if negb (String.eqb fts "") then [CallNotifyFts] else []))%list = []).
  { by destruct (negb (String.eqb fts "")). }
  rewrite filter_app in Htail. rewrite Htail, app_nil_r.
  destruct (List.length names =? List.length sizes)%nat.
  - apply filter_all, sized_sources_are_sources.
  - apply filter_all, unsized_sources_are_sources.
Qed.

(** X28. The files taken for semantic metadata are those whose
    extension, in any letter case, is .jsonld: ontology ids are
    harvested from exactly these, and they are added to the folder
    "metadata" whatever folder was asked for; every other uploaded file
    is added to the folder that was asked for. *)
Theorem add_resource_files_metadata fts files names sizes is_ref move folder :
  exists calls,
    add_resource_files fts files names sizes is_ref move folder = inr calls /\
    (forall name, CallHarvestOntologyIds name ∈ calls <->
                  name ∈ files /\ is_jsonld name = true) /\
    (forall name fo, CallAddFile name fo ∈ calls <->
                     name ∈ files /\
                     fo = if is_jsonld name then Some "metadata" else folder).
Proof.
  rewrite add_resource_files_run. eexists. split; [reflexivity |].
  set (sources := if (List.length names =? List.length sizes)%nat then _ else _).
  assert (Hsrc : Forall (fun c => is_source_call c = true) sources).
  { subst sources. destruct (List.length names =? List.length sizes)%nat;
      [apply sized_sources_are_sources | apply unsized_sources_are_sources]. }
  rewrite Forall_forall in Hsrc.
  assert (Htail : forall c, is_source_call c = false ->
            c <> CallCreateEmptyContentsDirectory -> c <> CallNotifyFts ->
            c ∈ (flat_map (add_uploaded folder) files ++ sources ++
                 [CallCreateEmptyContentsDirectory] ++
                 (if negb (String.eqb fts "") then [CallNotifyFts] else []))%list <->
            exists f, f ∈ files /\ c ∈ add_uploaded folder f).
  { intros c Hc H1 H2. rewrite !elem_of_app, elem_of_flat_map. split.
    - intros [H | [H | [H | H]]]; [done | | |].
      + by rewrite (Hsrc _ H) in Hc.
      + by apply list_elem_of_singleton in H.
      + destruct (negb _); [by apply list_elem_of_singleton in H | by apply elem_of_nil in H].
    - by left. }
  split.
  - intros name. rewrite Htail by done. unfold add_uploaded, is_jsonld. split.
    + intros (f & Hf & Hin). destruct (String.eqb _ ".jsonld") eqn:Hj.
      * apply elem_of_cons in Hin as [[= ->] | Hin]; [by rewrite Hj |].
        by apply list_elem_of_singleton in Hin.
      * by apply list_elem_of_singleton in Hin.
    + intros [Hf Hj]. exists name. split; [done |]. rewrite Hj. apply elem_of_cons. by left.
  - intros name fo. rewrite Htail by done. unfold add_uploaded, is_jsonld. split.
    + intros (f & Hf & Hin). destruct (String.eqb (Py.lower (PyPath.splitext f).2) ".jsonld") eqn:Hj.
      * apply elem_of_cons in Hin as [[=] | Hin].
        apply list_elem_of_singleton in Hin. injection Hin as -> ->. by rewrite Hj.
      * apply list_elem_of_singleton in Hin. injection Hin as -> ->. by rewrite Hj.
    + intros [Hf ->]. exists name. split; [done |].
      destruct (String.eqb _ ".jsonld"); [apply elem_of_cons; right |];
        by apply list_elem_of_singleton.
Qed.

(** ** Format elements after a file is deleted *)

(** X29. After a file is deleted, the format elements of the resource
    are left as they are when a file that is still in the resource has
    the extension of the deleted file (compared as written, so in the
    same letter case), or when no format element holds the mime type of
    the deleted file. *)
Theorem format_metadata_kept get_file_mime_type files formats file_name :
  (exists f, f ∈ files /\ extension_of f = (PyPath.splitext file_name).2) \/
  Forall (fun e => fmt_value e <> get_file_mime_type file_name) formats ->
  delete_format_metadata_after_delete_file get_file_mime_type files formats file_name
    = formats.
Proof.
  unfold delete_format_metadata_after_delete_file. intros [(f & Hf & Hext) | Hnone].
  - rewrite bool_decide_eq_true_2; [done |].
    apply list_elem_of_In, in_map_iff. exists f. split; [done | by apply list_elem_of_In].
  - destruct (bool_decide _); [done |].
    destruct (filter _ formats) as [| e rest] eqn:Hflt; [done |].
    assert (He : e ∈ filter (fun e => fmt_value e = get_file_mime_type file_name) formats)
      by (rewrite Hflt; apply elem_of_cons; by left).
    apply list_elem_of_filter in He as [Hv He].
    rewrite Forall_forall in Hnone. by destruct (Hnone e He).
Qed.

(** a.txt is still there when b.txt is deleted. *)
Lemma format_metadata_kept_witness :
  delete_format_metadata_after_delete_file (fun _ => "text/plain") [Demo.file_a]
    [mkFormat 1 "text/plain"] "r1/data/contents/b.txt" = [mkFormat 1 "text/plain"].
Proof.
  apply (format_metadata_kept (fun _ => "text/plain") [Demo.file_a]
           [mkFormat 1 "text/plain"] "r1/data/contents/b.txt").
  left. exists Demo.file_a. split; [apply elem_of_cons; by left | reflexivity].
Defined.


